(** * Quiz: question acquisition, throttle, cache and game payout

    A shallow embedding of [src/services/questionService.ts],
    [src/components/QuizGame.tsx] and [src/data/questions.ts].

    JavaScript values are modelled as follows.
    - Numbers that the code handles are epoch milliseconds, small counters,
      indices and prize amounts: integers far inside the exactly
      representable range, so a number is a [Z] or [NaN].
    - [localStorage] is a finite map from string keys to string values that
      can also refuse access, the way a browser store does.
    - [Date.now()] reads a clock that stands still while synchronous code
      runs and advances across an [await].
    - [Math.random()] reads the next element of an explicit stream of draws
      from the unit interval, each a multiple of [2^-53]; the product of a
      draw and an integer is rounded the way a double is.
    - Exceptions are values of [Exn]; a computation is a state transformer
      over [World] that either returns or throws. *)

From Stdlib Require Import ZArith Ascii Decimal DecimalString DecimalZ.
From stdpp Require Import gmap strings list sorting.

Local Open Scope string_scope.
Local Open Scope list_scope.
Local Open Scope Z_scope.

(** ** JavaScript numbers *)

Module Js.

Inductive number := Num (z : Z) | NaN.

Definition sub (a b : number) : number :=
  match a, b with Num x, Num y => Num (x - y) | _, _ => NaN end.

Definition add (a b : number) : number :=
  match a, b with Num x, Num y => Num (x + y) | _, _ => NaN end.

(** Every comparison with [NaN] is false. *)
Definition gt (a b : number) : bool :=
  match a, b with Num x, Num y => x >? y | _, _ => false end.

Definition ge (a b : number) : bool :=
  match a, b with Num x, Num y => x >=? y | _, _ => false end.

(** [n.toString()] for an integer: the decimal digits, with a leading minus
    sign for negative numbers. *)
Definition toString (n : number) : string :=
  match n with
  | Num z => NilZero.string_of_int (Z.to_int z)
  | NaN => "NaN"
  end.

(** [parseInt(s, 10)]: leading white space (tab, line feed, vertical tab,
    form feed, carriage return, space) is skipped, an optional sign is read,
    then the longest prefix of decimal digits; anything after it is ignored.
    No digit at all gives [NaN]. *)
Definition is_whitespace (c : ascii) : bool :=
  let n := nat_of_ascii c in
  ((9 <=? n) && (n <=? 13))%nat || (n =? 32)%nat.

Fixpoint trim_start (s : string) : string :=
  match s with
  | String c s' => if is_whitespace c then trim_start s' else s
  | EmptyString => EmptyString
  end.

Definition digit_of (c : ascii) : option (uint -> uint) :=
  match c with
  | "0"%char => Some D0 | "1"%char => Some D1 | "2"%char => Some D2
  | "3"%char => Some D3 | "4"%char => Some D4 | "5"%char => Some D5
  | "6"%char => Some D6 | "7"%char => Some D7 | "8"%char => Some D8
  | "9"%char => Some D9 | _ => None
  end.

Fixpoint digits_prefix (s : string) : uint :=
  match s with
  | String c s' =>
      match digit_of c with
      | Some d => d (digits_prefix s')
      | None => Nil
      end
  | EmptyString => Nil
  end.

Definition parse_digits (s : string) : number :=
  match digits_prefix s with
  | Nil => NaN
  | d => Num (Z.of_uint d)
  end.

Definition neg (n : number) : number :=
  match n with Num z => Num (- z) | NaN => NaN end.

Definition parseInt (s : string) : number :=
  match trim_start s with
  | String "-"%char s' => neg (parse_digits s')
  | String "+"%char s' => parse_digits s'
  | s' => parse_digits s'
  end.

(** A string is falsy exactly when it is empty; [null] is falsy. *)
Definition truthy (v : option string) : bool :=
  match v with
  | Some (String _ _) => true
  | _ => false
  end.

(** [v || d] on an optional string. *)
Definition or_else (v : option string) (d : string) : string :=
  match v with
  | Some (String c s) => String c s
  | _ => d
  end.

(** A double holds 53 significant bits. [round53 p] is the double nearest
    to [p / 2^53] for an integer [p >= 0], ties to even, as a numerator over
    [2^53] again: what a floating-point operation returns whose exact result
    is [p / 2^53]. *)
Definition round53 (p : Z) : Z :=
  let s := Z.log2 p - 52 in
  if s <=? 0 then p
  else
    let q := p / 2 ^ s in
    let r := p mod 2 ^ s in
    let half := 2 ^ (s - 1) in
    if (r <? half) || ((r =? half) && Z.even q) then q * 2 ^ s else (q + 1) * 2 ^ s.

(** [Math.floor(r * n)] for a draw [r = k / 2^53] of [Math.random()] and an
    array length or other small natural number [n]: the product is rounded
    before it is floored. *)
Definition floor_scale (k n : Z) : Z := round53 (k * n) / 2 ^ 53.

End Js.

(** ** Data model of the question service *)

(** [interface ApiQuestion]. A record of the remote source can lack its
    [incorrect_answers] field, which the formatter tests for. *)
Record ApiQuestion := {
  api_category : string;
  api_type : string;
  api_difficulty : string;
  api_question : string;
  correct_answer : string;
  incorrect_answers : option (list string)
}.

(** [interface FormattedQuestion]. The difficulty is the string the record
    carries: the type annotation is erased at run time. *)
Record FormattedQuestion := {
  id : Z;
  question : string;
  options : list string;
  correctAnswer : Z;
  category : string;
  difficulty : string;
  value : Z
}.

(** What [JSON.parse] can hand back and [fetchQuestions] can therefore
    return: an array of questions, [null], another falsy value ([false],
    [0], the empty string), or some other truthy value that is no question
    array. *)
Inductive JsValue :=
  | Questions (qs : list FormattedQuestion)
  | Null
  | Falsy
  | Foreign.

Definition is_truthy (v : JsValue) : bool :=
  match v with Null | Falsy => false | _ => true end.

(** The browser facilities the service calls and does not define: the DOM
    text decoding behind [decodeHTMLEntities] and the JSON codec.
    [JSON_parse] is [None] where [JSON.parse] throws a [SyntaxError]. *)
Class Host := {
  decodeHTMLEntities : string -> string;
  JSON_stringify : list FormattedQuestion -> string;
  JSON_parse : string -> option JsValue
}.

(** ** Exceptions, the world and the computation monad *)

Inductive Exn :=
  | AxiosError (response_status : option Z)
  | DOMException (name : string)
  | TypeError (message : string)
  | SyntaxError
  | Error (message : string).

Inductive Outcome (A : Type) :=
  | Returned (a : A)
  | Thrown (e : Exn).
Arguments Returned {A} a.
Arguments Thrown {A} e.

(** A browser store is available, or full (reads work, writes throw
    [QuotaExceededError]), or closed to the page (every access throws
    [SecurityError]). *)
Inductive StorageMode := Available | QuotaExceeded | AccessDenied.

(** One draw of [Math.random()]: [mantissa / 2^53], in the unit interval. *)
Record Draw := {
  mantissa : Z;
  mantissa_range : (0 <=? mantissa) && (mantissa <? 2 ^ 53) = true
}.

Record Response := {
  status : Z;
  data : option (option Z * option (list ApiQuestion))
}.

(** How one request of the remote source ends: after [latency] milliseconds
    its promise is fulfilled with a response or rejected with an error. *)
Record Settlement := {
  latency : Z;
  settled : Response + Exn
}.

Record World := {
  items : gmap string string;
  mode : StorageMode;
  clock : Z;
  draws : nat -> Draw;
  cursor : nat;
  remote : string -> Settlement;
  requests : list string
}.

Definition set_items (f : gmap string string -> gmap string string) (w : World) : World :=
  {| items := f (items w); mode := mode w; clock := clock w; draws := draws w;
     cursor := cursor w; remote := remote w; requests := requests w |}.

Definition set_clock (t : Z) (w : World) : World :=
  {| items := items w; mode := mode w; clock := t; draws := draws w;
     cursor := cursor w; remote := remote w; requests := requests w |}.

Definition set_cursor (n : nat) (w : World) : World :=
  {| items := items w; mode := mode w; clock := clock w; draws := draws w;
     cursor := n; remote := remote w; requests := requests w |}.

Definition set_requests (l : list string) (w : World) : World :=
  {| items := items w; mode := mode w; clock := clock w; draws := draws w;
     cursor := cursor w; remote := remote w; requests := l |}.

Definition M (A : Type) : Type := World -> Outcome A * World.

Definition ret {A} (a : A) : M A := fun w => (Returned a, w).

Definition throw {A} (e : Exn) : M A := fun w => (Thrown e, w).

Definition bind {A B} (c : M A) (k : A -> M B) : M B := fun w =>
  match c w with
  | (Returned a, w') => k a w'
  | (Thrown e, w') => (Thrown e, w')
  end.

(** [try { body } catch (e) { handler }]: what [body] did to the world before
    it threw stays done. *)
Definition try_catch {A} (body : M A) (handler : Exn -> M A) : M A := fun w =>
  match body w with
  | (Returned a, w') => (Returned a, w')
  | (Thrown e, w') => handler e w'
  end.

#[global] Instance M_ret : MRet M := @ret.
#[global] Instance M_bind : MBind M := fun A B k c => bind c k.

(** Exposes the state passing behind the monad operations. *)
Ltac unfold_monad :=
  unfold mbind, M_bind, bind, mret, M_ret, ret, throw, try_catch in *.

Definition Date_now : M Z := fun w => (Returned (clock w), w).

Definition Math_random : M Draw := fun w =>
  (Returned (draws w (cursor w)), set_cursor (S (cursor w)) w).

Definition localStorage_getItem (key : string) : M (option string) := fun w =>
  match mode w with
  | AccessDenied => (Thrown (DOMException "SecurityError"), w)
  | _ => (Returned (items w !! key), w)
  end.

Definition localStorage_setItem (key val : string) : M unit := fun w =>
  match mode w with
  | Available => (Returned tt, set_items (insert key val) w)
  | QuotaExceeded => (Thrown (DOMException "QuotaExceededError"), w)
  | AccessDenied => (Thrown (DOMException "SecurityError"), w)
  end.

(** [await new Promise(resolve => setTimeout(resolve, ms))]. *)
Definition sleep (ms : Z) : M unit := fun w =>
  (Returned tt, set_clock (clock w + ms) w).

(** The rejection that settles first, the earlier request winning a tie. *)
Fixpoint first_rejection (l : list Settlement) : option (Z * Exn) :=
  match l with
  | [] => None
  | s :: l' =>
      match settled s, first_rejection l' with
      | inr e, Some (t, e') => if latency s <=? t then Some (latency s, e) else Some (t, e')
      | inr e, None => Some (latency s, e)
      | inl _, r => r
      end
  end.

Fixpoint fulfilled (l : list Settlement) : list Response :=
  match l with
  | [] => []
  | s :: l' =>
      match settled s with
      | inl r => r :: fulfilled l'
      | inr _ => fulfilled l'
      end
  end.

(** [await Promise.all(urls.map(u => axios.get(u)))]: every request is sent;
    the result is the list of responses once the slowest has arrived, or the
    first rejection as soon as it happens. *)
Definition await_all_get (urls : list string) : M (list Response) := fun w =>
  let outcomes := map (remote w) urls in
  let w' := set_requests (requests w ++ urls) w in
  match first_rejection outcomes with
  | Some (t, e) => (Thrown e, set_clock (clock w + t) w')
  | None =>
      (Returned (fulfilled outcomes),
       set_clock (clock w + foldr Z.max 0 (map latency outcomes)) w')
  end.

(** ** Array helpers *)

(** [[a[i], a[j]] = [a[j], a[i]]] *)
Definition swap {A} (i j : nat) (arr : list A) : list A :=
  match arr !! i, arr !! j with
  | Some x, Some y => <[j:=x]> (<[i:=y]> arr)
  | _, _ => arr
  end.

(** [array.findIndex(p)], [-1] when no element satisfies [p]. *)
Fixpoint findIndex_from {A} (p : A -> bool) (l : list A) (i : Z) : Z :=
  match l with
  | [] => -1
  | x :: l' => if p x then i else findIndex_from p l' (i + 1)
  end.

Definition findIndex {A} (p : A -> bool) (l : list A) : Z := findIndex_from p l 0.

(** [array.slice(0, e)]: a negative [e] counts from the end. *)
Definition slice0 {A} (l : list A) (e : Z) : list A :=
  if e <? 0 then take (Z.to_nat (Z.max (Z.of_nat (length l) + e) 0)) l
  else take (Z.to_nat e) l.

(** [array.sort(cmp)] for a comparator that is a function of its arguments:
    the sort is stable, so its result is the one of a stable insertion
    sort. [x] goes in front of the first element it does not exceed. *)
Fixpoint sort_insert {A} (cmp : A -> A -> Z) (x : A) (l : list A) : list A :=
  match l with
  | [] => [x]
  | y :: l' => if cmp x y <=? 0 then x :: y :: l' else y :: sort_insert cmp x l'
  end.

Definition Array_sort {A} (cmp : A -> A -> Z) (l : list A) : list A :=
  foldr (sort_insert cmp) [] l.

(** [array.sort(cmp)] for a comparator with effects (it draws random
    numbers): an insertion sort that asks [cmp] for every comparison. Which
    pairs are compared, and in which order, is the choice of the engine; the
    statements about this sort use only that it returns a permutation of
    its argument. *)
Fixpoint sort_insertM {A} (cmp : A -> A -> M Z) (x : A) (l : list A) : M (list A) :=
  match l with
  | [] => mret [x]
  | y :: l' =>
      c ← cmp x y;
      if c <? 0 then mret (x :: y :: l')
      else l'' ← sort_insertM cmp x l'; mret (y :: l'')
  end.

Fixpoint Array_sortM_from {A} (cmp : A -> A -> M Z) (sorted rest : list A) : M (list A) :=
  match rest with
  | [] => mret sorted
  | x :: rest' => sorted' ← sort_insertM cmp x sorted; Array_sortM_from cmp sorted' rest'
  end.

Definition Array_sortM {A} (cmp : A -> A -> M Z) (l : list A) : M (list A) :=
  Array_sortM_from cmp [] l.

(** [array.map((q, index) => f(q, index))] for a callback that can throw. *)
Fixpoint mapM_from {A B} (f : A -> nat -> M B) (l : list A) (index : nat) : M (list B) :=
  match l with
  | [] => mret []
  | x :: l' => y ← f x index; ys ← mapM_from f l' (S index); mret (y :: ys)
  end.

(** ** questionService.ts *)

(** The prize ladders by difficulty. The object is modelled by its three own
    keys; a lookup of any other string finds nothing. The names that every
    object inherits ([constructor], [toString] and the like), where the code
    finds a function in place of a ladder, are left out. *)
Definition difficultyValueMap : gmap string (list Z) :=
  <["easy" := [100; 200; 300; 500; 1000]]>
  (<["medium" := [2000; 4000; 8000; 16000; 32000]]>
  (<["hard" := [64000; 125000; 250000; 500000; 1000000]]> ∅)).

(** Fisher-Yates: [for (let i = length - 1; i > 0; i--)] with
    [j = Math.floor(Math.random() * (i + 1))]. *)
Fixpoint shuffle_loop {A} (i : nat) (newArray : list A) : M (list A) :=
  match i with
  | O => mret newArray
  | S i' =>
      r ← Math_random;
      let j := Z.to_nat (Js.floor_scale (mantissa r) (Z.of_nat i + 1)) in
      shuffle_loop i' (swap i j newArray)
  end.

Definition shuffleArray {A} (array : list A) : M (list A) :=
  shuffle_loop (length array - 1) array.

Definition CACHE_KEY := "quizquest_questions_cache".
Definition CACHE_TIMESTAMP_KEY := "quizquest_cache_timestamp".
Definition API_COOLDOWN_KEY := "quizquest_api_cooldown".
Definition REQUEST_COUNT_KEY := "quizquest_request_count".
Definition LAST_REQUEST_TIME_KEY := "quizquest_last_request".

Definition CACHE_EXPIRY : Z := 24 * 60 * 60 * 1000.
Definition API_COOLDOWN : Z := 30 * 60 * 1000.

(** The bundled corpus of one hundred questions. *)
Definition getAllFallbackQuestions : list FormattedQuestion := [
  Build_FormattedQuestion 1 "Which planet is known as the Red Planet?"
    ["Venus"; "Mars"; "Jupiter"; "Saturn"] 1 "Science" "easy" 100;
  Build_FormattedQuestion 2 "Which country is known as the Land of the Rising Sun?"
    ["China"; "Korea"; "Japan"; "Vietnam"] 2 "Geography" "easy" 200;
  Build_FormattedQuestion 3 "Who painted the Mona Lisa?"
    ["Vincent Van Gogh"; "Pablo Picasso"; "Leonardo da Vinci"; "Michelangelo"] 2 "Art" "easy" 300;
  Build_FormattedQuestion 4 "What is the capital of Australia?"
    ["Sydney"; "Melbourne"; "Perth"; "Canberra"] 3 "Geography" "easy" 500;
  Build_FormattedQuestion 5 "Which element has the chemical symbol 'O'?"
    ["Gold"; "Oxygen"; "Osmium"; "Oganesson"] 1 "Science" "easy" 1000;
  Build_FormattedQuestion 6 "Who wrote 'Romeo and Juliet'?"
    ["Charles Dickens"; "William Shakespeare"; "Jane Austen"; "Mark Twain"] 1 "Literature" "medium" 2000;
  Build_FormattedQuestion 7 "Which famous scientist developed the theory of relativity?"
    ["Isaac Newton"; "Niels Bohr"; "Albert Einstein"; "Marie Curie"] 2 "Science" "medium" 4000;
  Build_FormattedQuestion 8 "What is the largest ocean on Earth?"
    ["Atlantic Ocean"; "Indian Ocean"; "Arctic Ocean"; "Pacific Ocean"] 3 "Geography" "medium" 8000;
  Build_FormattedQuestion 9 "Which of these is NOT a primary color in the RGB color model?"
    ["Red"; "Green"; "Blue"; "Yellow"] 3 "Art" "medium" 16000;
  Build_FormattedQuestion 10 "Which planet has the most moons?"
    ["Jupiter"; "Saturn"; "Uranus"; "Neptune"] 1 "Science" "hard" 32000;
  Build_FormattedQuestion 11 "In what year did the Berlin Wall fall?"
    ["1987"; "1989"; "1991"; "1993"] 1 "History" "hard" 64000;
  Build_FormattedQuestion 12 "Which of these programming languages was developed first?"
    ["Python"; "Java"; "C++"; "FORTRAN"] 3 "Technology" "hard" 125000;
  Build_FormattedQuestion 13 "Which composer was deaf when he completed his Ninth Symphony?"
    ["Wolfgang Amadeus Mozart"; "Ludwig van Beethoven"; "Johann Sebastian Bach"; "Franz Schubert"] 1 "Music" "hard" 250000;
  Build_FormattedQuestion 14 "The Aztec Empire was located in what is now which country?"
    ["Peru"; "Colombia"; "Mexico"; "Brazil"] 2 "History" "hard" 500000;
  Build_FormattedQuestion 15 "What is the world's most expensive spice by weight?"
    ["Vanilla"; "Cardamom"; "Saffron"; "Cinnamon"] 2 "Food" "hard" 1000000;
  Build_FormattedQuestion 16 "Which vitamin is produced by the skin when exposed to sunlight?"
    ["Vitamin A"; "Vitamin C"; "Vitamin D"; "Vitamin K"] 2 "Science" "easy" 100;
  Build_FormattedQuestion 17 "What is the capital of France?"
    ["London"; "Berlin"; "Paris"; "Madrid"] 2 "Geography" "easy" 200;
  Build_FormattedQuestion 18 "Which famous physicist developed the theory of general relativity?"
    ["Isaac Newton"; "Albert Einstein"; "Stephen Hawking"; "Niels Bohr"] 1 "Science" "easy" 300;
  Build_FormattedQuestion 19 "What is the largest mammal in the world?"
    ["Elephant"; "Blue Whale"; "Giraffe"; "Hippopotamus"] 1 "Animals" "easy" 500;
  Build_FormattedQuestion 20 "Who wrote 'Harry Potter'?"
    ["J.R.R. Tolkien"; "J.K. Rowling"; "Stephen King"; "George R.R. Martin"] 1 "Literature" "easy" 1000;
  Build_FormattedQuestion 21 "Which planet is closest to the Sun?"
    ["Venus"; "Earth"; "Mars"; "Mercury"] 3 "Astronomy" "easy" 100;
  Build_FormattedQuestion 22 "What is the capital of Japan?"
    ["Beijing"; "Seoul"; "Tokyo"; "Bangkok"] 2 "Geography" "easy" 200;
  Build_FormattedQuestion 23 "Who painted 'Starry Night'?"
    ["Claude Monet"; "Pablo Picasso"; "Vincent van Gogh"; "Leonardo da Vinci"] 2 "Art" "easy" 300;
  Build_FormattedQuestion 24 "What is the chemical symbol for gold?"
    ["Go"; "Gd"; "Au"; "Ag"] 2 "Science" "easy" 500;
  Build_FormattedQuestion 25 "Which country is known for the Taj Mahal?"
    ["Egypt"; "India"; "Turkey"; "China"] 1 "Geography" "easy" 1000;
  Build_FormattedQuestion 26 "Which of these is NOT a programming language?"
    ["Java"; "Python"; "Cobra"; "Photoshop"] 3 "Technology" "easy" 100;
  Build_FormattedQuestion 27 "What is the capital of Brazil?"
    ["Rio de Janeiro"; "São Paulo"; "Brasília"; "Salvador"] 2 "Geography" "easy" 200;
  Build_FormattedQuestion 28 "Which is the largest planet in our solar system?"
    ["Saturn"; "Jupiter"; "Neptune"; "Uranus"] 1 "Astronomy" "easy" 300;
  Build_FormattedQuestion 29 "Who was the first person to walk on the moon?"
    ["Buzz Aldrin"; "Neil Armstrong"; "Yuri Gagarin"; "John Glenn"] 1 "History" "easy" 500;
  Build_FormattedQuestion 30 "What is the longest river in the world?"
    ["Amazon"; "Nile"; "Mississippi"; "Yangtze"] 1 "Geography" "easy" 1000;
  Build_FormattedQuestion 31 "Who wrote 'Pride and Prejudice'?"
    ["Jane Austen"; "Charlotte Brontë"; "Emily Brontë"; "Virginia Woolf"] 0 "Literature" "easy" 100;
  Build_FormattedQuestion 32 "What is the main language spoken in Brazil?"
    ["Spanish"; "Portuguese"; "English"; "French"] 1 "Geography" "easy" 200;
  Build_FormattedQuestion 33 "Which instrument has 88 keys?"
    ["Guitar"; "Violin"; "Piano"; "Flute"] 2 "Music" "easy" 300;
  Build_FormattedQuestion 34 "What is the chemical symbol for water?"
    ["O2"; "CO2"; "H2O"; "NaCl"] 2 "Science" "easy" 500;
  Build_FormattedQuestion 35 "Which country is known for the Great Barrier Reef?"
    ["Brazil"; "Mexico"; "Australia"; "Indonesia"] 2 "Geography" "easy" 1000;
  Build_FormattedQuestion 36 "Which of these animals is a marsupial?"
    ["Elephant"; "Kangaroo"; "Lion"; "Penguin"] 1 "Animals" "easy" 100;
  Build_FormattedQuestion 37 "What is the capital of Italy?"
    ["Venice"; "Milan"; "Rome"; "Naples"] 2 "Geography" "easy" 200;
  Build_FormattedQuestion 38 "Who painted the ceiling of the Sistine Chapel?"
    ["Leonardo da Vinci"; "Michelangelo"; "Raphael"; "Donatello"] 1 "Art" "easy" 300;
  Build_FormattedQuestion 39 "What is the main ingredient in guacamole?"
    ["Avocado"; "Tomato"; "Lime"; "Onion"] 0 "Food" "easy" 500;
  Build_FormattedQuestion 40 "Which famous ship sank on its maiden voyage in 1912?"
    ["USS Enterprise"; "Queen Mary"; "RMS Titanic"; "HMS Bounty"] 2 "History" "easy" 1000;
  Build_FormattedQuestion 41 "Which sports car company has a prancing horse as its logo?"
    ["Lamborghini"; "Ferrari"; "Porsche"; "Maserati"] 1 "Automotive" "easy" 100;
  Build_FormattedQuestion 42 "What is the largest desert in the world?"
    ["Sahara"; "Gobi"; "Arabian"; "Antarctic"] 3 "Geography" "easy" 200;
  Build_FormattedQuestion 43 "Who is known as the 'King of Pop'?"
    ["Elvis Presley"; "Michael Jackson"; "Justin Bieber"; "Bruno Mars"] 1 "Music" "easy" 300;
  Build_FormattedQuestion 44 "What is the boiling point of water in Celsius?"
    ["90°C"; "100°C"; "110°C"; "212°C"] 1 "Science" "easy" 500;
  Build_FormattedQuestion 45 "Which planet is known as the 'Morning Star'?"
    ["Mars"; "Venus"; "Jupiter"; "Mercury"] 1 "Astronomy" "easy" 1000;
  Build_FormattedQuestion 46 "Which country was the first to reach the South Pole?"
    ["United States"; "Russia"; "Norway"; "United Kingdom"] 2 "History" "medium" 2000;
  Build_FormattedQuestion 47 "What is the largest internal organ in the human body?"
    ["Lungs"; "Liver"; "Brain"; "Heart"] 1 "Biology" "medium" 4000;
  Build_FormattedQuestion 48 "Who discovered penicillin?"
    ["Marie Curie"; "Louis Pasteur"; "Alexander Fleming"; "Jonas Salk"] 2 "Science" "medium" 8000;
  Build_FormattedQuestion 49 "Which element has the chemical symbol 'Fe'?"
    ["Iron"; "Fluorine"; "Francium"; "Fermium"] 0 "Chemistry" "medium" 16000;
  Build_FormattedQuestion 50 "In which year did World War I begin?"
    ["1914"; "1916"; "1918"; "1920"] 0 "History" "medium" 32000;
  Build_FormattedQuestion 51 "Which mountain range separates Europe from Asia?"
    ["Alps"; "Himalayas"; "Andes"; "Urals"] 3 "Geography" "medium" 2000;
  Build_FormattedQuestion 52 "Who wrote '1984'?"
    ["Aldous Huxley"; "George Orwell"; "Ray Bradbury"; "H.G. Wells"] 1 "Literature" "medium" 4000;
  Build_FormattedQuestion 53 "What is the currency of Japan?"
    ["Yuan"; "Won"; "Ringgit"; "Yen"] 3 "Geography" "medium" 8000;
  Build_FormattedQuestion 54 "Which element is a noble gas?"
    ["Chlorine"; "Nitrogen"; "Argon"; "Carbon"] 2 "Chemistry" "medium" 16000;
  Build_FormattedQuestion 55 "What is the capital of South Africa?"
    ["Johannesburg"; "Cape Town"; "Pretoria"; "Durban"] 2 "Geography" "medium" 32000;
  Build_FormattedQuestion 56 "Who composed 'The Four Seasons'?"
    ["Johann Sebastian Bach"; "Wolfgang Amadeus Mozart"; "Ludwig van Beethoven"; "Antonio Vivaldi"] 3 "Music" "medium" 2000;
  Build_FormattedQuestion 57 "Which of these countries is not a member of the European Union?"
    ["Sweden"; "Switzerland"; "Spain"; "Portugal"] 1 "Politics" "medium" 4000;
  Build_FormattedQuestion 58 "What is the hardest natural substance on Earth?"
    ["Platinum"; "Titanium"; "Diamond"; "Quartz"] 2 "Science" "medium" 8000;
  Build_FormattedQuestion 59 "Which ancient wonder was located in Alexandria?"
    ["Hanging Gardens"; "Colossus"; "Lighthouse"; "Temple of Artemis"] 2 "History" "medium" 16000;
  Build_FormattedQuestion 60 "What is the name of the longest river in Africa?"
    ["Congo"; "Niger"; "Zambezi"; "Nile"] 3 "Geography" "medium" 32000;
  Build_FormattedQuestion 61 "Which of these is not a type of cloud?"
    ["Cumulus"; "Stratus"; "Nimbus"; "Nebulus"] 3 "Meteorology" "medium" 2000;
  Build_FormattedQuestion 62 "Who directed the movie 'Jaws'?"
    ["George Lucas"; "Steven Spielberg"; "Francis Ford Coppola"; "Martin Scorsese"] 1 "Entertainment" "medium" 4000;
  Build_FormattedQuestion 63 "What is the largest species of shark?"
    ["Great White Shark"; "Tiger Shark"; "Hammerhead Shark"; "Whale Shark"] 3 "Animals" "medium" 8000;
  Build_FormattedQuestion 64 "Which famous emperor built the Colosseum in Rome?"
    ["Augustus"; "Nero"; "Vespasian"; "Constantine"] 2 "History" "medium" 16000;
  Build_FormattedQuestion 65 "What does HTTP stand for?"
    ["HyperText Transfer Protocol"; "High Tech Transfer Protocol"; "Hyper Transfer Text Protocol"; "Host Transfer Technology Protocol"] 0 "Technology" "medium" 32000;
  Build_FormattedQuestion 66 "Which country was not part of the original Axis powers in World War II?"
    ["Germany"; "Italy"; "Spain"; "Japan"] 2 "History" "medium" 2000;
  Build_FormattedQuestion 67 "What is the smallest bone in the human body?"
    ["Stapes"; "Femur"; "Radius"; "Phalanges"] 0 "Biology" "medium" 4000;
  Build_FormattedQuestion 68 "Which planet has the Great Red Spot?"
    ["Mars"; "Venus"; "Jupiter"; "Saturn"] 2 "Astronomy" "medium" 8000;
  Build_FormattedQuestion 69 "Who wrote 'The Canterbury Tales'?"
    ["Geoffrey Chaucer"; "William Langland"; "John Gower"; "Thomas Malory"] 0 "Literature" "medium" 16000;
  Build_FormattedQuestion 70 "Which mountain is the tallest in the world when measured from base to peak?"
    ["Mount Everest"; "K2"; "Mauna Kea"; "Mount Kilimanjaro"] 2 "Geography" "medium" 32000;
  Build_FormattedQuestion 71 "Which of these scientists did NOT contribute to the development of quantum mechanics?"
    ["Niels Bohr"; "Werner Heisenberg"; "Stephen Hawking"; "Max Planck"] 2 "Science" "hard" 64000;
  Build_FormattedQuestion 72 "What is the only state in the United States that grows coffee commercially?"
    ["California"; "Florida"; "Hawaii"; "Louisiana"] 2 "Geography" "hard" 125000;
  Build_FormattedQuestion 73 "Who was the first female winner of a Nobel Prize?"
    ["Marie Curie"; "Irène Joliot-Curie"; "Dorothy Hodgkin"; "Rosalind Franklin"] 0 "History" "hard" 250000;
  Build_FormattedQuestion 74 "Which is the only Shakespeare play that mentions America?"
    ["The Tempest"; "Hamlet"; "Macbeth"; "A Midsummer Night's Dream"] 0 "Literature" "hard" 500000;
  Build_FormattedQuestion 75 "What is the rarest blood type in humans?"
    ["AB negative"; "B negative"; "O negative"; "A negative"] 0 "Biology" "hard" 1000000;
  Build_FormattedQuestion 76 "Who was the first person to prove that the Earth revolves around the Sun?"
    ["Galileo Galilei"; "Nicolaus Copernicus"; "Johannes Kepler"; "Isaac Newton"] 1 "Science" "hard" 64000;
  Build_FormattedQuestion 77 "Which of these is NOT one of the Seven Wonders of the Ancient World?"
    ["Great Pyramid of Giza"; "Hanging Gardens of Babylon"; "Colosseum of Rome"; "Temple of Artemis at Ephesus"] 2 "History" "hard" 125000;
  Build_FormattedQuestion 78 "What was the first country to grant women the right to vote?"
    ["United States"; "United Kingdom"; "New Zealand"; "France"] 2 "History" "hard" 250000;
  Build_FormattedQuestion 79 "Which composer was completely deaf when he wrote his Ninth Symphony?"
    ["Wolfgang Amadeus Mozart"; "Ludwig van Beethoven"; "Johann Sebastian Bach"; "Frédéric Chopin"] 1 "Music" "hard" 500000;
  Build_FormattedQuestion 80 "What is the smallest country in the world by land area?"
    ["Monaco"; "Vatican City"; "San Marino"; "Liechtenstein"] 1 "Geography" "hard" 1000000;
  Build_FormattedQuestion 81 "Who was the only U.S. President to resign from office?"
    ["Richard Nixon"; "Lyndon B. Johnson"; "Gerald Ford"; "Jimmy Carter"] 0 "Politics" "hard" 64000;
  Build_FormattedQuestion 82 "Which element was named after the Greek word for 'green'?"
    ["Oxygen"; "Hydrogen"; "Chlorine"; "Neon"] 2 "Chemistry" "hard" 125000;
  Build_FormattedQuestion 83 "What is the only sea without any coastlines?"
    ["Dead Sea"; "Red Sea"; "Sargasso Sea"; "Caspian Sea"] 2 "Geography" "hard" 250000;
  Build_FormattedQuestion 84 "Which ancient civilization invented the concept of zero?"
    ["Egyptians"; "Greeks"; "Mayans"; "Indians"] 3 "History" "hard" 500000;
  Build_FormattedQuestion 85 "What is the longest English word without a true vowel (a, e, i, o, u)?"
    ["Rhythm"; "Crypt"; "Sylph"; "Lymph"] 0 "Language" "hard" 1000000;
  Build_FormattedQuestion 86 "Which chemical element has the highest melting point?"
    ["Tungsten"; "Carbon"; "Titanium"; "Osmium"] 0 "Chemistry" "hard" 64000;
  Build_FormattedQuestion 87 "Who was the first woman to win a Nobel Prize in two different fields?"
    ["Irène Joliot-Curie"; "Marie Curie"; "Rita Levi-Montalcini"; "Dorothy Hodgkin"] 1 "Science" "hard" 125000;
  Build_FormattedQuestion 88 "What is the oldest continuously inhabited city in the world?"
    ["Athens, Greece"; "Jerusalem, Israel"; "Damascus, Syria"; "Varanasi, India"] 2 "Geography" "hard" 250000;
  Build_FormattedQuestion 89 "Who is regarded as the father of modern computer science?"
    ["Charles Babbage"; "Alan Turing"; "John von Neumann"; "Tim Berners-Lee"] 1 "Technology" "hard" 500000;
  Build_FormattedQuestion 90 "What is the closest star to our solar system?"
    ["Betelgeuse"; "Alpha Centauri"; "Proxima Centauri"; "Sirius"] 2 "Astronomy" "hard" 1000000;
  Build_FormattedQuestion 91 "Which of these languages is NOT Indo-European?"
    ["Danish"; "Persian"; "Hungarian"; "Greek"] 2 "Language" "hard" 64000;
  Build_FormattedQuestion 92 "Who proved that DNA has a double helix structure?"
    ["Watson and Crick"; "Franklin and Wilkins"; "Mendel and Morgan"; "Sanger and Kornberg"] 0 "Science" "hard" 125000;
  Build_FormattedQuestion 93 "What was the first successful vaccine developed?"
    ["Polio"; "Tuberculosis"; "Rabies"; "Smallpox"] 3 "Medicine" "hard" 250000;
  Build_FormattedQuestion 94 "Which famous poet wrote 'Do not go gentle into that good night'?"
    ["T.S. Eliot"; "Dylan Thomas"; "W.H. Auden"; "Sylvia Plath"] 1 "Literature" "hard" 500000;
  Build_FormattedQuestion 95 "What is the most abundant gas in Earth's atmosphere?"
    ["Oxygen"; "Carbon Dioxide"; "Nitrogen"; "Argon"] 2 "Science" "hard" 1000000;
  Build_FormattedQuestion 96 "Who discovered the neutron?"
    ["Ernest Rutherford"; "Marie Curie"; "James Chadwick"; "Niels Bohr"] 2 "Physics" "hard" 64000;
  Build_FormattedQuestion 97 "Which movie won the first Academy Award for Best Picture?"
    ["Wings"; "Gone with the Wind"; "Casablanca"; "All Quiet on the Western Front"] 0 "Entertainment" "hard" 125000;
  Build_FormattedQuestion 98 "Which chess piece can only move diagonally?"
    ["Knight"; "Rook"; "Bishop"; "Queen"] 2 "Games" "hard" 250000;
  Build_FormattedQuestion 99 "In which decade was the Internet first made available to the public?"
    ["1960s"; "1970s"; "1980s"; "1990s"] 2 "Technology" "hard" 500000;
  Build_FormattedQuestion 100 "Which ancient civilization built Machu Picchu?"
    ["Maya"; "Inca"; "Aztec"; "Olmec"] 1 "History" "hard" 1000000
].

Definition has_difficulty (d : string) (q : FormattedQuestion) : bool :=
  String.eqb (difficulty q) d.

Definition by_value (a b : FormattedQuestion) : Z := value a - value b.

(** [Math.floor(amount * 0.33)], computed on the exact product; for 15 the
    product is 4.95. *)
Definition third_of (amount : Z) : Z := amount * 33 / 100.

Definition getRandomFallbackQuestions (amount : Z) : M (list FormattedQuestion) :=
  let allFallbackQuestions := getAllFallbackQuestions in
  let easyQuestions := List.filter (has_difficulty "easy") allFallbackQuestions in
  let mediumQuestions := List.filter (has_difficulty "medium") allFallbackQuestions in
  let hardQuestions := List.filter (has_difficulty "hard") allFallbackQuestions in
  let easyCount := third_of amount in
  let mediumCount := third_of amount in
  let hardCount := amount - easyCount - mediumCount in
  shuffledEasy ← shuffleArray easyQuestions;
  let selectedEasy := slice0 shuffledEasy easyCount in
  shuffledMedium ← shuffleArray mediumQuestions;
  let selectedMedium := slice0 shuffledMedium mediumCount in
  shuffledHard ← shuffleArray hardQuestions;
  let selectedHard := slice0 shuffledHard hardCount in
  let selectedQuestions := selectedEasy ++ selectedMedium ++ selectedHard in
  mret (Array_sort by_value selectedQuestions).

Definition getFallbackQuestions : M (list FormattedQuestion) :=
  getRandomFallbackQuestions 15.

Section Service.
Context `{Host}.

Definition getCachedQuestions : M JsValue :=
  try_catch
    (cachedData ← localStorage_getItem CACHE_KEY;
     timestamp ← localStorage_getItem CACHE_TIMESTAMP_KEY;
     if negb (Js.truthy cachedData) || negb (Js.truthy timestamp) then mret Null
     else
       let cacheTime := Js.parseInt (default "" timestamp) in
       now ← Date_now;
       if Js.gt (Js.sub (Js.Num now) cacheTime) (Js.Num CACHE_EXPIRY) then mret Null
       else
         match JSON_parse (default "" cachedData) with
         | Some v => mret v
         | None => throw SyntaxError
         end)
    (fun _ => mret Null).

Definition cacheQuestions (questions : list FormattedQuestion) : M unit :=
  try_catch
    (localStorage_setItem CACHE_KEY (JSON_stringify questions);;
     now ← Date_now;
     localStorage_setItem CACHE_TIMESTAMP_KEY (Js.toString (Js.Num now)))
    (fun _ => mret tt).

Definition shouldUseApi : M bool :=
  try_catch
    (cooldownUntil ← localStorage_getItem API_COOLDOWN_KEY;
     t ← Date_now;
     if Js.truthy cooldownUntil
        && Js.gt (Js.parseInt (default "" cooldownUntil)) (Js.Num t)
     then mret false
     else
       now ← Date_now;
       lastRequestTime ← localStorage_getItem LAST_REQUEST_TIME_KEY;
       stored ← localStorage_getItem REQUEST_COUNT_KEY;
       let requestCount := Js.parseInt (Js.or_else stored "0") in
       let requestCount :=
         if Js.truthy lastRequestTime
            && Js.gt (Js.sub (Js.Num now) (Js.parseInt (default "" lastRequestTime)))
                     (Js.Num (5 * 60 * 1000))
         then Js.Num 0 else requestCount in
       if Js.ge requestCount (Js.Num 5) then mret false
       else
         localStorage_setItem REQUEST_COUNT_KEY
           (Js.toString (Js.add requestCount (Js.Num 1)));;
         localStorage_setItem LAST_REQUEST_TIME_KEY (Js.toString (Js.Num now));;
         mret true)
    (fun _ => mret true).

Definition handleRateLimiting : M unit :=
  now ← Date_now;
  localStorage_setItem API_COOLDOWN_KEY (Js.toString (Js.Num (now + API_COOLDOWN))).


(** The callback of [allQuestions.map] in [fetchQuestions]: one raw record
    and its position become one formatted question, or the callback
    throws. *)
Definition formatQuestion (q : ApiQuestion) (index : nat) : M FormattedQuestion :=
  match correct_answer q, incorrect_answers q with
  | String _ _, Some incorrect =>
      if negb (length incorrect =? 3)%nat
      then throw (Error "Question data format is invalid")
      else
        let allOptions :=
          decodeHTMLEntities (correct_answer q) :: map decodeHTMLEntities incorrect in
        shuffledOptions ← shuffleArray allOptions;
        let correctAnswerIndex :=
          findIndex (fun option => String.eqb option (decodeHTMLEntities (correct_answer q)))
                    shuffledOptions in
        let difficultyIndex := (index mod 5)%nat in
        match difficultyValueMap !! api_difficulty q with
        | None => throw (TypeError "Cannot read properties of undefined")
        | Some ladder =>
            match ladder !! difficultyIndex with
            | None => throw (TypeError "no prize at this position")
            | Some value =>
                mret {| id := Z.of_nat index + 1;
                        question := decodeHTMLEntities (api_question q);
                        options := shuffledOptions;
                        correctAnswer := correctAnswerIndex;
                        category := decodeHTMLEntities (api_category q);
                        difficulty := api_difficulty q;
                        value := value |}
            end
        end
  | _, _ => throw (Error "Question data format is invalid")
  end.

Definition url_easy := "https://opentdb.com/api.php?amount=5&difficulty=easy&type=multiple".
Definition url_medium := "https://opentdb.com/api.php?amount=5&difficulty=medium&type=multiple".
Definition url_hard := "https://opentdb.com/api.php?amount=5&difficulty=hard&type=multiple".

(** [response.data.response_code] and [response.data.results]; reading a
    property of a missing [data] throws. *)
Definition data_of (r : Response) : M (option Z * option (list ApiQuestion)) :=
  match data r with
  | Some d => mret d
  | None => throw (TypeError "Cannot read properties of undefined")
  end.

Definition is_rate_limit (error : Exn) : bool :=
  match error with
  | AxiosError (Some s) => s =? 429
  | _ => false
  end.

Definition fallback (amount : Z) : M JsValue :=
  qs ← getRandomFallbackQuestions amount; mret (Questions qs).

Definition fetchQuestions (amount : Z) : M JsValue :=
  cachedQuestions ← getCachedQuestions;
  if is_truthy cachedQuestions then mret cachedQuestions
  else
    useApi ← shouldUseApi;
    if negb useApi then fallback amount
    else
      try_catch
        (r ← Math_random;
         sleep (100 + Js.floor_scale (mantissa r) 600);;
         responses ← await_all_get [url_easy; url_medium; url_hard];
         match responses with
         | [easyResponse; mediumResponse; hardResponse] =>
             if (status easyResponse =? 429) || (status mediumResponse =? 429)
                || (status hardResponse =? 429)
             then handleRateLimiting;; fallback amount
             else
               easyData ← data_of easyResponse;
               if negb (bool_decide (easyData.1 = Some 0)) then fallback amount
               else
               mediumData ← data_of mediumResponse;
               if negb (bool_decide (mediumData.1 = Some 0)) then fallback amount
               else
               hardData ← data_of hardResponse;
               if negb (bool_decide (hardData.1 = Some 0)) then fallback amount
               else
                 let easyQuestions := default [] easyData.2 in
                 let mediumQuestions := default [] mediumData.2 in
                 let hardQuestions := default [] hardData.2 in
                 if negb (length easyQuestions =? 5)%nat
                    || negb (length mediumQuestions =? 5)%nat
                    || negb (length hardQuestions =? 5)%nat
                 then fallback amount
                 else
                   let allQuestions := easyQuestions ++ mediumQuestions ++ hardQuestions in
                   formattedQuestions ← mapM_from formatQuestion allQuestions 0;
                   let sortedQuestions := Array_sort by_value formattedQuestions in
                   cacheQuestions sortedQuestions;;
                   mret (Questions sortedQuestions)
         | _ => throw (TypeError "undefined is not iterable")
         end)
        (fun error =>
           (if is_rate_limit error then handleRateLimiting else mret tt);;
           fallback amount).

End Service.

(** ** data/questions.ts and components/QuizGame.tsx *)

Definition moneyLadder : list Z :=
  [100; 200; 300; 500; 1000; 2000; 4000; 8000; 16000; 32000; 64000; 125000;
   250000; 500000; 1000000].

(** Question numbers that are safe havens. *)
Definition milestones : list Z := [5; 10; 15].

(** [array[i]] for a number [i]: [undefined] outside the array. *)
Definition at_index {A} (l : list A) (i : Z) : option A :=
  if i <? 0 then None else l !! Z.to_nat i.

Inductive Screen := start | loading | playing | result.

Record Lifelines := {
  fifty : bool;
  audience : bool;
  phone : bool
}.

(** The part of the component state that answering and the 50:50 lifeline
    read and write. [earnedMoney] is [None] when it was set to
    [undefined]. Sound playback is left out. *)
Record Game := {
  gameState : Screen;
  questions : list FormattedQuestion;
  currentQuestionIndex : Z;
  selectedAnswer : option Z;
  isAnswerConfirmed : bool;
  earnedMoney : option Z;
  lifelines : Lifelines;
  eliminatedOptions : list Z
}.

(** The loop of the wrong-answer branch:
    [for (let i = milestones.length - 1; i >= 0; i--)], leaving at the first
    milestone whose test succeeds. The argument [n] is [i + 1]. *)
Fixpoint milestone_loop (n : nat) (currentQuestionIndex : Z) (finalMoney : option Z)
  : option Z :=
  match n with
  | O => finalMoney
  | S i =>
      match milestones !! i with
      | Some m =>
          if currentQuestionIndex >=? m - 1 then at_index moneyLadder (m - 1)
          else milestone_loop i currentQuestionIndex finalMoney
      | None => milestone_loop i currentQuestionIndex finalMoney
      end
  end.

(** [confirmAnswer], with the state as it is once the delayed callback has
    run. *)
Definition confirmAnswer (g : Game) : Outcome Game :=
  match selectedAnswer g with
  | None => Returned g
  | Some selected =>
      match at_index (questions g) (currentQuestionIndex g) with
      | None => Thrown (TypeError "Cannot read properties of undefined")
      | Some currentQuestion =>
          let isCorrect := selected =? correctAnswer currentQuestion in
          if isCorrect then
            let newEarnedMoney := at_index moneyLadder (currentQuestionIndex g) in
            if currentQuestionIndex g =? Z.of_nat (length (questions g)) - 1 then
              Returned {| gameState := result;
                          questions := questions g;
                          currentQuestionIndex := currentQuestionIndex g;
                          selectedAnswer := selectedAnswer g;
                          isAnswerConfirmed := true;
                          earnedMoney := newEarnedMoney;
                          lifelines := lifelines g;
                          eliminatedOptions := eliminatedOptions g |}
            else
              Returned {| gameState := gameState g;
                          questions := questions g;
                          currentQuestionIndex := currentQuestionIndex g + 1;
                          selectedAnswer := None;
                          isAnswerConfirmed := false;
                          earnedMoney := newEarnedMoney;
                          lifelines := lifelines g;
                          eliminatedOptions := [] |}
          else
            let finalMoney :=
              milestone_loop (length milestones) (currentQuestionIndex g) (Some 0) in
            Returned {| gameState := result;
                        questions := questions g;
                        currentQuestionIndex := currentQuestionIndex g;
                        selectedAnswer := selectedAnswer g;
                        isAnswerConfirmed := true;
                        earnedMoney := finalMoney;
                        lifelines := lifelines g;
                        eliminatedOptions := eliminatedOptions g |}
      end
  end.

(** The comparator [() => Math.random() - 0.5]: the sign of the draw minus
    one half. *)
Definition random_order (a b : Z) : M Z :=
  r ← Math_random; mret (2 * mantissa r - 2 ^ 53).

Definition useFiftyFifty (g : Game) : M Game :=
  if negb (fifty (lifelines g)) || isAnswerConfirmed g then mret g
  else
    match at_index (questions g) (currentQuestionIndex g) with
    | None => throw (TypeError "Cannot read properties of undefined")
    | Some currentQuestion =>
        let correct := correctAnswer currentQuestion in
        let wrongOptions := List.filter (fun idx => negb (idx =? correct)) [0; 1; 2; 3] in
        shuffledWrongOptions ← Array_sortM random_order wrongOptions;
        let toEliminate := slice0 shuffledWrongOptions 2 in
        mret {| gameState := gameState g;
                questions := questions g;
                currentQuestionIndex := currentQuestionIndex g;
                selectedAnswer := selectedAnswer g;
                isAnswerConfirmed := isAnswerConfirmed g;
                earnedMoney := earnedMoney g;
                lifelines := {| fifty := false;
                                audience := audience (lifelines g);
                                phone := phone (lifelines g) |};
                eliminatedOptions := toEliminate |}
    end.

(** ** Vocabulary of the statements *)

(** Non-decreasing prize value. *)
Definition value_le (a b : FormattedQuestion) : Prop := value a <= value b.

(** The two tests of [shouldUseApi], as functions of the store and the
    time: whether the cooldown deadline lies ahead, and the request count
    after the reset of an idle window. *)
Definition cooldown_active (m : gmap string string) (now : Z) : bool :=
  Js.truthy (m !! API_COOLDOWN_KEY)
  && Js.gt (Js.parseInt (default "" (m !! API_COOLDOWN_KEY))) (Js.Num now).

Definition window_count (m : gmap string string) (now : Z) : Js.number :=
  if Js.truthy (m !! LAST_REQUEST_TIME_KEY)
     && Js.gt (Js.sub (Js.Num now) (Js.parseInt (default "" (m !! LAST_REQUEST_TIME_KEY))))
              (Js.Num (5 * 60 * 1000))
  then Js.Num 0
  else Js.parseInt (Js.or_else (m !! REQUEST_COUNT_KEY) "0").

(** The request count that the store holds is a natural number, or the
    entry is missing. *)
Definition count_well_formed (m : gmap string string) : Prop :=
  exists n, 0 <= n /\ Js.parseInt (Js.or_else (m !! REQUEST_COUNT_KEY) "0") = Js.Num n.

(** The store is available and holds count [n] and last request time [t],
    as [shouldUseApi] writes them. *)
Definition tracked (w : World) (n t : Z) : Prop :=
  mode w = Available
  /\ items w !! REQUEST_COUNT_KEY = Some (Js.toString (Js.Num n))
  /\ items w !! LAST_REQUEST_TIME_KEY = Some (Js.toString (Js.Num t)).

(** A record that the formatter accepts. *)
Definition well_formed_record (q : ApiQuestion) : Prop :=
  correct_answer q <> ""
  /\ (exists incorrect, incorrect_answers q = Some incorrect /\ length incorrect = 3%nat)
  /\ api_difficulty q ∈ ["easy"; "medium"; "hard"].

(** The remote source answers the request for [url] with a response that is
    no rate-limit signal, carries response code 0 and the records [batch]. *)
Definition serves (w : World) (url : string) (batch : list ApiQuestion) : Prop :=
  exists ms st,
    remote w url
    = {| latency := ms;
         settled := inl {| status := st; data := Some (Some 0, Some batch) |} |}
    /\ st <> 429.

(** No computation of the service changes whether the store is available. *)
Definition keeps_mode {A} (c : M A) : Prop := forall w, mode (c w).2 = mode w.

Section Vocabulary.
Context `{Host}.

(** [fq] is a formatted version of the record [q] found at position
    [index]: decoded texts, the four decoded answers in some order, the
    first position of the correct one, and the prize of the slot. *)
Definition normalizes (q : ApiQuestion) (index : nat) (fq : FormattedQuestion) : Prop :=
  exists incorrect ladder,
    incorrect_answers q = Some incorrect
    /\ id fq = Z.of_nat index + 1
    /\ question fq = decodeHTMLEntities (api_question q)
    /\ options fq ≡ₚ decodeHTMLEntities (correct_answer q) :: map decodeHTMLEntities incorrect
    /\ correctAnswer fq
       = findIndex (fun option => String.eqb option (decodeHTMLEntities (correct_answer q)))
                   (options fq)
    /\ category fq = decodeHTMLEntities (api_category q)
    /\ difficulty fq = api_difficulty q
    /\ difficultyValueMap !! api_difficulty q = Some ladder
    /\ ladder !! (index mod 5)%nat = Some (value fq).

End Vocabulary.

(** The payout that the milestone rule promises to a player who has
    answered [completed] questions correctly before the wrong answer: the
    ladder value of the highest milestone among 5, 10 and 15 that is not
    above [completed], and 0 when there is none. *)
Definition promised_payout (completed : Z) : Z :=
  if 15 <=? completed then 1000000
  else if 10 <=? completed then 32000
  else if 5 <=? completed then 1000
  else 0.

(** A game in play on the first fifteen questions of the corpus, at
    question [index] (counted from 0) with option [selected] chosen. *)
Definition game_at (index selected : Z) : Game :=
  {| gameState := playing;
     questions := take 15 getAllFallbackQuestions;
     currentQuestionIndex := index;
     selectedAnswer := Some selected;
     isAnswerConfirmed := false;
     earnedMoney := Some 0;
     lifelines := {| fifty := true; audience := true; phone := true |};
     eliminatedOptions := [] |}.

(** ** A reference host and reference worlds

    To run the model on concrete inputs: a decoder for the entities that
    the trivia source escapes, a JSON codec for arrays of questions in the
    layout that [JSON.stringify] produces, and worlds with an empty store. *)

Module Reference.

Fixpoint decode_entities (s : string) : string :=
  match s with
  | String "&" (String "a" (String "m" (String "p" (String ";" rest)))) =>
      String "&" (decode_entities rest)
  | String "&" (String "l" (String "t" (String ";" rest))) =>
      String "<" (decode_entities rest)
  | String "&" (String "g" (String "t" (String ";" rest))) =>
      String ">" (decode_entities rest)
  | String "&" (String "q" (String "u" (String "o" (String "t" (String ";" rest))))) =>
      String "034" (decode_entities rest)
  | String "&" (String "#" (String "0" (String "3" (String "9" (String ";" rest))))) =>
      String "'" (decode_entities rest)
  | String c rest => String c (decode_entities rest)
  | EmptyString => EmptyString
  end.

Definition quote : ascii := "034".
Definition backslash : ascii := "092".

Fixpoint escape (s : string) : string :=
  match s with
  | String c rest =>
      if Ascii.eqb c quote || Ascii.eqb c backslash
      then String backslash (String c (escape rest))
      else String c (escape rest)
  | EmptyString => EmptyString
  end.

Definition print_string (s : string) : string :=
  String quote (escape s +:+ String quote "").

Definition print_number (z : Z) : string := Js.toString (Js.Num z).

Fixpoint print_items (l : list string) : string :=
  match l with
  | [] => ""
  | [x] => x
  | x :: l' => x +:+ "," +:+ print_items l'
  end.

Definition print_array (l : list string) : string := "[" +:+ print_items l +:+ "]".

Definition print_field (key val : string) : string := print_string key +:+ ":" +:+ val.

Definition print_question (q : FormattedQuestion) : string :=
  "{" +:+ print_items
    [print_field "id" (print_number (id q));
     print_field "question" (print_string (question q));
     print_field "options" (print_array (map print_string (options q)));
     print_field "correctAnswer" (print_number (correctAnswer q));
     print_field "category" (print_string (category q));
     print_field "difficulty" (print_string (difficulty q));
     print_field "value" (print_number (value q))] +:+ "}".

Definition stringify (qs : list FormattedQuestion) : string :=
  print_array (map print_question qs).

Definition Parser (A : Type) : Type := string -> option (A * string).

Fixpoint read_literal (lit : string) : Parser unit := fun s =>
  match lit with
  | EmptyString => Some (tt, s)
  | String c lit' =>
      match s with
      | String c' s' => if Ascii.eqb c c' then read_literal lit' s' else None
      | EmptyString => None
      end
  end.

Fixpoint skip_digits (s : string) : string :=
  match s with
  | String c s' =>
      match Js.digit_of c with
      | Some _ => skip_digits s'
      | None => s
      end
  | EmptyString => EmptyString
  end.

Definition read_number : Parser Z := fun s =>
  match s with
  | String "-" s' =>
      match Js.parse_digits s' with
      | Js.Num z => Some (- z, skip_digits s')
      | Js.NaN => None
      end
  | _ =>
      match Js.parse_digits s with
      | Js.Num z => Some (z, skip_digits s)
      | Js.NaN => None
      end
  end.

Fixpoint read_string_body (s : string) : option (string * string) :=
  match s with
  | EmptyString => None
  | String c s' =>
      if Ascii.eqb c quote then Some ("", s')
      else if Ascii.eqb c backslash then
        match s' with
        | String c' s'' =>
            match read_string_body s'' with
            | Some (body, rest) => Some (String c' body, rest)
            | None => None
            end
        | EmptyString => None
        end
      else
        match read_string_body s' with
        | Some (body, rest) => Some (String c body, rest)
        | None => None
        end
  end.

Definition read_string : Parser string := fun s =>
  match s with
  | String c s' => if Ascii.eqb c quote then read_string_body s' else None
  | EmptyString => None
  end.

Fixpoint read_items {A} (item : Parser A) (fuel : nat) : Parser (list A) := fun s =>
  match fuel with
  | O => None
  | S fuel' =>
      match item s with
      | Some (x, String "," rest) =>
          match read_items item fuel' rest with
          | Some (xs, rest') => Some (x :: xs, rest')
          | None => None
          end
      | Some (x, String "]" rest) => Some ([x], rest)
      | _ => None
      end
  end.

Definition read_array {A} (item : Parser A) : Parser (list A) := fun s =>
  match s with
  | String "[" (String c rest) =>
      if Ascii.eqb c "]" then Some ([], rest)
      else read_items item (String.length (String c rest)) (String c rest)
  | _ => None
  end.

Definition read_field {A} (key : string) (val : Parser A) : Parser A := fun s =>
  match read_literal (print_string key +:+ ":") s with
  | Some (_, rest) => val rest
  | None => None
  end.

Definition then_comma {A} (p : Parser A) : Parser A := fun s =>
  match p s with
  | Some (x, String "," rest) => Some (x, rest)
  | _ => None
  end.

Definition read_question : Parser FormattedQuestion := fun s =>
  match s with
  | String "{" s0 =>
      '(i, s1) ← then_comma (read_field "id" read_number) s0;
      '(q, s2) ← then_comma (read_field "question" read_string) s1;
      '(o, s3) ← then_comma (read_field "options" (read_array read_string)) s2;
      '(c, s4) ← then_comma (read_field "correctAnswer" read_number) s3;
      '(g, s5) ← then_comma (read_field "category" read_string) s4;
      '(d, s6) ← then_comma (read_field "difficulty" read_string) s5;
      '(v, s7) ← read_field "value" read_number s6;
      match s7 with
      | String "}" rest =>
          Some ({| id := i; question := q; options := o; correctAnswer := c;
                   category := g; difficulty := d; value := v |}, rest)
      | _ => None
      end
  | _ => None
  end.

Definition parse (s : string) : option JsValue :=
  if String.eqb s "null" then Some Null
  else if String.eqb s "false" || String.eqb s "0" || String.eqb s (print_string "")
  then Some Falsy
  else if String.eqb s "true" then Some Foreign
  else
    match read_array read_question s with
    | Some (qs, EmptyString) => Some (Questions qs)
    | _ => None
    end.

#[export] Instance host : Host := {|
  decodeHTMLEntities := decode_entities;
  JSON_stringify := stringify;
  JSON_parse := parse
|}.

Definition draw_zero : Draw := {| mantissa := 0; mantissa_range := eq_refl |}.

Definition draw_high : Draw := {| mantissa := 2 ^ 53 - 1; mantissa_range := eq_refl |}.

(** A stream that alternates between the lowest and the highest draw. *)
Definition alternating (n : nat) : Draw :=
  if Nat.even n then draw_high else draw_zero.

Definition offline (url : string) : Settlement :=
  {| latency := 30; settled := inr (AxiosError None) |}.

(** Every request is answered with status 429 after 80 milliseconds, which
    axios reports by rejecting the promise. *)
Definition rate_limited (url : string) : Settlement :=
  {| latency := 80; settled := inr (AxiosError (Some 429)) |}.

Definition world (m : StorageMode) (now : Z) (net : string -> Settlement) : World :=
  {| items := ∅; mode := m; clock := now; draws := alternating; cursor := 0;
     remote := net; requests := [] |}.

(** A record as the trivia source sends it. *)
Definition record (d : string) : ApiQuestion :=
  {| api_category := "Entertainment: Film";
     api_type := "multiple";
     api_difficulty := d;
     api_question := "Who directed &quot;Jaws&quot;?";
     correct_answer := "Steven Spielberg";
     incorrect_answers := Some ["George Lucas"; "Ridley Scott"; "James Cameron"] |}.

(** A record in which an incorrect answer decodes to the same text as the
    correct one. *)
Definition twin_record : ApiQuestion :=
  {| api_category := "General Knowledge";
     api_type := "multiple";
     api_difficulty := "medium";
     api_question := "Which dish is served wrapped in paper?";
     correct_answer := "Fish &amp; Chips";
     incorrect_answers := Some ["Fish & Chips"; "Bangers &amp; Mash"; "Pie &amp; Peas"] |}.

Definition batch (d : string) : list ApiQuestion := replicate 5 (record d).

Definition answer (b : list ApiQuestion) : Settlement :=
  {| latency := 120;
     settled := inl {| status := 200; data := Some (Some 0, Some b) |} |}.

(** The remote source in working order. *)
Definition live (url : string) : Settlement :=
  if String.eqb url url_easy then answer (batch "easy")
  else if String.eqb url url_medium then answer (batch "medium")
  else if String.eqb url url_hard then answer (batch "hard")
  else offline url.

(** The world after [shouldUseApi] has run at time [t]. *)
Definition after_call (t : Z) (w : World) : World := (shouldUseApi (set_clock t w)).2.

(** The world after [qs] has been cached. *)
Definition after_caching (qs : list FormattedQuestion) (w : World) : World :=
  (cacheQuestions qs w).2.

End Reference.

(** What follows a printed number must not look like one more digit. *)
Definition no_leading_digit (s : string) : Prop :=
  match s with
  | String c _ => Js.digit_of c = None
  | EmptyString => True
  end.

(** Each element of [xs] is read back when a comma or a closing bracket
    follows it. *)
Definition reads_back {A} (item : Reference.Parser A) (print : A -> string)
    (xs : list A) : Prop :=
  forall x c rest, x ∈ xs -> c = ","%char \/ c = "]"%char ->
    item (print x +:+ String c rest) = Some (x, String c rest).

(** ** More of components/QuizGame.tsx *)

(** [handleAnswerSelect]: a click on an option. *)
Definition handleAnswerSelect (answerIndex : Z) (g : Game) : Game :=
  if isAnswerConfirmed g || bool_decide (answerIndex ∈ eliminatedOptions g) then g
  else
    {| gameState := gameState g;
       questions := questions g;
       currentQuestionIndex := currentQuestionIndex g;
       selectedAnswer := Some answerIndex;
       isAnswerConfirmed := isAnswerConfirmed g;
       earnedMoney := earnedMoney g;
       lifelines := lifelines g;
       eliminatedOptions := eliminatedOptions g |}.

(** A sequence of rounds: for each element of [clicks], a click on that
    option and then on the confirm button. *)
Fixpoint play (clicks : list Z) (g : Game) : Outcome Game :=
  match clicks with
  | [] => Returned g
  | answerIndex :: clicks' =>
      match confirmAnswer (handleAnswerSelect answerIndex g) with
      | Returned g' => play clicks' g'
      | Thrown e => Thrown e
      end
  end.

(** ** components/QuizGame.tsx: loading the questions *)

Module Loader.

(** The part of the component state that [loadQuestions] writes.
    [questions] holds what [fetchQuestions] resolved with, or a fallback
    sample; [error] is the line of text shown under the title. *)
Record View := {
  gameState : Screen;
  questions : JsValue;
  error : option string
}.

Definition loadingMessages : list string :=
  ["Gathering the toughest questions...";
   "Summoning quiz masters from around the world...";
   "Calibrating difficulty levels...";
   "Preparing your million-dollar challenge...";
   "Dusting off the most intriguing trivia..."].

Section Effects.
Context `{Host}.

(** [v.length] for the truthy values [v] that are no array of questions:
    the model does not hold such a value, so its length is a parameter. *)
Variable foreignLength : option Z.

(** [fetchedQuestions.length]. Reading a property of [null] throws; the
    empty string has length 0 and the other falsy values have none, which
    in both cases is not 15. *)
Definition length_of (v : JsValue) : M (option Z) :=
  match v with
  | Questions qs => mret (Some (Z.of_nat (length qs)))
  | Null => throw (TypeError "Cannot read properties of null")
  | Falsy => mret None
  | Foreign => mret foreignLength
  end.

(** [loadQuestions], as the state is when its promise settles. The draw
    and the choice of the loading message, which cannot throw, stand in
    front of the [try] so that the handler can name the message: the handler
    does not reset [error], which [setError(randomMessage)] has set. *)
Definition loadQuestions : M View :=
  r ← Math_random;
  let randomMessage :=
    loadingMessages !! Z.to_nat (Js.floor_scale (mantissa r) (Z.of_nat (length loadingMessages))) in
  try_catch
    (fetchedQuestions ← fetchQuestions 15;
     len ← length_of fetchedQuestions;
     if negb (bool_decide (len = Some 15)) then
       fallbackQuestions ← getRandomFallbackQuestions 15;
       mret {| gameState := playing;
               questions := Questions fallbackQuestions;
               error := None |}
     else
       mret {| gameState := playing;
               questions := fetchedQuestions;
               error := None |})
    (fun err =>
       fallbackQuestions ← getRandomFallbackQuestions 15;
       mret {| gameState := playing;
               questions := Questions fallbackQuestions;
               error := randomMessage |}).

End Effects.

End Loader.

(** ** Hoare triples for the computation monad *)

(** From a world that satisfies [P], the computation [c] returns a value
    and a world that satisfy [Q], or throws an exception in a world that
    satisfy [E]. *)
Definition triple {A} (P : World -> Prop) (c : M A)
    (Q : A -> World -> Prop) (E : Exn -> World -> Prop) : Prop :=
  forall w, P w ->
    match c w with
    | (Returned a, w') => Q a w'
    | (Thrown e, w') => E e w'
    end.

(** ** More vocabulary *)

(** The stored request count is a number between 0 and 5, or missing. *)
Definition count_bounded (m : gmap string string) : Prop :=
  exists n, 0 <= n <= 5 /\ Js.parseInt (Js.or_else (m !! REQUEST_COUNT_KEY) "0") = Js.Num n.

(** The world after [shouldUseApi] has been called at each of the times
    [ts], in this order. *)
Fixpoint calls_at (ts : list Z) (w : World) : World :=
  match ts with
  | [] => w
  | t :: ts' => calls_at ts' (shouldUseApi (set_clock t w)).2
  end.

(** The shape every question of the corpus has: four options and a correct
    index among them. *)
Definition four_options (q : FormattedQuestion) : bool :=
  (length (options q) =? 4)%nat && (0 <=? correctAnswer q) && (correctAnswer q <? 4).

(** The world [w'] has the availability of [w] and its two cache entries,
    and the whole store of [w] when that store is not available. *)
Definition cache_kept (w w' : World) : Prop :=
  mode w' = mode w
  /\ items w' !! CACHE_KEY = items w !! CACHE_KEY
  /\ items w' !! CACHE_TIMESTAMP_KEY = items w !! CACHE_TIMESTAMP_KEY
  /\ (mode w <> Available -> items w' = items w).

(** [qs] is a result of [getRandomFallbackQuestions amount]. *)
Definition sampled (amount : Z) (qs : list FormattedQuestion) : Prop :=
  exists w n, getRandomFallbackQuestions amount w = (Returned qs, set_cursor n w).

Section Outcomes.
Context `{Host}.

(** The three ways in which [fetchQuestions amount] returns from the world
    [w], and the one in which it throws. *)
Definition served_from_cache (w : World) (v : JsValue) (w' : World) : Prop :=
  getCachedQuestions w = (Returned v, w) /\ is_truthy v = true /\ w' = w.

Definition fell_back (amount : Z) (w : World) (v : JsValue) (w' : World) : Prop :=
  cache_kept w w' /\ exists qs, v = Questions qs /\ sampled amount qs.

Definition fetched_live (w : World) (v : JsValue) (w' : World) : Prop :=
  exists formatted,
    v = Questions (Array_sort by_value formatted)
    /\ length formatted = 15%nat
    /\ mode w' = mode w
    /\ (mode w = Available ->
        items w' !! CACHE_KEY = Some (JSON_stringify (Array_sort by_value formatted))
        /\ items w' !! CACHE_TIMESTAMP_KEY = Some (Js.toString (Js.Num (clock w'))))
    /\ (mode w <> Available -> items w' = items w).

Definition store_error_escaped (w : World) (e : Exn) (w' : World) : Prop :=
  cache_kept w w'
  /\ mode w <> Available
  /\ (e = DOMException "QuotaExceededError" \/ e = DOMException "SecurityError")
  /\ requests w' = requests w ++ [url_easy; url_medium; url_hard].

Definition fetch_outcome (amount : Z) (w : World) (o : Outcome JsValue) (w' : World)
  : Prop :=
  match o with
  | Returned v =>
      served_from_cache w v w' \/ fell_back amount w v w' \/ fetched_live w v w'
  | Thrown e => store_error_escaped w e w'
  end.

End Outcomes.

(** * Properties *)

(** ** Numbers and strings *)

Example parseInt_plain : Js.parseInt "1700000000000" = Js.Num 1700000000000.
Proof. reflexivity. Qed.

Example parseInt_trailing : Js.parseInt "  -42px" = Js.Num (-42).
Proof. reflexivity. Qed.

Example parseInt_nan : Js.parseInt "abc" = Js.NaN.
Proof. reflexivity. Qed.

Example toString_neg : Js.toString (Js.Num (-1800000)) = "-1800000".
Proof. reflexivity. Qed.

Lemma digits_prefix_string_of_uint (d : uint) :
  Js.digits_prefix (NilEmpty.string_of_uint d) = d.
Proof. induction d; simpl; congruence. Qed.

Lemma parse_digits_string_of_uint (d : uint) :
  d <> Nil -> Js.parse_digits (NilEmpty.string_of_uint d) = Js.Num (Z.of_uint d).
Proof.
  intros Hd. unfold Js.parse_digits. rewrite digits_prefix_string_of_uint.
  destruct d; congruence.
Qed.

Lemma parseInt_string_of_uint (d : uint) :
  d <> Nil -> Js.parseInt (NilEmpty.string_of_uint d) = Js.Num (Z.of_uint d).
Proof.
  intros Hd. rewrite <- (parse_digits_string_of_uint d Hd).
  destruct d; try congruence; reflexivity.
Qed.

Lemma to_uint_not_nil (p : positive) : Pos.to_uint p <> Nil.
Proof.
  intros E. pose proof (DecimalPos.Unsigned.of_to p) as Hp.
  rewrite E in Hp. discriminate.
Qed.

(** Printing an integer and reading it back gives the integer. *)
Lemma parseInt_toString (z : Z) : Js.parseInt (Js.toString (Js.Num z)) = Js.Num z.
Proof.
  pose proof (DecimalZ.of_to z) as Hz.
  destruct z as [|p|p]; [reflexivity| |]; simpl in *.
  - pose proof (to_uint_not_nil p) as Hp.
    unfold NilZero.string_of_uint.
    destruct (Pos.to_uint p) eqn:E; try congruence;
      rewrite <- E in *; rewrite parseInt_string_of_uint by done; by rewrite Hz.
  - pose proof (to_uint_not_nil p) as Hp.
    unfold NilZero.string_of_uint.
    assert (Hs : Js.parseInt (String "-" (NilEmpty.string_of_uint (Pos.to_uint p)))
                 = Js.neg (Js.parse_digits (NilEmpty.string_of_uint (Pos.to_uint p))))
      by reflexivity.
    destruct (Pos.to_uint p) eqn:E; try congruence;
      rewrite <- E in *; rewrite Hs, parse_digits_string_of_uint by done;
      simpl; f_equal; lia.
Qed.

Lemma toString_truthy (z : Z) : Js.truthy (Some (Js.toString (Js.Num z))) = true.
Proof.
  destruct z as [|p|p]; [reflexivity| |]; simpl.
  - pose proof (to_uint_not_nil p). unfold NilZero.string_of_uint.
    by destruct (Pos.to_uint p).
  - reflexivity.
Qed.

#[global] Arguments Js.toString : simpl never.
#[global] Arguments Js.parseInt : simpl never.

(** ** Arrays: swapping, sorting, slicing *)

Lemma insert_cons_Permutation {A} (l : list A) (j : nat) (a y : A) :
  l !! j = Some y -> y :: <[j:=a]> l ≡ₚ a :: l.
Proof.
  revert j. induction l as [|b l IH]; intros [|j] Hj; simplify_eq/=.
  - apply perm_swap.
  - rewrite perm_swap, (IH _ Hj). apply perm_swap.
Qed.

Lemma swap_Permutation {A} (i j : nat) (l : list A) : swap i j l ≡ₚ l.
Proof.
  unfold swap.
  destruct (l !! i) as [x|] eqn:Hi; [|done].
  destruct (l !! j) as [y|] eqn:Hj; [|done].
  revert i j Hi Hj. induction l as [|a l IH]; intros [|i] [|j] Hi Hj; simplify_eq/=.
  - done.
  - by apply insert_cons_Permutation.
  - by apply insert_cons_Permutation.
  - by rewrite (IH i j).
Qed.

Lemma sort_insert_Permutation {A} (cmp : A -> A -> Z) (x : A) (l : list A) :
  sort_insert cmp x l ≡ₚ x :: l.
Proof.
  induction l as [|y l IH]; simpl; [done|].
  destruct (cmp x y <=? 0); [done|]. rewrite IH. apply perm_swap.
Qed.

Lemma Array_sort_Permutation {A} (cmp : A -> A -> Z) (l : list A) :
  Array_sort cmp l ≡ₚ l.
Proof.
  induction l as [|x l IH]; simpl; [done|].
  fold (Array_sort cmp l). by rewrite sort_insert_Permutation, IH.
Qed.

Lemma Array_sort_length {A} (cmp : A -> A -> Z) (l : list A) :
  length (Array_sort cmp l) = length l.
Proof. apply Permutation_length, Array_sort_Permutation. Qed.

Lemma sort_insert_by_value_sorted (x : FormattedQuestion) (l : list FormattedQuestion) :
  StronglySorted value_le l -> StronglySorted value_le (sort_insert by_value x l).
Proof.
  induction 1 as [|y l Hl IH Hy]; simpl.
  - repeat constructor.
  - unfold by_value at 1. destruct (Z.leb_spec (value x - value y) 0) as [Hxy|Hxy].
    + constructor; [by constructor|].
      constructor; [unfold value_le; lia|].
      eapply Forall_impl; [exact Hy|]. unfold value_le. intros; lia.
    + constructor; [done|].
      rewrite sort_insert_Permutation. constructor; [unfold value_le; lia|done].
Qed.

Lemma Array_sort_by_value_sorted (l : list FormattedQuestion) :
  StronglySorted value_le (Array_sort by_value l).
Proof.
  induction l as [|x l IH]; simpl; [constructor|].
  by apply sort_insert_by_value_sorted.
Qed.

Lemma slice0_nonneg {A} (l : list A) (e : Z) :
  0 <= e -> slice0 l e = take (Z.to_nat e) l.
Proof. intros He. unfold slice0. destruct (Z.ltb_spec e 0); [lia|done]. Qed.

Lemma slice0_submseteq {A} (l : list A) (e : Z) : slice0 l e ⊆+ l.
Proof.
  unfold slice0. destruct (e <? 0); apply sublist_submseteq, sublist_take.
Qed.

(** ** Running computations *)

Lemma set_cursor_set_cursor (n m : nat) (w : World) :
  set_cursor n (set_cursor m w) = set_cursor n w.
Proof. reflexivity. Qed.

Lemma set_cursor_same (w : World) : set_cursor (cursor w) w = w.
Proof. by destruct w. Qed.

(** ** shuffleArray *)

(** The shuffle always returns, returns a permutation of its argument, and
    touches nothing in the world but the position in the stream of draws. *)
Lemma shuffle_loop_spec {A} (i : nat) (arr : list A) (w : World) :
  exists arr' n,
    shuffle_loop i arr w = (Returned arr', set_cursor n w) /\ arr' ≡ₚ arr.
Proof.
  revert arr w. induction i as [|i IH]; intros arr w; simpl.
  - exists arr, (cursor w). by rewrite set_cursor_same.
  - unfold_monad. unfold Math_random.
    destruct (IH (swap (S i)
                (Z.to_nat (Js.floor_scale (mantissa (draws w (cursor w)))
                             (Z.of_nat (S i) + 1))) arr)
                (set_cursor (S (cursor w)) w)) as (arr' & n & Hrun & Hperm).
    exists arr', n. rewrite Hrun, set_cursor_set_cursor.
    split; [done|]. by rewrite Hperm, swap_Permutation.
Qed.

Lemma shuffleArray_spec {A} (arr : list A) (w : World) :
  exists arr' n,
    shuffleArray arr w = (Returned arr', set_cursor n w) /\ arr' ≡ₚ arr.
Proof. apply shuffle_loop_spec. Qed.

(** Rounding the product of a draw and [n] never reaches [n]: the draw is
    at most [1 - 2^-53], and the product is then further from [n] than half
    the distance between neighbouring doubles. *)
Lemma round53_below (k n : Z) :
  0 <= k < 2 ^ 53 -> 0 < n -> 0 <= Js.round53 (k * n) < n * 2 ^ 53.
Proof.
  intros Hk Hn. unfold Js.round53.
  set (p := k * n). assert (Hp : 0 <= p < n * 2 ^ 53) by (unfold p; nia).
  destruct (Z.leb_spec (Z.log2 p - 52) 0) as [Hs|Hs]; [lia|].
  assert (Hpos : 0 < p).
  { destruct (Z.le_gt_cases p 0) as [H0|H0]; [|lia].
    pose proof (Z.log2_nonpos p H0). lia. }
  destruct (Z.log2_spec p Hpos) as [Hlo Hhi].
  remember (Z.log2 p - 52) as s eqn:Es.
  replace (Z.log2 p) with ((s - 1) + 53) in Hlo by lia.
  rewrite Z.pow_add_r in Hlo by lia.
  assert (Hpow : 2 ^ s = 2 * 2 ^ (s - 1)).
  { replace s with (Z.succ (s - 1)) at 1 by lia. apply Z.pow_succ_r. lia. }
  assert (Hhalf : 0 < 2 ^ (s - 1)) by (apply Z.pow_pos_nonneg; lia).
  pose proof (Z.div_mod p (2 ^ s) ltac:(lia)) as Hdiv.
  pose proof (Z.mod_pos_bound p (2 ^ s) ltac:(lia)) as Hmod.
  assert (Hq : 0 <= p / 2 ^ s) by (apply Z.div_pos; lia).
  assert (Hn' : 2 ^ (s - 1) < n) by nia.
  destruct (_ || _) eqn:Hround.
  - nia.
  - apply orb_false_iff in Hround as [Hlt _]. apply Z.ltb_ge in Hlt. nia.
Qed.

Lemma floor_scale_range (r : Draw) (n : Z) :
  0 < n -> 0 <= Js.floor_scale (mantissa r) n < n.
Proof.
  intros Hn. destruct r as [k Hk]; simpl.
  apply andb_prop in Hk as [H0 H1].
  apply Z.leb_le in H0. apply Z.ltb_lt in H1.
  pose proof (round53_below k n ltac:(lia) Hn) as Hr. unfold Js.floor_scale.
  split; [apply Z.div_pos; lia|apply Z.div_lt_upper_bound; lia].
Qed.

(** At the draw [6004799503160661 / 2^53] three times the draw is
    [2 - 2^-53], which no double holds: the product rounds to 2. *)
Example floor_scale_rounds_up :
  Js.floor_scale 6004799503160661 3 = 2 /\ 6004799503160661 * 3 / 2 ^ 53 = 1.
Proof. split; reflexivity. Qed.

(** ** The fallback pool *)

Lemma corpus_size : length getAllFallbackQuestions = 100%nat.
Proof. reflexivity. Qed.

Lemma corpus_ids : map id getAllFallbackQuestions = seqZ 1 100.
Proof. reflexivity. Qed.

Lemma corpus_easy_count :
  length (List.filter (has_difficulty "easy") getAllFallbackQuestions) = 35%nat.
Proof. reflexivity. Qed.

Lemma corpus_medium_count :
  length (List.filter (has_difficulty "medium") getAllFallbackQuestions) = 29%nat.
Proof. reflexivity. Qed.

Lemma corpus_hard_count :
  length (List.filter (has_difficulty "hard") getAllFallbackQuestions) = 36%nat.
Proof. reflexivity. Qed.

Lemma has_difficulty_exclusive (d d' : string) (q : FormattedQuestion) :
  d <> d' -> has_difficulty d q = true -> has_difficulty d' q = false.
Proof.
  unfold has_difficulty. intros Hne Hd. apply String.eqb_eq in Hd.
  apply String.eqb_neq. congruence.
Qed.

(** The three difficulty groups are disjoint parts of the list they are
    filtered from. *)
Lemma difficulty_groups_submseteq (l : list FormattedQuestion) :
  List.filter (has_difficulty "easy") l
  ++ List.filter (has_difficulty "medium") l
  ++ List.filter (has_difficulty "hard") l ⊆+ l.
Proof.
  induction l as [|q l IH]; simpl; [done|].
  destruct (has_difficulty "easy" q) eqn:He.
  - rewrite (has_difficulty_exclusive "easy" "medium" q), (has_difficulty_exclusive "easy" "hard" q) by done.
    simpl. by apply submseteq_skip.
  - destruct (has_difficulty "medium" q) eqn:Hm.
    + rewrite (has_difficulty_exclusive "medium" "hard" q) by done.
      simpl. rewrite <- Permutation_middle. by apply submseteq_skip.
    + destruct (has_difficulty "hard" q) eqn:Hh.
      * rewrite app_assoc, <- Permutation_middle, <- app_assoc.
        by apply submseteq_skip.
      * by apply submseteq_cons.
Qed.

(** Sampling returns for every amount and every stream of draws; what it
    returns is sorted by value and is a sub-multiset of the corpus. *)
Lemma getRandomFallbackQuestions_spec (amount : Z) (w : World) :
  exists se sm sh n,
    getRandomFallbackQuestions amount w
    = (Returned (Array_sort by_value
                   (slice0 se (third_of amount) ++ slice0 sm (third_of amount)
                    ++ slice0 sh (amount - third_of amount - third_of amount))),
       set_cursor n w)
    /\ se ≡ₚ List.filter (has_difficulty "easy") getAllFallbackQuestions
    /\ sm ≡ₚ List.filter (has_difficulty "medium") getAllFallbackQuestions
    /\ sh ≡ₚ List.filter (has_difficulty "hard") getAllFallbackQuestions.
Proof.
  unfold getRandomFallbackQuestions.
  generalize (List.filter (has_difficulty "easy") getAllFallbackQuestions) as easy.
  generalize (List.filter (has_difficulty "medium") getAllFallbackQuestions) as medium.
  generalize (List.filter (has_difficulty "hard") getAllFallbackQuestions) as hard.
  intros hard medium easy. unfold_monad.
  destruct (shuffleArray_spec easy w) as (se & n1 & -> & Hse).
  destruct (shuffleArray_spec medium (set_cursor n1 w)) as (sm & n2 & -> & Hsm).
  destruct (shuffleArray_spec hard (set_cursor n2 (set_cursor n1 w)))
    as (sh & n3 & -> & Hsh).
  exists se, sm, sh, n3. rewrite !set_cursor_set_cursor. auto.
Qed.

Lemma submseteq_NoDup {A} (l k : list A) : l ⊆+ k -> NoDup k -> NoDup l.
Proof.
  intros Hsub Hk. apply submseteq_Permutation in Hsub as [k' Hk'].
  rewrite Hk' in Hk. by apply NoDup_app in Hk as [? _].
Qed.

(** C4. For every stream of random draws, [getRandomFallbackQuestions 15]
    returns exactly 15 questions, in non-decreasing order of value, that form
    a sub-multiset of the 100-question corpus (each corpus entry is used at
    most once), and no two of them share an id. *)
Theorem fallback_sample_15 (w : World) :
  exists qs n,
    getRandomFallbackQuestions 15 w = (Returned qs, set_cursor n w)
    /\ length qs = 15%nat
    /\ StronglySorted value_le qs
    /\ qs ⊆+ getAllFallbackQuestions
    /\ NoDup (map id qs).
Proof.
  destruct (getRandomFallbackQuestions_spec 15 w)
    as (se & sm & sh & n & Hrun & Hse & Hsm & Hsh).
  change (third_of 15) with 4 in Hrun. change (15 - 4 - 4) with 7 in Hrun.
  eexists _, n. split; [exact Hrun|].
  pose proof (Permutation_length Hse) as Le. rewrite corpus_easy_count in Le.
  pose proof (Permutation_length Hsm) as Lm. rewrite corpus_medium_count in Lm.
  pose proof (Permutation_length Hsh) as Lh. rewrite corpus_hard_count in Lh.
  assert (Hsub : Array_sort by_value (slice0 se 4 ++ slice0 sm 4 ++ slice0 sh 7)
                 ⊆+ getAllFallbackQuestions).
  { rewrite Array_sort_Permutation.
    etrans; [|apply difficulty_groups_submseteq].
    rewrite <- Hse, <- Hsm, <- Hsh.
    repeat apply submseteq_app; apply slice0_submseteq. }
  split; [|split; [|split]].
  - rewrite Array_sort_length, !length_app, !slice0_nonneg, !length_take by lia. lia.
  - apply Array_sort_by_value_sorted.
  - exact Hsub.
  - eapply submseteq_NoDup.
    + apply (fmap_submseteq id), Hsub.
    + change (NoDup (map id getAllFallbackQuestions)).
      rewrite corpus_ids. apply NoDup_seqZ.
Qed.

(** ** The formatter *)

Lemma findIndex_from_found {A} (p : A -> bool) (l : list A) (i : Z) :
  (exists x, x ∈ l /\ p x = true) ->
  exists (k : nat) (x : A),
    findIndex_from p l i = i + Z.of_nat k
    /\ l !! k = Some x /\ p x = true
    /\ forall (j : nat) (y : A), (j < k)%nat -> l !! j = Some y -> p y = false.
Proof.
  revert i. induction l as [|a l IH]; intros i (x & Hx & Hpx).
  - by apply elem_of_nil in Hx.
  - simpl. destruct (p a) eqn:Hpa.
    + exists 0%nat, a. repeat split; [lia|done|]. intros j y Hj. lia.
    + apply elem_of_cons in Hx as [->|Hx]; [congruence|].
      destruct (IH (i + 1)) as (k & x' & Hk & Hl & Hp & Hfirst); [by eauto|].
      exists (S k), x'. repeat split; [lia|done|done|].
      intros [|j] y Hj Hy; simplify_eq/=; [done|].
      apply (Hfirst j); [lia|done].
Qed.

Lemma ladder_slot (d : string) (index : nat) :
  d ∈ ["easy"; "medium"; "hard"] ->
  exists ladder v,
    difficultyValueMap !! d = Some ladder /\ ladder !! (index mod 5)%nat = Some v.
Proof.
  intros Hd.
  assert (Hlt : (index mod 5 < 5)%nat) by (apply Nat.mod_upper_bound; lia).
  assert (exists ladder, difficultyValueMap !! d = Some ladder /\ length ladder = 5%nat)
    as (ladder & Hl & Hlen).
  { repeat (apply elem_of_cons in Hd as [->|Hd]); [..|by apply elem_of_nil in Hd];
      eexists; split; try reflexivity; reflexivity. }
  destruct (lookup_lt_is_Some_2 ladder (index mod 5)%nat) as [v Hv]; [lia|].
  by exists ladder, v.
Qed.

Section Formatter.
Context `{Host}.

(** What the formatter does with a record that has a non-empty correct
    answer, three incorrect answers and one of the three difficulties. *)
Lemma formatQuestion_returns (q : ApiQuestion) (index : nat) (w : World)
    (incorrect : list string) :
  correct_answer q <> "" ->
  incorrect_answers q = Some incorrect ->
  length incorrect = 3%nat ->
  api_difficulty q ∈ ["easy"; "medium"; "hard"] ->
  exists shuffled n ladder v,
    formatQuestion q index w
    = (Returned {| id := Z.of_nat index + 1;
                   question := decodeHTMLEntities (api_question q);
                   options := shuffled;
                   correctAnswer :=
                     findIndex (fun option =>
                                  String.eqb option (decodeHTMLEntities (correct_answer q)))
                               shuffled;
                   category := decodeHTMLEntities (api_category q);
                   difficulty := api_difficulty q;
                   value := v |},
       set_cursor n w)
    /\ shuffled ≡ₚ decodeHTMLEntities (correct_answer q) :: map decodeHTMLEntities incorrect
    /\ difficultyValueMap !! api_difficulty q = Some ladder
    /\ ladder !! (index mod 5)%nat = Some v.
Proof.
  intros Hc Hi Hlen Hd. unfold formatQuestion.
  destruct (correct_answer q) as [|c s] eqn:Ec; [done|].
  rewrite Hi, Hlen. change (negb (3 =? 3)%nat) with false.
  unfold_monad. cbv beta iota.
  destruct (shuffleArray_spec
              (decodeHTMLEntities (String c s) :: map decodeHTMLEntities incorrect) w)
    as (shuffled & n & -> & Hperm).
  destruct (ladder_slot (api_difficulty q) index Hd) as (ladder & v & Hl & Hv).
  rewrite Hl, Hv. by exists shuffled, n, ladder, v.
Qed.

End Formatter.

(** ** The store *)

Lemma getItem_readable (key : string) (w : World) :
  mode w <> AccessDenied ->
  localStorage_getItem key w = (Returned (items w !! key), w).
Proof. unfold localStorage_getItem. by destruct (mode w). Qed.

Lemma setItem_available (key val : string) (w : World) :
  mode w = Available ->
  localStorage_setItem key val w = (Returned tt, set_items (insert key val) w).
Proof. unfold localStorage_setItem. by intros ->. Qed.

Lemma truthy_nonempty (s : string) : s <> "" -> Js.truthy (Some s) = true.
Proof. by destruct s. Qed.

Section Cache.
Context `{Host}.

(** On an available store [cacheQuestions] writes the serialised set and
    the time of the write. *)
Lemma cacheQuestions_available (qs : list FormattedQuestion) (w : World) :
  mode w = Available ->
  cacheQuestions qs w
  = (Returned tt,
     set_items (fun m => <[CACHE_TIMESTAMP_KEY := Js.toString (Js.Num (clock w))]>
                           (<[CACHE_KEY := JSON_stringify qs]> m)) w).
Proof.
  intros Hm. unfold cacheQuestions, Date_now. unfold_monad.
  rewrite setItem_available by done.
  by rewrite setItem_available by done.
Qed.

(** Reading a cache whose two entries are present on a readable store. *)
Lemma getCachedQuestions_present (w : World) (cached stamp : string) :
  mode w <> AccessDenied ->
  items w !! CACHE_KEY = Some cached ->
  items w !! CACHE_TIMESTAMP_KEY = Some stamp ->
  cached <> "" -> stamp <> "" ->
  getCachedQuestions w
  = (Returned
       (if Js.gt (Js.sub (Js.Num (clock w)) (Js.parseInt stamp)) (Js.Num CACHE_EXPIRY)
        then Null
        else default Null (JSON_parse cached)),
     w).
Proof.
  intros Hm Hc Hs Hc' Hs'. unfold getCachedQuestions, Date_now. unfold_monad.
  rewrite !getItem_readable by done. rewrite Hc, Hs.
  rewrite !truthy_nonempty by done. simpl.
  destruct (Js.gt _ _); [done|]. by destruct (JSON_parse cached).
Qed.

(** Reading the cache at time [t] after [cacheQuestions set] has written
    it at time [clock w]. *)
Lemma read_after_write (set : list FormattedQuestion) (w : World) (t : Z) :
  mode w = Available ->
  JSON_stringify set <> "" ->
  JSON_parse (JSON_stringify set) = Some (Questions set) ->
  getCachedQuestions (set_clock t (cacheQuestions set w).2)
  = (Returned (if t - clock w >? CACHE_EXPIRY then Null else Questions set),
     set_clock t (cacheQuestions set w).2).
Proof.
  intros Hm Hne Hrt. rewrite cacheQuestions_available by done. unfold snd.
  rewrite (getCachedQuestions_present _ (JSON_stringify set)
             (Js.toString (Js.Num (clock w)))).
  - by rewrite parseInt_toString, Hrt.
  - simpl. by rewrite Hm.
  - simpl. by rewrite lookup_insert_ne, lookup_insert_eq.
  - simpl. by rewrite lookup_insert_eq.
  - done.
  - intros E. pose proof (toString_truthy (clock w)) as Ht. by rewrite E in Ht.
Qed.

(** C7. On an available store and with a JSON codec that reads back what it
    wrote for [set], [cacheQuestions set] followed by [getCachedQuestions]
    gives [set] as long as no more than 24 hours have passed since the write
    (in particular immediately after it), and [null] once the clock is more
    than 24 hours past the write. *)
Theorem cache_round_trip (set : list FormattedQuestion) (w : World) :
  mode w = Available ->
  JSON_stringify set <> "" ->
  JSON_parse (JSON_stringify set) = Some (Questions set) ->
  let written := (cacheQuestions set w).2 in
  (forall t, t - clock w <= CACHE_EXPIRY ->
     getCachedQuestions (set_clock t written) = (Returned (Questions set), set_clock t written))
  /\ (forall t, t - clock w > CACHE_EXPIRY ->
        getCachedQuestions (set_clock t written) = (Returned Null, set_clock t written)).
Proof.
  intros Hm Hne Hrt. cbn zeta.
  split; intros t Ht; rewrite read_after_write by done.
  - destruct (Z.gtb_spec (t - clock w) CACHE_EXPIRY); [lia|done].
  - destruct (Z.gtb_spec (t - clock w) CACHE_EXPIRY); [done|lia].
Qed.

End Cache.

(** ** The throttle *)

Lemma shouldUseApi_available (w : World) :
  mode w = Available ->
  shouldUseApi w
  = if cooldown_active (items w) (clock w) then (Returned false, w)
    else if Js.ge (window_count (items w) (clock w)) (Js.Num 5) then (Returned false, w)
    else (Returned true,
          set_items (fun m =>
            <[LAST_REQUEST_TIME_KEY := Js.toString (Js.Num (clock w))]>
              (<[REQUEST_COUNT_KEY :=
                   Js.toString (Js.add (window_count (items w) (clock w)) (Js.Num 1))]> m)) w).
Proof.
  intros Hm. unfold shouldUseApi, Date_now. unfold_monad.
  rewrite getItem_readable by (rewrite Hm; done).
  fold (cooldown_active (items w) (clock w)).
  destruct (cooldown_active (items w) (clock w)); [done|].
  rewrite !getItem_readable by (rewrite Hm; done).
  fold (window_count (items w) (clock w)).
  destruct (Js.ge _ _); [done|].
  rewrite setItem_available by done.
  by rewrite setItem_available by done.
Qed.

(** A store that fails makes [shouldUseApi] answer [true]. *)
Lemma shouldUseApi_denied (w : World) :
  mode w = AccessDenied -> shouldUseApi w = (Returned true, w).
Proof.
  intros Hm. unfold shouldUseApi, localStorage_getItem. unfold_monad.
  by rewrite Hm.
Qed.

Lemma handleRateLimiting_available (w : World) :
  mode w = Available ->
  handleRateLimiting w
  = (Returned tt,
     set_items (insert API_COOLDOWN_KEY (Js.toString (Js.Num (clock w + API_COOLDOWN)))) w).
Proof.
  intros Hm. unfold handleRateLimiting, Date_now. unfold_monad.
  by rewrite setItem_available.
Qed.

Lemma handleRateLimiting_returned (w w' : World) :
  handleRateLimiting w = (Returned tt, w') -> mode w = Available.
Proof.
  unfold handleRateLimiting, Date_now, localStorage_setItem. unfold_monad.
  by destruct (mode w).
Qed.

(** C6. Once [handleRateLimiting] has set the deadline to thirty minutes
    after its call, [shouldUseApi] answers [false] in every later state of
    the store that still holds this deadline, whenever the clock is strictly
    before the deadline; so an answer [true] implies that the clock has
    reached the deadline. *)
Theorem cooldown_blocks_until_deadline (w w1 w2 : World) :
  handleRateLimiting w = (Returned tt, w1) ->
  mode w2 = mode w1 ->
  items w2 !! API_COOLDOWN_KEY = items w1 !! API_COOLDOWN_KEY ->
  (clock w2 < clock w + API_COOLDOWN -> shouldUseApi w2 = (Returned false, w2))
  /\ (forall w3, shouldUseApi w2 = (Returned true, w3) ->
        clock w + API_COOLDOWN <= clock w2).
Proof.
  intros Hrun Hmode Hkey.
  pose proof (handleRateLimiting_returned _ _ Hrun) as Hm.
  rewrite handleRateLimiting_available in Hrun by done.
  assert (w1 = set_items (insert API_COOLDOWN_KEY
                 (Js.toString (Js.Num (clock w + API_COOLDOWN)))) w) as ->
    by congruence.
  unfold set_items in Hmode, Hkey.
  cbn [items mode] in Hmode, Hkey. rewrite lookup_insert_eq in Hkey.
  assert (Hblock : clock w2 < clock w + API_COOLDOWN ->
                   shouldUseApi w2 = (Returned false, w2)).
  { intros Hlt. rewrite shouldUseApi_available by congruence.
    unfold cooldown_active. rewrite Hkey, toString_truthy. simpl default.
    rewrite parseInt_toString. simpl.
    destruct (Z.gtb_spec (clock w + API_COOLDOWN) (clock w2)); [done|lia]. }
  split; [done|].
  intros w3 Htrue.
  destruct (Z.lt_ge_cases (clock w2) (clock w + API_COOLDOWN)) as [Hlt|]; [|done].
  rewrite (Hblock Hlt) in Htrue. discriminate.
Qed.

Lemma or_else_toString (z : Z) (d : string) :
  Js.or_else (Some (Js.toString (Js.Num z))) d = Js.toString (Js.Num z).
Proof.
  pose proof (toString_truthy z) as Ht.
  by destruct (Js.toString (Js.Num z)).
Qed.

Lemma window_count_tracked (w : World) (n t now : Z) :
  tracked w n t ->
  window_count (items w) now = if now - t >? 5 * 60 * 1000 then Js.Num 0 else Js.Num n.
Proof.
  intros (_ & Hc & Hl). unfold window_count.
  rewrite Hc, Hl, toString_truthy. cbn [default from_option Datatypes.id].
  rewrite or_else_toString, !parseInt_toString. simpl.
  by destruct (now - t >? 300000).
Qed.

Lemma cooldown_active_mono (m : gmap string string) (t t' : Z) :
  t <= t' -> cooldown_active m t = false -> cooldown_active m t' = false.
Proof.
  unfold cooldown_active. intros Ht.
  destruct (Js.truthy (m !! API_COOLDOWN_KEY)); [|done]. simpl.
  destruct (Js.parseInt _) as [d|]; [|done]. simpl.
  intros Hd. destruct (Z.gtb_spec d t); [done|].
  destruct (Z.gtb_spec d t'); [lia|done].
Qed.

Lemma shouldUseApi_true_inv (w w' : World) :
  mode w = Available ->
  shouldUseApi w = (Returned true, w') ->
  exists n,
    window_count (items w) (clock w) = n
    /\ Js.ge n (Js.Num 5) = false
    /\ cooldown_active (items w) (clock w) = false
    /\ mode w' = Available
    /\ clock w' = clock w
    /\ items w' !! REQUEST_COUNT_KEY = Some (Js.toString (Js.add n (Js.Num 1)))
    /\ items w' !! LAST_REQUEST_TIME_KEY = Some (Js.toString (Js.Num (clock w)))
    /\ items w' !! API_COOLDOWN_KEY = items w !! API_COOLDOWN_KEY.
Proof.
  intros Hm. rewrite shouldUseApi_available by done.
  destruct (cooldown_active _ _); [discriminate|].
  destruct (Js.ge _ _) eqn:Hge; [discriminate|].
  intros [= <-]. eexists; split; [reflexivity|].
  cbn [set_items items mode clock].
  rewrite lookup_insert_ne by done. rewrite !lookup_insert_eq.
  rewrite !lookup_insert_ne by done. done.
Qed.

(** The first successful call leaves a count between 1 and 5. *)
Lemma first_call_tracked (w w' : World) :
  mode w = Available ->
  count_well_formed (items w) ->
  shouldUseApi w = (Returned true, w') ->
  exists n, 1 <= n /\ tracked w' n (clock w) /\ clock w' = clock w
            /\ cooldown_active (items w') (clock w) = false.
Proof.
  intros Hm (c & Hc0 & Hc) Hrun.
  destruct (shouldUseApi_true_inv _ _ Hm Hrun)
    as (n & Hn & Hlt & Hcd & Hm' & Hclk & Hcount & Hlast & Hkeep).
  assert (exists k, 0 <= k /\ n = Js.Num k) as (k & Hk0 & ->).
  { subst n. unfold window_count. destruct (_ && _); [by exists 0|by exists c]. }
  exists (k + 1). repeat split; try done; [lia|].
  unfold cooldown_active in *. by rewrite Hkeep.
Qed.

(** A further successful call inside the window adds one to the count. *)
Lemma next_call_tracked (w w' : World) (n t now : Z) :
  tracked w n t ->
  now - t <= 5 * 60 * 1000 ->
  shouldUseApi (set_clock now w) = (Returned true, w') ->
  n < 5 /\ tracked w' (n + 1) now
  /\ cooldown_active (items w') now = false.
Proof.
  intros Ht Hgap Hrun.
  assert (Hm : mode (set_clock now w) = Available) by apply Ht.
  destruct (shouldUseApi_true_inv _ _ Hm Hrun)
    as (c & Hc & Hlt & Hcd & Hm' & Hclk & Hcount & Hlast & Hkeep).
  cbn [set_clock items clock] in *.
  rewrite (window_count_tracked w n t now Ht) in Hc.
  destruct (Z.gtb_spec (now - t) (5 * 60 * 1000)); [lia|]. subst c.
  simpl in Hlt. destruct (Z.geb_spec n 5); [done|].
  repeat split; try done. unfold cooldown_active in *. by rewrite Hkeep.
Qed.

(** With five requests counted, a call inside the window is refused and
    changes nothing. *)
Lemma full_window_refuses (w : World) (n t now : Z) :
  tracked w n t -> 5 <= n -> now - t <= 5 * 60 * 1000 ->
  shouldUseApi (set_clock now w) = (Returned false, set_clock now w).
Proof.
  intros Ht Hn Hgap.
  rewrite shouldUseApi_available by apply Ht.
  cbn [set_clock items clock].
  destruct (cooldown_active _ _); [done|].
  rewrite (window_count_tracked w n t now Ht).
  destruct (Z.gtb_spec (now - t) (5 * 60 * 1000)); [lia|].
  simpl. destruct (Z.geb_spec n 5); [done|lia].
Qed.

(** After more than five idle minutes the count starts again from zero:
    the call is allowed and records one request. *)
Lemma idle_window_resets (w : World) (n t now : Z) :
  tracked w n t -> now - t > 5 * 60 * 1000 ->
  cooldown_active (items w) now = false ->
  exists w',
    shouldUseApi (set_clock now w) = (Returned true, w')
    /\ window_count (items w) now = Js.Num 0
    /\ tracked w' 1 now.
Proof.
  intros Ht Hgap Hcd.
  rewrite shouldUseApi_available by apply Ht.
  cbn [set_clock items clock]. rewrite Hcd.
  rewrite (window_count_tracked w n t now Ht).
  destruct (Z.gtb_spec (now - t) (5 * 60 * 1000)); [|lia].
  simpl. eexists; split; [reflexivity|]. split; [done|].
  repeat split; cbn [set_items items mode]; [apply Ht| |].
  - by rewrite lookup_insert_ne, lookup_insert_eq.
  - by rewrite lookup_insert_eq.
Qed.

(** C5, as amended. Start from an available store whose request count is
    missing or a natural number, and let five calls of [shouldUseApi] in a row answer
    [true] (so no cooldown is active), each at most five minutes after the
    one before. Then a sixth call at most five minutes after the fifth
    answers [false] and changes nothing; and a call more than five minutes
    after the fifth sees the count reset to 0, answers [true] and records
    one request. *)
Theorem rolling_window_of_five (w0 w1 w2 w3 w4 w5 : World) (t1 t2 t3 t4 t5 : Z) :
  mode w0 = Available ->
  count_well_formed (items w0) ->
  shouldUseApi (set_clock t1 w0) = (Returned true, w1) ->
  shouldUseApi (set_clock t2 w1) = (Returned true, w2) ->
  shouldUseApi (set_clock t3 w2) = (Returned true, w3) ->
  shouldUseApi (set_clock t4 w3) = (Returned true, w4) ->
  shouldUseApi (set_clock t5 w4) = (Returned true, w5) ->
  t2 - t1 <= 5 * 60 * 1000 -> t3 - t2 <= 5 * 60 * 1000 ->
  t4 - t3 <= 5 * 60 * 1000 -> t5 - t4 <= 5 * 60 * 1000 ->
  (forall t6, t6 - t5 <= 5 * 60 * 1000 ->
     shouldUseApi (set_clock t6 w5) = (Returned false, set_clock t6 w5))
  /\ (forall t, t - t5 > 5 * 60 * 1000 ->
        exists w',
          shouldUseApi (set_clock t w5) = (Returned true, w')
          /\ window_count (items w5) t = Js.Num 0
          /\ items w' !! REQUEST_COUNT_KEY = Some "1").
Proof.
  intros Hm Hwf H1 H2 H3 H4 H5 G2 G3 G4 G5.
  destruct (first_call_tracked (set_clock t1 w0) w1 Hm Hwf H1) as (n & Hn & T1 & _ & _).
  cbn [set_clock clock] in T1.
  destruct (next_call_tracked _ _ _ _ _ T1 G2 H2) as (N1 & T2 & _).
  destruct (next_call_tracked _ _ _ _ _ T2 G3 H3) as (N2 & T3 & _).
  destruct (next_call_tracked _ _ _ _ _ T3 G4 H4) as (N3 & T4 & _).
  destruct (next_call_tracked _ _ _ _ _ T4 G5 H5) as (N4 & T5 & Hcd).
  split.
  - intros t6 G6. eapply full_window_refuses; [exact T5|lia|done].
  - intros t Ht.
    destruct (idle_window_resets w5 _ _ t T5 Ht) as (w' & Hrun & Hzero & T').
    { eapply cooldown_active_mono; [|exact Hcd]. lia. }
    exists w'. repeat split; [done|done|]. apply T'.
Qed.

(** Why the count is required to be a number: a count entry that does not
    parse is [NaN], which is never [>= 5]; the call is allowed and the entry
    becomes the text NaN, so the throttle never fills. *)
Example unreadable_count_is_never_full :
  let w := set_items (insert REQUEST_COUNT_KEY "many")
             (Reference.world Available 0 Reference.offline) in
  (shouldUseApi w).1 = Returned true
  /\ items (shouldUseApi w).2 !! REQUEST_COUNT_KEY = Some "NaN".
Proof. split; vm_compute; reflexivity. Qed.

(** ** fetchQuestions *)

Section Provider.
Context `{Host}.

Lemma getCachedQuestions_absent (w : World) :
  items w !! CACHE_KEY = None -> getCachedQuestions w = (Returned Null, w).
Proof.
  intros Hc. unfold getCachedQuestions, localStorage_getItem, Date_now. unfold_monad.
  destruct (mode w) eqn:Hm; rewrite ?Hc; cbv beta iota; rewrite ?Hm; reflexivity.
Qed.

Lemma formatQuestion_normalizes (q : ApiQuestion) (index : nat) (w : World) :
  well_formed_record q ->
  exists fq n,
    formatQuestion q index w = (Returned fq, set_cursor n w) /\ normalizes q index fq.
Proof.
  intros (Hc & (incorrect & Hi & Hlen) & Hd).
  destruct (formatQuestion_returns q index w incorrect Hc Hi Hlen Hd)
    as (shuffled & n & ladder & v & Hrun & Hperm & Hl & Hv).
  eexists _, n. split; [exact Hrun|].
  exists incorrect, ladder. by repeat split.
Qed.

(** C3, as amended. For a record with a non-empty correct answer, exactly
    three incorrect answers and a difficulty that is one of easy, medium and
    hard, the formatter returns a question whose options are four in number
    and a permutation of the decoded correct answer together with the three
    decoded incorrect answers; [correctAnswer] is a position of the options
    that holds the decoded correct answer, and the first such position. *)
Theorem formatQuestion_options (q : ApiQuestion) (index : nat) (w : World)
    (incorrect : list string) :
  correct_answer q <> "" ->
  incorrect_answers q = Some incorrect ->
  length incorrect = 3%nat ->
  api_difficulty q ∈ ["easy"; "medium"; "hard"] ->
  exists fq n,
    formatQuestion q index w = (Returned fq, set_cursor n w)
    /\ length (options fq) = 4%nat
    /\ options fq ≡ₚ decodeHTMLEntities (correct_answer q) :: map decodeHTMLEntities incorrect
    /\ at_index (options fq) (correctAnswer fq) = Some (decodeHTMLEntities (correct_answer q))
    /\ forall j, 0 <= j < correctAnswer fq ->
         at_index (options fq) j <> Some (decodeHTMLEntities (correct_answer q)).
Proof.
  intros Hc Hi Hlen Hd.
  destruct (formatQuestion_returns q index w incorrect Hc Hi Hlen Hd)
    as (shuffled & n & ladder & v & Hrun & Hperm & _ & _).
  eexists _, n. split; [exact Hrun|]. cbn [options correctAnswer].
  set (correct := decodeHTMLEntities (correct_answer q)) in *.
  destruct (findIndex_from_found (fun option => String.eqb option correct) shuffled 0)
    as (k & x & Hk & Hx & Hpx & Hfirst).
  { exists correct. split; [rewrite Hperm; left|apply String.eqb_refl]. }
  apply String.eqb_eq in Hpx. subst x.
  unfold findIndex. rewrite Hk.
  split; [|split; [done|split]].
  - rewrite (Permutation_length Hperm). simpl. by rewrite length_map, Hlen.
  - unfold at_index. destruct (Z.ltb_spec (0 + Z.of_nat k) 0); [lia|].
    by replace (Z.to_nat (0 + Z.of_nat k)) with k by lia.
  - intros j Hj. unfold at_index. destruct (Z.ltb_spec j 0); [lia|].
    intros Hy. apply (Hfirst (Z.to_nat j)) in Hy; [|lia].
    by rewrite String.eqb_refl in Hy.
Qed.

Lemma mapM_formatQuestion (l : list ApiQuestion) (index : nat) (w : World) :
  Forall well_formed_record l ->
  exists fqs n,
    mapM_from formatQuestion l index w = (Returned fqs, set_cursor n w)
    /\ length fqs = length l
    /\ forall (k : nat) q fq,
         l !! k = Some q -> fqs !! k = Some fq -> normalizes q (index + k) fq.
Proof.
  intros Hl. revert index w.
  induction Hl as [|q l Hq Hl IH]; intros index w; simpl.
  - exists [], (cursor w). rewrite set_cursor_same. unfold_monad.
    repeat split. intros k q fq Hk. by rewrite lookup_nil in Hk.
  - unfold_monad.
    destruct (formatQuestion_normalizes q index w Hq) as (fq & n & -> & Hfq).
    destruct (IH (S index) (set_cursor n w)) as (fqs & n' & -> & Hlen & Hall).
    exists (fq :: fqs), n'. rewrite set_cursor_set_cursor.
    repeat split; [simpl; congruence|].
    intros [|k] q' fq' Hk Hk'; simplify_eq/=.
    + by rewrite Nat.add_0_r.
    + rewrite <- Nat.add_succ_comm. by apply Hall.
Qed.

(** C8. When the store holds a cached set that has not expired,
    [fetchQuestions] returns exactly what [JSON.parse] gives for the cached
    text, and the world after the call is the world before it: no request
    was sent, no draw was taken, and the cooldown deadline, the request
    count and the last request time are untouched. The throttle is not
    consulted. *)
Theorem cache_hit_is_returned_verbatim (amount : Z) (w : World)
    (cached stamp : string) (written : Z) (qs : list FormattedQuestion) :
  mode w <> AccessDenied ->
  items w !! CACHE_KEY = Some cached ->
  items w !! CACHE_TIMESTAMP_KEY = Some stamp ->
  cached <> "" ->
  stamp <> "" ->
  Js.parseInt stamp = Js.Num written ->
  clock w - written <= CACHE_EXPIRY ->
  JSON_parse cached = Some (Questions qs) ->
  fetchQuestions amount w = (Returned (Questions qs), w).
Proof.
  intros Hm Hc Hs Hc' Hs' Hp Hfresh Hparse.
  unfold fetchQuestions. unfold_monad.
  rewrite (getCachedQuestions_present w cached stamp) by done.
  rewrite Hp, Hparse. simpl.
  by destruct (Z.gtb_spec (clock w - written) CACHE_EXPIRY); [lia|].
Qed.

(** C2. On an available store with no cached entry, if [shouldUseApi]
    allows the fetch and the three requests are answered with response code
    0 and five well-formed records each, then [fetchQuestions] returns 15
    questions: the formatted versions of the easy, medium and hard records,
    sorted by value. When it returns, the store holds the serialised sorted
    set under the cache key and the time of the write under the timestamp
    key. *)
Theorem live_fetch_returns_sorted_and_caches (amount : Z) (w w1 : World)
    (easy medium hard : list ApiQuestion) :
  mode w = Available ->
  items w !! CACHE_KEY = None ->
  shouldUseApi w = (Returned true, w1) ->
  serves w url_easy easy -> serves w url_medium medium -> serves w url_hard hard ->
  length easy = 5%nat -> length medium = 5%nat -> length hard = 5%nat ->
  Forall well_formed_record (easy ++ medium ++ hard) ->
  exists formatted w',
    fetchQuestions amount w = (Returned (Questions (Array_sort by_value formatted)), w')
    /\ length (Array_sort by_value formatted) = 15%nat
    /\ StronglySorted value_le (Array_sort by_value formatted)
    /\ (forall (k : nat) q fq,
          (easy ++ medium ++ hard) !! k = Some q -> formatted !! k = Some fq ->
          normalizes q k fq)
    /\ items w' !! CACHE_KEY = Some (JSON_stringify (Array_sort by_value formatted))
    /\ items w' !! CACHE_TIMESTAMP_KEY = Some (Js.toString (Js.Num (clock w')))
    /\ requests w' = requests w ++ [url_easy; url_medium; url_hard].
Proof.
  intros Hm Hc Hallow (ms1 & st1 & He & Hst1) (ms2 & st2 & Hmd & Hst2)
         (ms3 & st3 & Hh & Hst3) Le Lm Lh Hwf.
  pose proof Hallow as Hw1. rewrite shouldUseApi_available in Hw1 by done.
  destruct (cooldown_active _ _); [discriminate|].
  destruct (Js.ge _ _); [discriminate|].
  assert (Hw1' : w1 = set_items (fun m =>
            <[LAST_REQUEST_TIME_KEY := Js.toString (Js.Num (clock w))]>
              (<[REQUEST_COUNT_KEY :=
                   Js.toString (Js.add (window_count (items w) (clock w)) (Js.Num 1))]> m)) w)
    by congruence.
  clear Hw1.
  unfold fetchQuestions. unfold_monad.
  rewrite getCachedQuestions_absent by done. cbn [is_truthy].
  rewrite Hallow. cbn [negb].
  unfold Math_random, sleep, await_all_get.
  cbn [remote set_clock set_cursor set_requests map].
  assert (Hr : remote w1 = remote w) by (by rewrite Hw1').
  rewrite Hr, He, Hmd, Hh.
  cbn [first_rejection fulfilled settled status data latency].
  destruct (Z.eqb_spec st1 429); [done|].
  destruct (Z.eqb_spec st2 429); [done|].
  destruct (Z.eqb_spec st3 429); [done|].
  cbn [orb data_of data]. unfold_monad.
  cbn [fst snd default from_option Datatypes.id].
  rewrite !bool_decide_eq_true_2 by done. cbn [negb].
  rewrite Le, Lm, Lh. cbn [Nat.eqb negb orb].
  match goal with
  | |- context [mapM_from formatQuestion _ 0%nat ?w0] =>
      destruct (mapM_formatQuestion (easy ++ medium ++ hard) 0 w0 Hwf)
        as (formatted & pos & -> & Hlen & Hall)
  end.
  rewrite cacheQuestions_available by (cbn [mode set_cursor set_clock set_requests]; by rewrite Hw1').
  eexists formatted, _. split; [reflexivity|].
  repeat split.
  - rewrite Array_sort_length, Hlen, !length_app. lia.
  - apply Array_sort_by_value_sorted.
  - exact Hall.
  - cbn [items set_items]. by rewrite lookup_insert_ne, lookup_insert_eq.
  - cbn [items set_items clock set_cursor set_clock set_requests].
    by rewrite lookup_insert_eq.
  - cbn [requests set_items set_cursor set_clock set_requests]. by rewrite Hw1'.
Qed.

End Provider.

(** ** The game: payout *)

(** What the loop of the wrong-answer branch computes. *)
Lemma milestone_loop_payout (index : Z) :
  milestone_loop (length milestones) index (Some 0) = Some (promised_payout (index + 1)).
Proof.
  unfold promised_payout. simpl. unfold at_index.
  destruct (Z.geb_spec index (15 - 1)), (Z.leb_spec 15 (index + 1)); try lia; [done|].
  destruct (Z.geb_spec index (10 - 1)), (Z.leb_spec 10 (index + 1)); try lia; [done|].
  destruct (Z.geb_spec index (5 - 1)), (Z.leb_spec 5 (index + 1)); try lia; done.
Qed.

(** A wrong answer at question number [index + 1] ends the game with the
    payout promised to a player who has completed [index + 1] questions:
    the question that was just answered wrongly counts as completed. *)
Lemma confirmAnswer_wrong (g : Game) (selected : Z) (current : FormattedQuestion) :
  selectedAnswer g = Some selected ->
  at_index (questions g) (currentQuestionIndex g) = Some current ->
  selected <> correctAnswer current ->
  exists g',
    confirmAnswer g = Returned g'
    /\ gameState g' = result
    /\ earnedMoney g' = Some (promised_payout (currentQuestionIndex g + 1)).
Proof.
  intros Hs Hq Hne. unfold confirmAnswer. rewrite Hs, Hq.
  destruct (Z.eqb_spec selected (correctAnswer current)); [done|].
  eexists; split; [reflexivity|]. split; [done|]. apply milestone_loop_payout.
Qed.

(** A correct answer to the last of fifteen questions pays the top of the
    ladder. *)
Lemma confirmAnswer_final_correct (g : Game) (selected : Z) (current : FormattedQuestion) :
  length (questions g) = 15%nat ->
  currentQuestionIndex g = 14 ->
  selectedAnswer g = Some selected ->
  at_index (questions g) (currentQuestionIndex g) = Some current ->
  selected = correctAnswer current ->
  exists g',
    confirmAnswer g = Returned g'
    /\ gameState g' = result
    /\ earnedMoney g' = Some 1000000.
Proof.
  intros Hl Hi Hs Hq ->. unfold confirmAnswer. rewrite Hs, Hq, Z.eqb_refl, Hl, Hi.
  eexists; split; [reflexivity|]. done.
Qed.

(** C9, at the input where the code departs from it. The fifth question is
    "Which element has the chemical symbol 'O'?" with the correct option 1.
    A player who has answered four questions correctly, and so has completed
    no milestone, confirms option 0 there. The game ends with 1000, the
    value of the milestone at question 5, where the milestone rule promises
    0. *)
Theorem wrong_answer_on_question_5_pays_1000 :
  (correctAnswer <$> at_index (questions (game_at 4 0)) 4) = Some 1
  /\ promised_payout 4 = 0
  /\ (earnedMoney <$> (match confirmAnswer (game_at 4 0) with
                       | Returned g' => Some g'
                       | Thrown _ => None
                       end)) = Some (Some 1000).
Proof. repeat split. Qed.

(** The same at the last question: a wrong answer there is paid the top
    prize. *)
Lemma wrong_answer_on_question_15_pays_top_prize :
  exists g', confirmAnswer (game_at 14 0) = Returned g'
             /\ earnedMoney g' = Some 1000000.
Proof. eexists; split; reflexivity. Qed.

(** ** The game: 50:50 *)

Lemma random_order_run (a b : Z) (w : World) :
  random_order a b w
  = (Returned (2 * mantissa (draws w (cursor w)) - 2 ^ 53), set_cursor (S (cursor w)) w).
Proof. reflexivity. Qed.

Lemma sort_insertM_random_order (x : Z) (l : list Z) (w : World) :
  exists l' n,
    sort_insertM random_order x l w = (Returned l', set_cursor n w) /\ l' ≡ₚ x :: l.
Proof.
  revert w. induction l as [|y l IH]; intros w; simpl.
  - exists [x], (cursor w). by rewrite set_cursor_same.
  - unfold_monad. rewrite random_order_run.
    destruct (2 * mantissa (draws w (cursor w)) - 2 ^ 53 <? 0).
    + by exists (x :: y :: l), (S (cursor w)).
    + destruct (IH (set_cursor (S (cursor w)) w)) as (l' & n & -> & Hl').
      exists (y :: l'), n. rewrite set_cursor_set_cursor. split; [done|].
      rewrite Hl'. apply perm_swap.
Qed.

Lemma Array_sortM_from_random_order (sorted rest : list Z) (w : World) :
  exists l' n,
    Array_sortM_from random_order sorted rest w = (Returned l', set_cursor n w)
    /\ l' ≡ₚ sorted ++ rest.
Proof.
  revert sorted w. induction rest as [|x rest IH]; intros sorted w; simpl.
  - exists sorted, (cursor w). by rewrite set_cursor_same, app_nil_r.
  - unfold_monad.
    destruct (sort_insertM_random_order x sorted w) as (sorted' & n & -> & Hs).
    destruct (IH sorted' (set_cursor n w)) as (l' & n' & -> & Hl').
    exists l', n'. rewrite set_cursor_set_cursor. split; [done|].
    by rewrite Hl', Hs, <- Permutation_middle.
Qed.

Lemma wrong_options (correct : Z) :
  let wrongOptions := List.filter (fun idx => negb (idx =? correct)) [0; 1; 2; 3] in
  NoDup wrongOptions
  /\ (3 <= length wrongOptions)%nat
  /\ (0 <= correct < 4 -> length wrongOptions = 3%nat)
  /\ forall x, x ∈ wrongOptions -> 0 <= x < 4 /\ x <> correct.
Proof.
  cbv zeta. cbn [List.filter].
  destruct (Z.eqb_spec 0 correct), (Z.eqb_spec 1 correct), (Z.eqb_spec 2 correct),
    (Z.eqb_spec 3 correct); try lia; cbn [negb length].
  all: split;
    [repeat (apply NoDup_cons; split; [rewrite ?elem_of_cons, elem_of_nil; lia|]);
     apply NoDup_nil_2|].
  all: split; [lia|].
  all: split; [lia|].
  all: intros x Hx; repeat (apply elem_of_cons in Hx as [->|Hx]); try lia.
  all: by apply elem_of_nil in Hx.
Qed.

(** C10. When the 50:50 lifeline fires (it is still available, the answer
    is not confirmed, and there is a current question), it returns for every
    stream of draws, spends the lifeline, and eliminates exactly two
    distinct options, each one of 0..3 and different from the correct
    option; when the correct option is one of 0..3 they are taken from
    exactly three candidates. *)
Theorem fifty_fifty_removes_two_wrong_options (g : Game) (w : World)
    (current : FormattedQuestion) :
  fifty (lifelines g) = true ->
  isAnswerConfirmed g = false ->
  at_index (questions g) (currentQuestionIndex g) = Some current ->
  exists g' n,
    useFiftyFifty g w = (Returned g', set_cursor n w)
    /\ fifty (lifelines g') = false
    /\ length (eliminatedOptions g') = 2%nat
    /\ NoDup (eliminatedOptions g')
    /\ (forall x, x ∈ eliminatedOptions g' -> 0 <= x < 4 /\ x <> correctAnswer current)
    /\ (correctAnswer current ∉ eliminatedOptions g')
    /\ eliminatedOptions g'
       ⊆+ List.filter (fun idx => negb (idx =? correctAnswer current)) [0; 1; 2; 3]
    /\ (0 <= correctAnswer current < 4 ->
        length (List.filter (fun idx => negb (idx =? correctAnswer current)) [0; 1; 2; 3])
        = 3%nat).
Proof.
  intros Hf Hc Hq. unfold useFiftyFifty. rewrite Hf, Hc, Hq. cbn [negb orb].
  unfold_monad. unfold Array_sortM.
  destruct (wrong_options (correctAnswer current)) as (Hnd & Hlen & Hthree & Hmem).
  cbv zeta in Hnd, Hlen, Hthree, Hmem.
  set (wrongOptions := List.filter _ _) in *.
  destruct (Array_sortM_from_random_order [] wrongOptions w) as (l' & n & -> & Hl').
  simpl in Hl'.
  eexists _, n. split; [reflexivity|].
  cbn [eliminatedOptions lifelines fifty].
  assert (Hsub : slice0 l' 2 ⊆+ wrongOptions).
  { rewrite <- Hl'. apply slice0_submseteq. }
  assert (Hin : forall x, x ∈ slice0 l' 2 -> 0 <= x < 4 /\ x <> correctAnswer current).
  { intros x Hx. apply Hmem. by eapply elem_of_submseteq. }
  split; [done|]. split; [|split; [|split; [done|split; [|done]]]].
  - rewrite slice0_nonneg, length_take by lia.
    rewrite (Permutation_length Hl'). change (Z.to_nat 2) with 2%nat. lia.
  - by eapply submseteq_NoDup.
  - intros Hx. by apply Hin in Hx as [_ ?].
Qed.

(** ** fetchQuestions: when it returns and when it throws *)

Lemma keeps_mode_ret {A} (a : A) : keeps_mode (mret a : M A).
Proof. by intros w. Qed.

Lemma keeps_mode_throw {A} (e : Exn) : keeps_mode (throw e : M A).
Proof. by intros w. Qed.

Lemma keeps_mode_bind {A B} (c : M A) (k : A -> M B) :
  keeps_mode c -> (forall a, keeps_mode (k a)) -> keeps_mode (c ≫= k).
Proof.
  intros Hc Hk w. unfold_monad. specialize (Hc w).
  destruct (c w) as [[a|e] w']; simpl in *; [|done].
  by rewrite (Hk a w').
Qed.

Lemma keeps_mode_try_catch {A} (body : M A) (handler : Exn -> M A) :
  keeps_mode body -> (forall e, keeps_mode (handler e)) ->
  keeps_mode (try_catch body handler).
Proof.
  intros Hb Hh w. unfold_monad. specialize (Hb w).
  destruct (body w) as [[a|e] w']; simpl in *; [done|].
  by rewrite (Hh e w').
Qed.

Lemma keeps_mode_Date_now : keeps_mode Date_now.
Proof. by intros w. Qed.

Lemma keeps_mode_Math_random : keeps_mode Math_random.
Proof. by intros w. Qed.

Lemma keeps_mode_sleep (ms : Z) : keeps_mode (sleep ms).
Proof. by intros w. Qed.

Lemma keeps_mode_getItem (key : string) : keeps_mode (localStorage_getItem key).
Proof.
  intros w. unfold localStorage_getItem. destruct (mode w) eqn:E; simpl; congruence.
Qed.

Lemma keeps_mode_setItem (key val : string) : keeps_mode (localStorage_setItem key val).
Proof.
  intros w. unfold localStorage_setItem. destruct (mode w) eqn:E; simpl; congruence.
Qed.

Lemma keeps_mode_await_all_get (urls : list string) : keeps_mode (await_all_get urls).
Proof.
  intros w. unfold await_all_get.
  by destruct (first_rejection _) as [[t e]|].
Qed.

Lemma keeps_mode_shuffleArray {A} (array : list A) : keeps_mode (shuffleArray array).
Proof.
  intros w. by destruct (shuffleArray_spec array w) as (arr' & n & -> & _).
Qed.

Lemma keeps_mode_getRandomFallbackQuestions (amount : Z) :
  keeps_mode (getRandomFallbackQuestions amount).
Proof.
  intros w.
  by destruct (getRandomFallbackQuestions_spec amount w) as (? & ? & ? & n & -> & _).
Qed.

Create HintDb frame discriminated.

#[local] Hint Resolve keeps_mode_ret keeps_mode_throw keeps_mode_Date_now
  keeps_mode_Math_random keeps_mode_sleep keeps_mode_getItem keeps_mode_setItem
  keeps_mode_await_all_get keeps_mode_shuffleArray
  keeps_mode_getRandomFallbackQuestions : frame.

(** Walks through a computation: binds, handlers, conditionals, matches. *)
Ltac frame :=
  repeat first
    [ progress eauto with frame
    | apply keeps_mode_bind; [|intros ?]
    | apply keeps_mode_try_catch; [|intros ?]
    | match goal with
      | |- keeps_mode (if ?b then _ else _) => destruct b
      | |- keeps_mode (match ?x with _ => _ end) => destruct x
      end ].

Section Totality.
Context `{Host}.

Lemma keeps_mode_getCachedQuestions : keeps_mode getCachedQuestions.
Proof. unfold getCachedQuestions. frame. Qed.

Lemma keeps_mode_cacheQuestions (qs : list FormattedQuestion) :
  keeps_mode (cacheQuestions qs).
Proof. unfold cacheQuestions. frame. Qed.

Lemma keeps_mode_shouldUseApi : keeps_mode shouldUseApi.
Proof. unfold shouldUseApi. frame. Qed.

Lemma keeps_mode_handleRateLimiting : keeps_mode handleRateLimiting.
Proof. unfold handleRateLimiting. frame. Qed.

Lemma keeps_mode_formatQuestion (q : ApiQuestion) (index : nat) :
  keeps_mode (formatQuestion q index).
Proof. unfold formatQuestion. frame. Qed.

Lemma keeps_mode_mapM_formatQuestion (l : list ApiQuestion) (index : nat) :
  keeps_mode (mapM_from formatQuestion l index).
Proof.
  revert index. induction l as [|q l IH]; intros index; simpl; [frame|].
  apply keeps_mode_bind; [apply keeps_mode_formatQuestion|intros fq].
  apply keeps_mode_bind; [apply IH|intros fqs]. frame.
Qed.

Lemma keeps_mode_fallback (amount : Z) : keeps_mode (fallback amount).
Proof. unfold fallback. frame. Qed.

Lemma keeps_mode_data_of (r : Response) : keeps_mode (data_of r).
Proof. unfold data_of. frame. Qed.

#[local] Hint Resolve keeps_mode_getCachedQuestions keeps_mode_cacheQuestions
  keeps_mode_shouldUseApi keeps_mode_handleRateLimiting keeps_mode_formatQuestion
  keeps_mode_mapM_formatQuestion keeps_mode_fallback keeps_mode_data_of : frame.

Lemma try_catch_returns {A} (body : M A) (handler : Exn -> M A) (w : World) :
  (forall e w', exists a w'', handler e w' = (Returned a, w'')) ->
  exists a w', try_catch body handler w = (Returned a, w').
Proof.
  intros Hh. unfold try_catch. destruct (body w) as [[a|e] w']; [by eauto|apply Hh].
Qed.

Lemma getCachedQuestions_returns (w : World) :
  exists v w', getCachedQuestions w = (Returned v, w').
Proof. apply try_catch_returns. intros e w'. by exists Null, w'. Qed.

Lemma shouldUseApi_returns (w : World) :
  exists b w', shouldUseApi w = (Returned b, w').
Proof. apply try_catch_returns. intros e w'. by exists true, w'. Qed.

Lemma fallback_returns (amount : Z) (w : World) :
  exists v w', fallback amount w = (Returned v, w').
Proof.
  unfold fallback. unfold_monad.
  destruct (getRandomFallbackQuestions_spec amount w) as (? & ? & ? & n & -> & _).
  by eauto.
Qed.

(** X21. On an available store [fetchQuestions] returns, whatever the cache
    holds, whatever the remote source does and whatever the records look
    like: every exception of the live attempt is caught, and the handler
    itself succeeds. *)
Theorem fetchQuestions_returns_on_available_store (amount : Z) (w : World) :
  mode w = Available ->
  exists v w', fetchQuestions amount w = (Returned v, w').
Proof.
  intros Hm. unfold fetchQuestions.
  destruct (getCachedQuestions_returns w) as (v & w0 & Hg).
  pose proof (keeps_mode_getCachedQuestions w) as Hm0. rewrite Hg, Hm in Hm0.
  cbn [snd] in Hm0.
  unfold mbind at 1, M_bind, bind. rewrite Hg.
  destruct (is_truthy v); [by eexists _, _|].
  destruct (shouldUseApi_returns w0) as (b & w1 & Hs).
  pose proof (keeps_mode_shouldUseApi w0) as Hm1. rewrite Hs, Hm0 in Hm1.
  cbn [snd] in Hm1.
  unfold mbind at 1, M_bind, bind. rewrite Hs.
  destruct b; cbn [negb]; [|apply fallback_returns].
  match goal with
  | |- context [try_catch ?body _] =>
      assert (Hbody : keeps_mode body) by frame;
      specialize (Hbody w1); unfold try_catch; destruct (body w1) as [[v'|e] w2]
  end; [by eexists _, _|].
  cbn [snd] in Hbody. unfold mbind, M_bind, bind.
  destruct (is_rate_limit e).
  - rewrite handleRateLimiting_available by congruence. apply fallback_returns.
  - apply fallback_returns.
Qed.

(** C1, at the input where the code departs from it. The store is full:
    reads work and find nothing, every write throws. [getCachedQuestions]
    finds no entry, [shouldUseApi] fails to record the request and answers
    [true], and the remote source answers with status 429, which axios turns
    into a rejection. The handler calls [handleRateLimiting], whose write
    is not guarded: the exception leaves [fetchQuestions]. *)
Theorem fetchQuestions_throws_on_full_store_when_rate_limited :
  (fetchQuestions 15 (Reference.world QuotaExceeded 1000 Reference.rate_limited)).1
  = Thrown (DOMException "QuotaExceededError").
Proof. vm_compute. reflexivity. Qed.

(** The same request on an available store returns a fallback sample and
    records the deadline. *)
Example fetchQuestions_rate_limited_on_available_store :
  exists qs w',
    fetchQuestions 15 (Reference.world Available 1000 Reference.rate_limited)
    = (Returned (Questions qs), w')
    /\ length qs = 15%nat
    /\ items w' !! API_COOLDOWN_KEY = Some "1801779".
Proof.
  eexists _, _. split; [vm_compute; reflexivity|]. split; vm_compute; reflexivity.
Qed.

End Totality.

(** ** The reference JSON codec reads back what it writes *)

#[local] Arguments String.append !_ _ / : simpl nomatch.

Lemma string_app_assoc (a b c : string) : (a +:+ b) +:+ c = a +:+ (b +:+ c).
Proof. induction a as [|x a IH]; simpl; congruence. Qed.

Lemma read_literal_app (lit rest : string) :
  Reference.read_literal lit (lit +:+ rest) = Some (tt, rest).
Proof.
  induction lit as [|c lit IH]; simpl; [done|]. by rewrite Ascii.eqb_refl.
Qed.

Lemma read_string_body_escape (s rest : string) :
  Reference.read_string_body (Reference.escape s +:+ String Reference.quote rest)
  = Some (s, rest).
Proof.
  induction s as [|c s IH]; simpl.
  - done.
  - destruct (Ascii.eqb c Reference.quote) eqn:Eq.
    + simpl. rewrite IH. done.
    + destruct (Ascii.eqb c Reference.backslash) eqn:Eb; simpl.
      * rewrite IH. done.
      * rewrite Eq, Eb, IH. done.
Qed.

Lemma read_string_print (s rest : string) :
  Reference.read_string (Reference.print_string s +:+ rest) = Some (s, rest).
Proof.
  unfold Reference.print_string. simpl.
  rewrite string_app_assoc. apply read_string_body_escape.
Qed.

Lemma digits_prefix_app (d : uint) (rest : string) :
  no_leading_digit rest ->
  Js.digits_prefix (NilEmpty.string_of_uint d +:+ rest) = d.
Proof.
  intros Hr. induction d; simpl; try congruence.
  destruct rest as [|c rest]; simpl in *; [done|]. by rewrite Hr.
Qed.

Lemma skip_digits_app (d : uint) (rest : string) :
  no_leading_digit rest ->
  Reference.skip_digits (NilEmpty.string_of_uint d +:+ rest) = rest.
Proof.
  intros Hr. induction d; simpl; try done.
  destruct rest as [|c rest]; simpl in *; [done|]. by rewrite Hr.
Qed.

Lemma string_of_uint_not_nil (d : uint) :
  d <> Nil -> NilZero.string_of_uint d = NilEmpty.string_of_uint d.
Proof. by destruct d. Qed.

Lemma parse_digits_app (d : uint) (rest : string) :
  d <> Nil -> no_leading_digit rest ->
  Js.parse_digits (NilEmpty.string_of_uint d +:+ rest) = Js.Num (Z.of_uint d).
Proof.
  intros Hd Hr. unfold Js.parse_digits. rewrite digits_prefix_app by done.
  by destruct d.
Qed.

Lemma read_number_unsigned (d : uint) (rest : string) :
  d <> Nil -> no_leading_digit rest ->
  Reference.read_number (NilEmpty.string_of_uint d +:+ rest) = Some (Z.of_uint d, rest).
Proof.
  intros Hd Hr.
  assert (Hread : Reference.read_number (NilEmpty.string_of_uint d +:+ rest)
                  = match Js.parse_digits (NilEmpty.string_of_uint d +:+ rest) with
                    | Js.Num z =>
                        Some (z, Reference.skip_digits (NilEmpty.string_of_uint d +:+ rest))
                    | Js.NaN => None
                    end)
    by (by destruct d).
  by rewrite Hread, parse_digits_app, skip_digits_app.
Qed.

Lemma read_number_print (z : Z) (rest : string) :
  no_leading_digit rest ->
  Reference.read_number (Reference.print_number z +:+ rest) = Some (z, rest).
Proof.
  intros Hr. unfold Reference.print_number, Js.toString.
  destruct z as [|p|p].
  - apply (read_number_unsigned (D0 Nil)); done.
  - pose proof (to_uint_not_nil p) as Hp.
    pose proof (DecimalZ.of_to (Z.pos p)) as Hz. simpl in Hz.
    simpl Z.to_int. cbn [NilZero.string_of_int].
    rewrite string_of_uint_not_nil, read_number_unsigned by done. by rewrite Hz.
  - pose proof (to_uint_not_nil p) as Hp.
    pose proof (DecimalZ.of_to (Z.pos p)) as Hz. simpl in Hz.
    simpl Z.to_int. cbn [NilZero.string_of_int].
    rewrite string_of_uint_not_nil by done.
    change (Reference.read_number
              (String "-" (NilEmpty.string_of_uint (Pos.to_uint p)) +:+ rest))
      with (match Js.parse_digits (NilEmpty.string_of_uint (Pos.to_uint p) +:+ rest) with
            | Js.Num z =>
                Some (- z, Reference.skip_digits
                             (NilEmpty.string_of_uint (Pos.to_uint p) +:+ rest))
            | Js.NaN => None
            end).
    rewrite parse_digits_app, skip_digits_app by done. by rewrite Hz.
Qed.

Lemma string_length_app (a b : string) :
  String.length (a +:+ b) = (String.length a + String.length b)%nat.
Proof. induction a as [|x a IH]; simpl; congruence. Qed.

Section Arrays.
Context {A : Type} (item : Reference.Parser A) (print : A -> string).

Lemma read_items_print (xs : list A) (fuel : nat) (rest : string) :
  reads_back item print xs -> xs <> [] -> (length xs <= fuel)%nat ->
  Reference.read_items item fuel
    (Reference.print_items (map print xs) +:+ String "]" rest)
  = Some (xs, rest).
Proof.
  revert fuel. induction xs as [|x xs IH]; intros fuel Hback Hne Hfuel; [done|].
  destruct fuel as [|fuel]; [simpl in Hfuel; lia|].
  destruct xs as [|y xs].
  - simpl. rewrite Hback; [done|left|by right].
  - change (Reference.print_items (map print (x :: y :: xs)))
      with (print x +:+ "," +:+ Reference.print_items (map print (y :: xs))).
    rewrite !string_app_assoc.
    change ("," +:+ Reference.print_items (map print (y :: xs)) +:+ String "]" rest)
      with (String "," (Reference.print_items (map print (y :: xs)) +:+ String "]" rest)).
    cbn [Reference.read_items]. rewrite Hback; [|left|by left].
    rewrite IH; [done| |done|simpl in *; lia].
    intros x' c r Hx'. apply Hback. by right.
Qed.

Lemma print_items_length (xs : list A) (rest : string) :
  (length xs <= String.length (Reference.print_items (map print xs) +:+ String "]" rest))%nat.
Proof.
  induction xs as [|x xs IH]; [simpl; lia|].
  destruct xs as [|y xs].
  - simpl. rewrite string_length_app. simpl. lia.
  - change (Reference.print_items (map print (x :: y :: xs)))
      with (print x +:+ "," +:+ Reference.print_items (map print (y :: xs))).
    rewrite !string_app_assoc, string_length_app.
    change ("," +:+ Reference.print_items (map print (y :: xs)) +:+ String "]" rest)
      with (String "," (Reference.print_items (map print (y :: xs)) +:+ String "]" rest)).
    simpl in *. lia.
Qed.

Lemma read_array_print (xs : list A) (rest : string) :
  reads_back item print xs ->
  (forall x, x ∈ xs -> exists c s, print x = String c s /\ c <> "]"%char) ->
  Reference.read_array item (Reference.print_array (map print xs) +:+ rest)
  = Some (xs, rest).
Proof.
  intros Hback Hhead. unfold Reference.print_array.
  rewrite !string_app_assoc.
  change ("]" +:+ rest) with (String "]" rest).
  destruct xs as [|x xs]; [done|].
  pose proof (print_items_length (x :: xs) rest) as Hlen.
  pose proof (read_items_print (x :: xs)
                (String.length (Reference.print_items (map print (x :: xs))
                                +:+ String "]" rest)) rest Hback) as Hread.
  destruct (Hhead x) as (c & s & Hx & Hc); [left|].
  assert (exists s', Reference.print_items (map print (x :: xs)) +:+ String "]" rest
                     = String c s') as (s' & Hs').
  { destruct xs as [|y xs]; simpl; rewrite Hx; simpl; by eexists. }
  rewrite Hs' in *. simpl.
  apply Ascii.eqb_neq in Hc. rewrite Hc. by apply Hread.
Qed.

End Arrays.

Lemma read_field_print {A} (key : string) (val : Reference.Parser A) (v : A)
    (printed rest : string) :
  val (printed +:+ rest) = Some (v, rest) ->
  Reference.read_field key val (Reference.print_field key printed +:+ rest)
  = Some (v, rest).
Proof.
  intros Hval. unfold Reference.read_field, Reference.print_field.
  rewrite <- (string_app_assoc (Reference.print_string key) ":" printed).
  rewrite string_app_assoc, read_literal_app. exact Hval.
Qed.

Lemma then_comma_field {A} (key : string) (val : Reference.Parser A) (v : A)
    (printed rest : string) :
  val (printed +:+ String "," rest) = Some (v, String "," rest) ->
  Reference.then_comma (Reference.read_field key val)
    (Reference.print_field key printed +:+ String "," rest)
  = Some (v, rest).
Proof.
  intros Hval. unfold Reference.then_comma.
  by rewrite (read_field_print key val v printed (String "," rest) Hval).
Qed.

Lemma read_strings_print (l : list string) (rest : string) :
  Reference.read_array Reference.read_string
    (Reference.print_array (map Reference.print_string l) +:+ rest)
  = Some (l, rest).
Proof.
  apply read_array_print.
  - intros x c r _ _. apply read_string_print.
  - intros x _. unfold Reference.print_string. eexists _, _. split; [reflexivity|].
    discriminate.
Qed.

Lemma read_question_print (q : FormattedQuestion) (rest : string) :
  Reference.read_question (Reference.print_question q +:+ rest) = Some (q, rest).
Proof.
  unfold Reference.print_question.
  cbn [Reference.print_items].
  rewrite !string_app_assoc.
  change ("{" +:+ ?s) with (String "{" s).
  cbn [String.append].
  unfold Reference.read_question.
  rewrite (then_comma_field "id" Reference.read_number (id q))
    by (by apply read_number_print).
  cbn [mbind option_bind].
  rewrite (then_comma_field "question" Reference.read_string (question q))
    by apply read_string_print.
  cbn [mbind option_bind].
  rewrite (then_comma_field "options" (Reference.read_array Reference.read_string)
             (options q))
    by apply read_strings_print.
  cbn [mbind option_bind].
  rewrite (then_comma_field "correctAnswer" Reference.read_number (correctAnswer q))
    by (by apply read_number_print).
  cbn [mbind option_bind].
  rewrite (then_comma_field "category" Reference.read_string (category q))
    by apply read_string_print.
  cbn [mbind option_bind].
  rewrite (then_comma_field "difficulty" Reference.read_string (difficulty q))
    by apply read_string_print.
  cbn [mbind option_bind].
  rewrite (read_field_print "value" Reference.read_number (value q))
    by (by apply read_number_print).
  cbn [mbind option_bind]. by destruct q.
Qed.

(** For every list of questions, parsing the printed list gives the list. *)
Lemma reference_parse_stringify (qs : list FormattedQuestion) :
  Reference.parse (Reference.stringify qs) = Some (Questions qs).
Proof.
  unfold Reference.parse, Reference.stringify.
  assert (Hread : Reference.read_array Reference.read_question
                    (Reference.print_array (map Reference.print_question qs))
                  = Some (qs, "")).
  { assert (Happ : forall s, s +:+ "" = s)
      by (intros s; induction s; simpl; congruence).
    rewrite <- (Happ (Reference.print_array _)).
    apply read_array_print.
    - intros x c r _ _. apply read_question_print.
    - intros x _. unfold Reference.print_question. eexists _, _.
      split; [reflexivity|discriminate]. }
  rewrite Hread. unfold Reference.print_array. by destruct qs.
Qed.

Lemma reference_stringify_nonempty (qs : list FormattedQuestion) :
  Reference.stringify qs <> "".
Proof. unfold Reference.stringify, Reference.print_array. discriminate. Qed.

(** With the reference codec the round trip of the cache needs no
    assumption on the set. *)
Lemma reference_cache_reads_back (set : list FormattedQuestion) (w : World) (t : Z) :
  mode w = Available ->
  @getCachedQuestions Reference.host
    (set_clock t (@cacheQuestions Reference.host set w).2)
  = (Returned (if t - clock w >? CACHE_EXPIRY then Null else Questions set),
     set_clock t (@cacheQuestions Reference.host set w).2).
Proof.
  intros Hm. apply (@read_after_write Reference.host); [done| |].
  - apply reference_stringify_nonempty.
  - apply reference_parse_stringify.
Qed.

(** ** The theorems at concrete inputs *)

#[local] Existing Instance Reference.host.

Example reference_codec_round_trip :
  JSON_parse (JSON_stringify (take 15 getAllFallbackQuestions))
  = Some (Questions (take 15 getAllFallbackQuestions)).
Proof. vm_compute. reflexivity. Qed.

Example twin_record_first_match :
  exists fq w',
    formatQuestion Reference.twin_record 7
      (Reference.world Available 0 Reference.offline) = (Returned fq, w')
    /\ options fq = ["Bangers & Mash"; "Fish & Chips"; "Fish & Chips"; "Pie & Peas"]
    /\ correctAnswer fq = 1
    /\ value fq = 8000.
Proof. eexists _, _. split; [vm_compute; reflexivity|]. repeat split. Qed.

(** C5 as stated fails. On a store that refuses writes no cooldown is
    active and no request is counted, and [shouldUseApi] answers [true]
    through its [catch] however often it is called: five calls in a row,
    one minute apart, answer [true], and a sixth call ten seconds after the
    fifth, inside the same five minutes, answers [true] as well. *)
Lemma sixth_call_allowed_when_store_refuses_writes :
  let w0 := Reference.world QuotaExceeded 0 Reference.offline in
  let w1 := Reference.after_call 0 w0 in
  let w2 := Reference.after_call 60000 w1 in
  let w3 := Reference.after_call 120000 w2 in
  let w4 := Reference.after_call 180000 w3 in
  let w5 := Reference.after_call 240000 w4 in
  cooldown_active (items w0) 0 = false
  /\ (shouldUseApi (set_clock 0 w0)).1 = Returned true
  /\ (shouldUseApi (set_clock 60000 w1)).1 = Returned true
  /\ (shouldUseApi (set_clock 120000 w2)).1 = Returned true
  /\ (shouldUseApi (set_clock 180000 w3)).1 = Returned true
  /\ (shouldUseApi (set_clock 240000 w4)).1 = Returned true
  /\ (shouldUseApi (set_clock 250000 w5)).1 = Returned true
  /\ shouldUseApi (set_clock 250000 w5) <> (Returned false, set_clock 250000 w5).
Proof.
  cbv zeta. repeat (split; [vm_compute; reflexivity|]).
  intros Hrun. apply (f_equal fst) in Hrun. vm_compute in Hrun. discriminate.
Qed.

(** C3 as stated fails: a record with a non-empty correct answer and three
    incorrect answers whose difficulty is none of easy, medium and hard has
    no prize ladder, and the formatter throws instead of producing a
    question. *)
Lemma formatQuestion_unknown_difficulty_throws :
  let q := Reference.record "expert" in
  let w := Reference.world Available 0 Reference.offline in
  correct_answer q <> ""
  /\ (exists incorrect, incorrect_answers q = Some incorrect /\ length incorrect = 3%nat)
  /\ (formatQuestion q 0 w).1 = Thrown (TypeError "Cannot read properties of undefined")
  /\ ~ exists fq w', formatQuestion q 0 w = (Returned fq, w').
Proof.
  cbv zeta. split; [done|]. split; [by eexists|].
  assert (Hrun : (formatQuestion (Reference.record "expert") 0
                    (Reference.world Available 0 Reference.offline)).1
                 = Thrown (TypeError "Cannot read properties of undefined"))
    by (vm_compute; reflexivity).
  split; [exact Hrun|].
  intros (fq & w' & Hret). rewrite Hret in Hrun. discriminate.
Qed.

Lemma formatQuestion_options_witness :
  exists fq n,
    formatQuestion Reference.twin_record 7 (Reference.world Available 0 Reference.offline)
    = (Returned fq, set_cursor n (Reference.world Available 0 Reference.offline))
    /\ length (options fq) = 4%nat
    /\ options fq ≡ₚ decodeHTMLEntities "Fish &amp; Chips"
                     :: map decodeHTMLEntities
                          ["Fish & Chips"; "Bangers &amp; Mash"; "Pie &amp; Peas"]
    /\ at_index (options fq) (correctAnswer fq) = Some (decodeHTMLEntities "Fish &amp; Chips")
    /\ forall j, 0 <= j < correctAnswer fq ->
         at_index (options fq) j <> Some (decodeHTMLEntities "Fish &amp; Chips").
Proof.
  apply (formatQuestion_options Reference.twin_record 7
           (Reference.world Available 0 Reference.offline)
           ["Fish & Chips"; "Bangers &amp; Mash"; "Pie &amp; Peas"]).
  - simpl. discriminate.
  - reflexivity.
  - reflexivity.
  - simpl. apply list_elem_of_further, list_elem_of_here.
Defined.

Lemma cache_round_trip_witness :
  let set := take 3 getAllFallbackQuestions in
  let w := Reference.world Available 1000 Reference.offline in
  let written := (cacheQuestions set w).2 in
  (forall t, t - clock w <= CACHE_EXPIRY ->
     getCachedQuestions (set_clock t written) = (Returned (Questions set), set_clock t written))
  /\ (forall t, t - clock w > CACHE_EXPIRY ->
        getCachedQuestions (set_clock t written) = (Returned Null, set_clock t written)).
Proof.
  apply (cache_round_trip (take 3 getAllFallbackQuestions)
           (Reference.world Available 1000 Reference.offline)).
  - reflexivity.
  - vm_compute. discriminate.
  - vm_compute. reflexivity.
Defined.

Lemma cooldown_blocks_until_deadline_witness :
  let w := Reference.world Available 1000 Reference.offline in
  let w1 := (handleRateLimiting w).2 in
  let w2 := set_clock 600000 w1 in
  (clock w2 < clock w + API_COOLDOWN -> shouldUseApi w2 = (Returned false, w2))
  /\ (forall w3, shouldUseApi w2 = (Returned true, w3) ->
        clock w + API_COOLDOWN <= clock w2).
Proof.
  apply (cooldown_blocks_until_deadline
           (Reference.world Available 1000 Reference.offline)
           (handleRateLimiting (Reference.world Available 1000 Reference.offline)).2
           (set_clock 600000
              (handleRateLimiting (Reference.world Available 1000 Reference.offline)).2)).
  - vm_compute. reflexivity.
  - reflexivity.
  - reflexivity.
Defined.

Lemma rolling_window_of_five_witness :
  let w0 := Reference.world Available 0 Reference.offline in
  let w1 := Reference.after_call 0 w0 in
  let w2 := Reference.after_call 60000 w1 in
  let w3 := Reference.after_call 120000 w2 in
  let w4 := Reference.after_call 180000 w3 in
  let w5 := Reference.after_call 240000 w4 in
  (forall t6, t6 - 240000 <= 5 * 60 * 1000 ->
     shouldUseApi (set_clock t6 w5) = (Returned false, set_clock t6 w5))
  /\ (forall t, t - 240000 > 5 * 60 * 1000 ->
        exists w',
          shouldUseApi (set_clock t w5) = (Returned true, w')
          /\ window_count (items w5) t = Js.Num 0
          /\ items w' !! REQUEST_COUNT_KEY = Some "1").
Proof.
  cbv zeta.
  apply (rolling_window_of_five
           (Reference.world Available 0 Reference.offline)
           (Reference.after_call 0 (Reference.world Available 0 Reference.offline))
           (Reference.after_call 60000
              (Reference.after_call 0 (Reference.world Available 0 Reference.offline)))
           (Reference.after_call 120000
              (Reference.after_call 60000
                 (Reference.after_call 0 (Reference.world Available 0 Reference.offline))))
           (Reference.after_call 180000
              (Reference.after_call 120000
                 (Reference.after_call 60000
                    (Reference.after_call 0
                       (Reference.world Available 0 Reference.offline)))))
           _ 0 60000 120000 180000 240000).
  - reflexivity.
  - exists 0. split; [lia|reflexivity].
  - vm_compute. reflexivity.
  - vm_compute. reflexivity.
  - vm_compute. reflexivity.
  - vm_compute. reflexivity.
  - vm_compute. reflexivity.
  - lia.
  - lia.
  - lia.
  - lia.
Defined.

Lemma cache_hit_is_returned_verbatim_witness :
  let set := take 15 getAllFallbackQuestions in
  let w := set_clock 3601000
             (Reference.after_caching set (Reference.world Available 1000 Reference.live)) in
  fetchQuestions 15 w = (Returned (Questions set), w).
Proof.
  apply (cache_hit_is_returned_verbatim 15
           (set_clock 3601000
              (Reference.after_caching (take 15 getAllFallbackQuestions)
                 (Reference.world Available 1000 Reference.live)))
           (JSON_stringify (take 15 getAllFallbackQuestions)) "1000" 1000
           (take 15 getAllFallbackQuestions)).
  - simpl. discriminate.
  - vm_compute. reflexivity.
  - vm_compute. reflexivity.
  - vm_compute. discriminate.
  - discriminate.
  - reflexivity.
  - vm_compute. discriminate.
  - vm_compute. reflexivity.
Defined.

Lemma fifty_fifty_removes_two_wrong_options_witness :
  exists g' n,
    useFiftyFifty (game_at 4 0) (Reference.world Available 0 Reference.offline)
    = (Returned g', set_cursor n (Reference.world Available 0 Reference.offline))
    /\ fifty (lifelines g') = false
    /\ length (eliminatedOptions g') = 2%nat
    /\ NoDup (eliminatedOptions g')
    /\ (forall x, x ∈ eliminatedOptions g' -> 0 <= x < 4 /\ x <> 1)
    /\ (1 ∉ eliminatedOptions g')
    /\ eliminatedOptions g' ⊆+ List.filter (fun idx => negb (idx =? 1)) [0; 1; 2; 3]
    /\ (0 <= 1 < 4 ->
        length (List.filter (fun idx => negb (idx =? 1)) [0; 1; 2; 3]) = 3%nat).
Proof.
  apply (fifty_fifty_removes_two_wrong_options (game_at 4 0)
           (Reference.world Available 0 Reference.offline)
           (Build_FormattedQuestion 5 "Which element has the chemical symbol 'O'?"
              ["Gold"; "Oxygen"; "Osmium"; "Oganesson"] 1 "Science" "easy" 1000)).
  - reflexivity.
  - reflexivity.
  - reflexivity.
Defined.

Lemma live_fetch_returns_sorted_and_caches_witness :
  let w := Reference.world Available 1000 Reference.live in
  let records := Reference.batch "easy" ++ Reference.batch "medium" ++ Reference.batch "hard" in
  exists formatted w',
    fetchQuestions 15 w = (Returned (Questions (Array_sort by_value formatted)), w')
    /\ length (Array_sort by_value formatted) = 15%nat
    /\ StronglySorted value_le (Array_sort by_value formatted)
    /\ (forall (k : nat) q fq,
          records !! k = Some q -> formatted !! k = Some fq -> normalizes q k fq)
    /\ items w' !! CACHE_KEY = Some (JSON_stringify (Array_sort by_value formatted))
    /\ items w' !! CACHE_TIMESTAMP_KEY = Some (Js.toString (Js.Num (clock w')))
    /\ requests w' = requests w ++ [url_easy; url_medium; url_hard].
Proof.
  apply (live_fetch_returns_sorted_and_caches 15
           (Reference.world Available 1000 Reference.live)
           (shouldUseApi (Reference.world Available 1000 Reference.live)).2
           (Reference.batch "easy") (Reference.batch "medium") (Reference.batch "hard")).
  - reflexivity.
  - reflexivity.
  - vm_compute. reflexivity.
  - exists 120, 200. split; [reflexivity|lia].
  - exists 120, 200. split; [reflexivity|lia].
  - exists 120, 200. split; [reflexivity|lia].
  - reflexivity.
  - reflexivity.
  - reflexivity.
  - repeat (apply Forall_cons; split;
            [split; [discriminate|split; [by eexists|simpl; set_solver]]|]).
    apply Forall_nil_2.
Defined.

(** * Further properties of the code *)

(** ** shuffleArray, draw by draw *)

Lemma shuffle_loop_draws {A} (i : nat) (arr : list A) (w : World) :
  exists arr',
    shuffle_loop i arr w = (Returned arr', set_cursor (cursor w + i) w) /\ arr' ≡ₚ arr.
Proof.
  revert arr w. induction i as [|i IH]; intros arr w; simpl.
  - exists arr. by rewrite Nat.add_0_r, set_cursor_same.
  - unfold_monad. unfold Math_random.
    destruct (IH (swap (S i)
                (Z.to_nat (Js.floor_scale (mantissa (draws w (cursor w)))
                             (Z.of_nat (S i) + 1))) arr)
                (set_cursor (S (cursor w)) w)) as (arr' & Hrun & Hperm).
    exists arr'. rewrite Hrun, set_cursor_set_cursor. cbn [cursor set_cursor].
    split; [f_equal; f_equal; lia|]. by rewrite Hperm, swap_Permutation.
Qed.

(** X1. For every array and every stream of draws, [shuffleArray] returns a
    permutation of the array, takes exactly [length - 1] draws (none for an
    empty or one-element array) and changes nothing else in the world. *)
Theorem shuffleArray_permutes {A} (array : list A) (w : World) :
  exists shuffled,
    shuffleArray array w
    = (Returned shuffled, set_cursor (cursor w + (length array - 1)) w)
    /\ shuffled ≡ₚ array
    /\ length shuffled = length array.
Proof.
  destruct (shuffle_loop_draws (length array - 1) array w) as (arr' & Hrun & Hperm).
  exists arr'. split; [exact Hrun|]. split; [done|]. by rewrite Hperm.
Qed.

(** ** getCachedQuestions and cacheQuestions at the edges *)

Section CacheEdges.
Context `{Host}.

Lemma getCachedQuestions_read_only (w : World) :
  exists v, getCachedQuestions w = (Returned v, w).
Proof.
  unfold getCachedQuestions, localStorage_getItem, Date_now. unfold_monad.
  destruct (mode w) eqn:Hm; cbv beta iota; rewrite ?Hm;
    repeat first
      [ by eexists
      | match goal with
        | |- context [if ?b then _ else _] => destruct b
        | |- context [match JSON_parse ?s with _ => _ end] => destruct (JSON_parse s)
        end ].
Qed.

(** X2. [getCachedQuestions] gives [null], and leaves the world as it is,
    when the store refuses access, when the cached text or the timestamp is
    missing or empty, and when the cached text is no JSON. *)
Theorem getCachedQuestions_null_cases (w : World) :
  mode w = AccessDenied
  \/ Js.truthy (items w !! CACHE_KEY) = false
  \/ Js.truthy (items w !! CACHE_TIMESTAMP_KEY) = false
  \/ JSON_parse (default "" (items w !! CACHE_KEY)) = None ->
  getCachedQuestions w = (Returned Null, w).
Proof.
  intros Hcase.
  unfold getCachedQuestions, localStorage_getItem, Date_now. unfold_monad.
  destruct (mode w) eqn:Hm; cbv beta iota; rewrite ?Hm.
  1,2: destruct Hcase as [?|[Hc|[Ht|Hp]]]; [done|rewrite Hc|rewrite Ht|rewrite Hp];
       try done; try (by rewrite orb_true_r);
       repeat match goal with
              | |- context [if ?b then _ else _] => destruct b; try done
              end.
  done.
Qed.


(** X4. [cacheQuestions] never throws. On a store that is not available it
    changes nothing; on an available store it changes the two cache entries
    and nothing else. *)
Theorem cacheQuestions_is_best_effort (qs : list FormattedQuestion) (w : World) :
  exists w',
    cacheQuestions qs w = (Returned tt, w')
    /\ (mode w <> Available -> w' = w)
    /\ (mode w = Available ->
        items w' !! CACHE_KEY = Some (JSON_stringify qs)
        /\ items w' !! CACHE_TIMESTAMP_KEY = Some (Js.toString (Js.Num (clock w))))
    /\ (forall key, key <> CACHE_KEY -> key <> CACHE_TIMESTAMP_KEY ->
          items w' !! key = items w !! key)
    /\ mode w' = mode w /\ clock w' = clock w /\ cursor w' = cursor w
    /\ requests w' = requests w.
Proof.
  destruct (mode w) eqn:Hm.
  - rewrite cacheQuestions_available by done. eexists; split; [reflexivity|].
    cbn [items mode clock cursor requests set_items].
    split; [done|]. split.
    { intros _. by rewrite lookup_insert_eq, lookup_insert_ne, lookup_insert_eq. }
    split; [|done]. intros key H1 H2. by rewrite !lookup_insert_ne.
  - unfold cacheQuestions, localStorage_setItem. unfold_monad. rewrite Hm.
    exists w. by rewrite Hm.
  - unfold cacheQuestions, localStorage_setItem. unfold_monad. rewrite Hm.
    exists w. by rewrite Hm.
Qed.

End CacheEdges.

(** ** shouldUseApi: frame and invariant *)

Lemma shouldUseApi_unavailable_unchanged (w : World) :
  mode w <> Available -> (shouldUseApi w).2 = w.
Proof.
  intros Hm.
  destruct (mode w) eqn:E; [done| |by rewrite shouldUseApi_denied].
  unfold shouldUseApi, localStorage_getItem, localStorage_setItem, Date_now.
  unfold_monad. rewrite E. cbv beta iota. rewrite ?E.
  repeat match goal with
         | |- context [if ?b then _ else _] => destruct b; cbv beta iota; rewrite ?E
         end; reflexivity.
Qed.

Lemma shouldUseApi_effects (w : World) :
  exists b w',
    shouldUseApi w = (Returned b, w')
    /\ (b = false -> w' = w)
    /\ (mode w <> Available -> w' = w)
    /\ (mode w = AccessDenied -> b = true)
    /\ (forall key, key <> REQUEST_COUNT_KEY -> key <> LAST_REQUEST_TIME_KEY ->
          items w' !! key = items w !! key)
    /\ mode w' = mode w /\ clock w' = clock w /\ cursor w' = cursor w
    /\ requests w' = requests w.
Proof.
  destruct (mode w) eqn:Hm.
  - rewrite shouldUseApi_available by done.
    destruct (cooldown_active _ _); [by exists false, w; rewrite Hm|].
    destruct (Js.ge _ _); [by exists false, w; rewrite Hm|].
    eexists true, _. split; [reflexivity|].
    cbn [items mode clock cursor requests set_items].
    repeat split; try done. intros key H1 H2. by rewrite !lookup_insert_ne.
  - unfold shouldUseApi, localStorage_getItem, localStorage_setItem, Date_now.
    unfold_monad. rewrite Hm. cbv beta iota. rewrite ?Hm.
    repeat match goal with
           | |- context [if ?b then _ else _] => destruct b; cbv beta iota; rewrite ?Hm
           end;
      (eexists _, w; split; [reflexivity|]; by rewrite Hm).
  - rewrite shouldUseApi_denied by done. exists true, w. by rewrite Hm.
Qed.

(** X5. [shouldUseApi] never throws. It can change the request count and
    the time of the last request and nothing else; when it answers [false],
    and when the store is not available, it changes nothing at all; when the
    store refuses access it answers [true]. *)
Theorem shouldUseApi_changes_only_its_counters (w : World) :
  exists b w',
    shouldUseApi w = (Returned b, w')
    /\ (b = false -> w' = w)
    /\ (mode w <> Available -> w' = w)
    /\ (mode w = AccessDenied -> b = true)
    /\ (forall key, key <> REQUEST_COUNT_KEY -> key <> LAST_REQUEST_TIME_KEY ->
          items w' !! key = items w !! key)
    /\ mode w' = mode w /\ clock w' = clock w /\ cursor w' = cursor w
    /\ requests w' = requests w.
Proof. exact (shouldUseApi_effects w). Qed.

Lemma shouldUseApi_keeps_count_bounded (w : World) :
  count_bounded (items w) -> count_bounded (items (shouldUseApi w).2).
Proof.
  intros (n & Hn & Hc).
  destruct (mode w) eqn:Hm.
  - rewrite shouldUseApi_available by done.
    destruct (cooldown_active _ _); [by exists n|].
    unfold window_count. rewrite Hc.
    destruct (_ && _).
    + change (Js.ge (Js.Num 0) (Js.Num 5)) with false. cbv iota.
      cbn [Js.add]. exists 1. split; [lia|].
      cbn [snd items set_items].
      rewrite lookup_insert_ne, lookup_insert_eq by done.
      by rewrite or_else_toString, parseInt_toString.
    + cbn [Js.ge]. destruct (Z.geb_spec n 5); [by exists n|].
      cbn [Js.add]. exists (n + 1). split; [lia|].
      cbn [snd items set_items].
      rewrite lookup_insert_ne, lookup_insert_eq by done.
      by rewrite or_else_toString, parseInt_toString.
  - rewrite shouldUseApi_unavailable_unchanged by (by rewrite Hm). by exists n.
  - rewrite shouldUseApi_denied by done. by exists n.
Qed.

(** X6. However often and at whatever times [shouldUseApi] is called, on
    whatever store, a request count between 0 and 5 stays between 0 and
    5. *)
Theorem request_count_stays_bounded (ts : list Z) (w : World) :
  count_bounded (items w) -> count_bounded (items (calls_at ts w)).
Proof.
  revert w. induction ts as [|t ts IH]; intros w Hw; simpl; [done|].
  apply IH. by apply (shouldUseApi_keeps_count_bounded (set_clock t w)).
Qed.


(** ** getRandomFallbackQuestions for every amount *)

Lemma filter_Permutation_length {A} (p : A -> bool) (l k : list A) :
  l ≡ₚ k -> length (List.filter p l) = length (List.filter p k).
Proof.
  induction 1 as [|x l k _ IH|x y l|l k m _ IH1 _ IH2]; simpl.
  - done.
  - destruct (p x); simpl; congruence.
  - by destruct (p x), (p y).
  - congruence.
Qed.

Lemma filter_all {A} (p : A -> bool) (l : list A) :
  Forall (fun x => p x = true) l -> List.filter p l = l.
Proof. induction 1 as [|x l Hx _ IH]; simpl; [done|]. by rewrite Hx, IH. Qed.

Lemma filter_none {A} (p : A -> bool) (l : list A) :
  Forall (fun x => p x = false) l -> List.filter p l = [].
Proof. induction 1 as [|x l Hx _ IH]; simpl; [done|]. by rewrite Hx. Qed.

Lemma filter_app_list {A} (p : A -> bool) (l k : list A) :
  List.filter p (l ++ k) = List.filter p l ++ List.filter p k.
Proof. induction l as [|x l IH]; simpl; [done|]. destruct (p x); simpl; congruence. Qed.

(** A part of a shuffled difficulty group holds questions of that
    difficulty only. *)
Lemma slice_of_group (d : string) (s : list FormattedQuestion) (e : Z) :
  s ≡ₚ List.filter (has_difficulty d) getAllFallbackQuestions ->
  Forall (fun q => has_difficulty d q = true) (slice0 s e).
Proof.
  intros Hs. apply Forall_forall. intros q Hq.
  assert (Hq' : q ∈ s) by (eapply elem_of_submseteq; [exact Hq|apply slice0_submseteq]).
  rewrite Hs in Hq'. apply list_elem_of_In, filter_In in Hq'. apply Hq'.
Qed.

Lemma group_excludes (d d' : string) (l : list FormattedQuestion) :
  d <> d' ->
  Forall (fun q => has_difficulty d q = true) l ->
  Forall (fun q => has_difficulty d' q = false) l.
Proof.
  intros Hne Hl. eapply Forall_impl; [exact Hl|].
  intros q. by apply has_difficulty_exclusive.
Qed.

Lemma third_of_bounds (amount : Z) :
  33 * amount - 99 <= 100 * third_of amount <= 33 * amount.
Proof.
  unfold third_of.
  pose proof (Z.div_mod (amount * 33) 100 ltac:(lia)).
  pose proof (Z.mod_pos_bound (amount * 33) 100 ltac:(lia)). lia.
Qed.

Lemma getRandomFallbackQuestions_shape (amount : Z) (w : World) :
  0 <= amount <= 90 ->
  exists qs n,
    getRandomFallbackQuestions amount w = (Returned qs, set_cursor n w)
    /\ Z.of_nat (length qs) = amount
    /\ Z.of_nat (length (List.filter (has_difficulty "easy") qs)) = third_of amount
    /\ Z.of_nat (length (List.filter (has_difficulty "medium") qs)) = third_of amount
    /\ Z.of_nat (length (List.filter (has_difficulty "hard") qs))
       = amount - third_of amount - third_of amount
    /\ StronglySorted value_le qs
    /\ qs ⊆+ getAllFallbackQuestions.
Proof.
  intros Ha.
  destruct (getRandomFallbackQuestions_spec amount w)
    as (se & sm & sh & n & Hrun & Hse & Hsm & Hsh).
  pose proof (third_of_bounds amount) as Hb.
  assert (Ht : 0 <= third_of amount <= 29) by lia.
  assert (Hh : 0 <= amount - third_of amount - third_of amount <= 36) by lia.
  set (k := third_of amount) in *. set (h := amount - k - k) in *.
  pose proof (Permutation_length Hse) as Le. rewrite corpus_easy_count in Le.
  pose proof (Permutation_length Hsm) as Lm. rewrite corpus_medium_count in Lm.
  pose proof (Permutation_length Hsh) as Lh. rewrite corpus_hard_count in Lh.
  pose proof (slice_of_group "easy" se k Hse) as Fe.
  pose proof (slice_of_group "medium" sm k Hsm) as Fm.
  pose proof (slice_of_group "hard" sh h Hsh) as Fh.
  assert (Lse : length (slice0 se k) = Z.to_nat k)
    by (rewrite slice0_nonneg, length_take by lia; lia).
  assert (Lsm : length (slice0 sm k) = Z.to_nat k)
    by (rewrite slice0_nonneg, length_take by lia; lia).
  assert (Lsh : length (slice0 sh h) = Z.to_nat h)
    by (rewrite slice0_nonneg, length_take by lia; lia).
  eexists _, n. split; [exact Hrun|].
  pose proof (Array_sort_Permutation by_value
                (slice0 se k ++ slice0 sm k ++ slice0 sh h)) as Hperm.
  split; [|split; [|split; [|split; [|split]]]].
  - rewrite (Permutation_length Hperm), !length_app, Lse, Lsm, Lsh. lia.
  - rewrite (filter_Permutation_length _ _ _ Hperm), !filter_app_list.
    rewrite (filter_all _ _ Fe).
    rewrite (filter_none _ _ (group_excludes "medium" "easy" _ ltac:(done) Fm)).
    rewrite (filter_none _ _ (group_excludes "hard" "easy" _ ltac:(done) Fh)).
    rewrite !length_app, Lse. simpl. lia.
  - rewrite (filter_Permutation_length _ _ _ Hperm), !filter_app_list.
    rewrite (filter_all _ _ Fm).
    rewrite (filter_none _ _ (group_excludes "easy" "medium" _ ltac:(done) Fe)).
    rewrite (filter_none _ _ (group_excludes "hard" "medium" _ ltac:(done) Fh)).
    rewrite !length_app, Lsm. simpl. lia.
  - rewrite (filter_Permutation_length _ _ _ Hperm), !filter_app_list.
    rewrite (filter_all _ _ Fh).
    rewrite (filter_none _ _ (group_excludes "easy" "hard" _ ltac:(done) Fe)).
    rewrite (filter_none _ _ (group_excludes "medium" "hard" _ ltac:(done) Fm)).
    rewrite !length_app, Lsh. simpl. lia.
  - apply Array_sort_by_value_sorted.
  - rewrite Hperm. etrans; [|apply difficulty_groups_submseteq].
    rewrite <- Hse, <- Hsm, <- Hsh.
    repeat apply submseteq_app; apply slice0_submseteq.
Qed.

(** X8. For every amount from 0 to 90 and every stream of draws,
    [getRandomFallbackQuestions] returns exactly [amount] questions:
    [floor (0.33 * amount)] easy ones, as many medium ones, and hard ones
    for the rest, sorted by value and taken from the corpus without
    repetition. *)
Theorem fallback_sample_has_requested_size (amount : Z) (w : World) :
  0 <= amount <= 90 ->
  exists qs n,
    getRandomFallbackQuestions amount w = (Returned qs, set_cursor n w)
    /\ Z.of_nat (length qs) = amount
    /\ Z.of_nat (length (List.filter (has_difficulty "easy") qs)) = third_of amount
    /\ Z.of_nat (length (List.filter (has_difficulty "medium") qs)) = third_of amount
    /\ Z.of_nat (length (List.filter (has_difficulty "hard") qs))
       = amount - third_of amount - third_of amount
    /\ StronglySorted value_le qs
    /\ qs ⊆+ getAllFallbackQuestions.
Proof. exact (getRandomFallbackQuestions_shape amount w). Qed.

Lemma slice0_length_le {A} (l : list A) (e : Z) :
  (length (slice0 l e) <= length l)%nat
  /\ (0 <= e -> Z.of_nat (length (slice0 l e)) <= e).
Proof.
  split.
  - apply submseteq_length, slice0_submseteq.
  - intros He. rewrite slice0_nonneg, length_take by done. lia.
Qed.

(** X9. Asking for more than 90 questions gives fewer than asked for: the
    corpus has only 29 medium questions, and the sample is cut short
    without an error. *)
Theorem fallback_sample_falls_short (amount : Z) (w : World) :
  90 < amount ->
  exists qs n,
    getRandomFallbackQuestions amount w = (Returned qs, set_cursor n w)
    /\ Z.of_nat (length qs) < amount.
Proof.
  intros Ha.
  destruct (getRandomFallbackQuestions_spec amount w)
    as (se & sm & sh & n & Hrun & Hse & Hsm & Hsh).
  pose proof (third_of_bounds amount) as Hb.
  set (k := third_of amount) in *. set (h := amount - k - k) in *.
  pose proof (Permutation_length Hsm) as Lm. rewrite corpus_medium_count in Lm.
  eexists _, n. split; [exact Hrun|].
  rewrite Array_sort_length, !length_app.
  destruct (slice0_length_le se k) as [_ He].
  destruct (slice0_length_le sm k) as [Hm _].
  destruct (slice0_length_le sh h) as [_ Hh].
  subst h. lia.
Qed.

Lemma corpus_four_options : forallb four_options getAllFallbackQuestions = true.
Proof. reflexivity. Qed.

(** X10. For every amount, also a negative or a huge one, and every stream
    of draws, [getRandomFallbackQuestions] returns, and every question it
    returns has four options and a correct index that points at one of
    them. *)
Theorem fallback_sample_is_playable (amount : Z) (w : World) :
  exists qs n,
    getRandomFallbackQuestions amount w = (Returned qs, set_cursor n w)
    /\ Forall (fun q => length (options q) = 4%nat
                        /\ 0 <= correctAnswer q < 4
                        /\ is_Some (at_index (options q) (correctAnswer q))) qs.
Proof.
  destruct (getRandomFallbackQuestions_spec amount w)
    as (se & sm & sh & n & Hrun & Hse & Hsm & Hsh).
  eexists _, n. split; [exact Hrun|].
  assert (Hsub : Array_sort by_value
                   (slice0 se (third_of amount) ++ slice0 sm (third_of amount)
                    ++ slice0 sh (amount - third_of amount - third_of amount))
                 ⊆+ getAllFallbackQuestions).
  { rewrite Array_sort_Permutation.
    etrans; [|apply difficulty_groups_submseteq].
    rewrite <- Hse, <- Hsm, <- Hsh.
    repeat apply submseteq_app; apply slice0_submseteq. }
  apply Forall_forall. intros q Hq.
  assert (Hin : q ∈ getAllFallbackQuestions) by (by eapply elem_of_submseteq).
  pose proof corpus_four_options as Hall.
  rewrite forallb_forall in Hall. apply list_elem_of_In, Hall in Hin.
  unfold four_options in Hin.
  apply andb_prop in Hin as [Hin H3]. apply andb_prop in Hin as [H1 H2].
  apply Nat.eqb_eq in H1. apply Z.leb_le in H2. apply Z.ltb_lt in H3.
  split; [done|]. split; [lia|].
  unfold at_index. destruct (Z.ltb_spec (correctAnswer q) 0); [lia|].
  apply lookup_lt_is_Some. lia.
Qed.

Lemma corpus_hard_values :
  forallb (fun q => bool_decide (value q ∈ [32000; 64000; 125000; 250000; 500000; 1000000]))
          (List.filter (has_difficulty "hard") getAllFallbackQuestions) = true.
Proof. vm_compute. reflexivity. Qed.

(** X11. In every fallback sample of 15 questions two questions carry the
    same prize value: the seven hard questions of the sample share six
    values. The values of a fallback set are therefore never the fifteen
    steps of the money ladder. *)
Theorem fallback_sample_repeats_a_value (w : World) :
  exists qs n,
    getRandomFallbackQuestions 15 w = (Returned qs, set_cursor n w)
    /\ ~ NoDup (map value qs)
    /\ map value qs <> moneyLadder.
Proof.
  destruct (getRandomFallbackQuestions_spec 15 w)
    as (se & sm & sh & n & Hrun & Hse & Hsm & Hsh).
  change (third_of 15) with 4 in Hrun. change (15 - 4 - 4) with 7 in Hrun.
  eexists _, n. split; [exact Hrun|].
  assert (Hdup : ~ NoDup (map value
                   (Array_sort by_value (slice0 se 4 ++ slice0 sm 4 ++ slice0 sh 7)))).
  { intros Hnd. rewrite Array_sort_Permutation, !map_app in Hnd.
    apply NoDup_app in Hnd as (_ & _ & Hnd). apply NoDup_app in Hnd as (_ & _ & Hnd).
    pose proof (Permutation_length Hsh) as Lh. rewrite corpus_hard_count in Lh.
    assert (Hlen : length (map value (slice0 sh 7)) = 7%nat).
    { rewrite length_map, slice0_nonneg, length_take by lia. lia. }
    assert (Hsub : map value (slice0 sh 7)
                   ⊆+ [32000; 64000; 125000; 250000; 500000; 1000000]).
    { apply NoDup_submseteq; [done|]. intros v Hv.
      apply list_elem_of_fmap in Hv as (q & -> & Hq).
      assert (Hq' : q ∈ sh)
        by (eapply elem_of_submseteq; [exact Hq|apply slice0_submseteq]).
      rewrite Hsh in Hq'. pose proof corpus_hard_values as Hall.
      rewrite forallb_forall in Hall. apply list_elem_of_In, Hall in Hq'.
      by apply bool_decide_eq_true in Hq'. }
    apply submseteq_length in Hsub. rewrite Hlen in Hsub. simpl in Hsub. lia. }
  split; [done|]. intros Heq. apply Hdup. rewrite Heq.
  unfold moneyLadder.
  repeat (apply NoDup_cons; split; [rewrite ?elem_of_cons, elem_of_nil; lia|]).
  apply NoDup_nil_2.
Qed.

(** ** fetchQuestions: every way out *)

Lemma triple_bind {A B} (c : M A) (k : A -> M B) P R Q E :
  triple P c R E -> (forall a, triple (R a) (k a) Q E) -> triple P (c ≫= k) Q E.
Proof.
  intros Hc Hk w HP. specialize (Hc w HP). unfold_monad.
  destruct (c w) as [[a|e] w']; [by apply Hk|done].
Qed.

Lemma triple_try_catch {A} (body : M A) (handler : Exn -> M A) P Q E F :
  triple P body Q F -> (forall e, triple (F e) (handler e) Q E) ->
  triple P (try_catch body handler) Q E.
Proof.
  intros Hb Hh w HP. specialize (Hb w HP). unfold try_catch.
  destruct (body w) as [[a|e] w']; [done|by apply Hh].
Qed.

Lemma triple_ret {A} (a : A) (P : World -> Prop) Q E :
  (forall w, P w -> Q a w) -> triple P (mret a) Q E.
Proof. intros HQ w HP. by apply HQ. Qed.

Lemma triple_throw {A} (e : Exn) (P : World -> Prop) (Q : A -> World -> Prop) E :
  (forall w, P w -> E e w) -> triple P (throw e) Q E.
Proof. intros HE w HP. by apply HE. Qed.

Lemma cache_kept_refl (w : World) : cache_kept w w.
Proof. by repeat split. Qed.

Lemma cache_kept_set_cursor (w0 w : World) n :
  cache_kept w0 w -> cache_kept w0 (set_cursor n w).
Proof. unfold cache_kept. by destruct w. Qed.

Lemma cache_kept_set_clock (w0 w : World) t :
  cache_kept w0 w -> cache_kept w0 (set_clock t w).
Proof. unfold cache_kept. by destruct w. Qed.

Lemma cache_kept_set_requests (w0 w : World) l :
  cache_kept w0 w -> cache_kept w0 (set_requests l w).
Proof. unfold cache_kept. by destruct w. Qed.

Lemma fallback_run (amount : Z) (w : World) :
  exists qs n,
    fallback amount w = (Returned (Questions qs), set_cursor n w)
    /\ sampled amount qs.
Proof.
  unfold fallback. unfold_monad.
  destruct (getRandomFallbackQuestions_spec amount w) as (se & sm & sh & n & Hr & _).
  rewrite Hr. eexists _, n. split; [reflexivity|]. by exists w, n.
Qed.

Lemma formatQuestion_cursor_only `{Host} (q : ApiQuestion) (index : nat) (w : World) :
  exists o n,
    formatQuestion q index w = (o, set_cursor n w)
    /\ forall e, o = Thrown e -> is_rate_limit e = false.
Proof.
  assert (Hthrow : forall (e : Exn),
            is_rate_limit e = false ->
            exists o n, (Thrown e : Outcome FormattedQuestion, w) = (o, set_cursor n w)
                        /\ forall e', o = Thrown e' -> is_rate_limit e' = false).
  { intros e He. exists (Thrown e), (cursor w). rewrite set_cursor_same.
    split; [done|]. by intros e' [= <-]. }
  unfold formatQuestion.
  destruct (correct_answer q); [by apply Hthrow|].
  destruct (incorrect_answers q) as [incorrect|]; [|by apply Hthrow].
  destruct (negb _); [by apply Hthrow|].
  unfold_monad.
  match goal with
  | |- context [shuffleArray ?l w] =>
      destruct (shuffleArray_spec l w) as (shuffled & n & -> & _)
  end.
  destruct (difficultyValueMap !! _) as [ladder|].
  - destruct (ladder !! _).
    + eexists _, n. split; [reflexivity|]. by intros e [=].
    + eexists _, n. split; [reflexivity|]. by intros e [= <-].
  - eexists _, n. split; [reflexivity|]. by intros e [= <-].
Qed.

Lemma mapM_formatQuestion_cursor_only `{Host} (l : list ApiQuestion) (index : nat)
    (w : World) :
  exists o n,
    mapM_from formatQuestion l index w = (o, set_cursor n w)
    /\ (forall fqs, o = Returned fqs -> length fqs = length l)
    /\ (forall e, o = Thrown e -> is_rate_limit e = false).
Proof.
  revert index w. induction l as [|q l IH]; intros index w; simpl.
  - exists (Returned []), (cursor w). rewrite set_cursor_same. unfold_monad.
    split; [done|]. split; [by intros fqs [= <-]|by intros e [=]].
  - unfold_monad.
    destruct (formatQuestion_cursor_only q index w) as (o & n & -> & He).
    destruct o as [fq|e].
    + destruct (IH (S index) (set_cursor n w)) as (o' & n' & -> & Hlen & He').
      rewrite set_cursor_set_cursor.
      destruct o' as [fqs|e].
      * eexists _, n'. split; [reflexivity|].
        split; [|by intros e [=]].
        intros ? [= <-]. simpl. f_equal. by apply Hlen.
      * eexists _, n'. split; [reflexivity|].
        split; [by intros ? [=]|]. intros ? [= <-]. by apply He'.
    + eexists _, n. split; [reflexivity|].
      split; [by intros ? [=]|]. intros ? [= <-]. by apply He.
Qed.

Section Paths.
Context `{Host}.

Lemma shouldUseApi_cache_kept (w : World) :
  exists b w',
    shouldUseApi w = (Returned b, w')
    /\ cache_kept w w' /\ requests w' = requests w.
Proof.
  destruct (mode w) eqn:Hm.
  - rewrite shouldUseApi_available by done.
    destruct (cooldown_active _ _);
      [exists false, w; by repeat split; rewrite ?Hm|].
    destruct (Js.ge _ _); [exists false, w; by repeat split; rewrite ?Hm|].
    eexists true, _. split; [reflexivity|].
    unfold cache_kept. cbn [items mode requests set_items].
    rewrite !lookup_insert_ne by done. by rewrite Hm.
  - destruct (shouldUseApi_returns w) as (b & w' & Hs).
    pose proof (shouldUseApi_unavailable_unchanged w) as Hu.
    rewrite Hs in Hu. cbn [snd] in Hu. rewrite Hu in Hs by congruence.
    exists b, w. split; [done|]. split; [apply cache_kept_refl|done].
  - rewrite shouldUseApi_denied by done.
    exists true, w. split; [done|]. split; [apply cache_kept_refl|done].
Qed.

Lemma cacheQuestions_run (qs : list FormattedQuestion) (w : World) :
  exists w',
    cacheQuestions qs w = (Returned tt, w')
    /\ mode w' = mode w
    /\ (mode w <> Available -> w' = w)
    /\ (mode w = Available ->
        items w' !! CACHE_KEY = Some (JSON_stringify qs)
        /\ items w' !! CACHE_TIMESTAMP_KEY = Some (Js.toString (Js.Num (clock w'))))
    /\ forall key, key <> CACHE_KEY -> key <> CACHE_TIMESTAMP_KEY ->
         items w' !! key = items w !! key.
Proof.
  destruct (mode w) eqn:Hm.
  - rewrite cacheQuestions_available by done. eexists; split; [reflexivity|].
    cbn [items mode clock set_items].
    split; [done|]. split; [done|]. split.
    + intros _. by rewrite lookup_insert_eq, lookup_insert_ne, lookup_insert_eq.
    + intros key H1 H2. by rewrite !lookup_insert_ne.
  - unfold cacheQuestions, localStorage_setItem. unfold_monad. rewrite Hm.
    exists w. by rewrite Hm.
  - unfold cacheQuestions, localStorage_setItem. unfold_monad. rewrite Hm.
    exists w. by rewrite Hm.
Qed.

(** [handleRateLimiting] either records the deadline, which keeps the cache,
    or throws the store's error on a store that is not available, with the
    world unchanged. *)
Lemma handleRateLimiting_run (w : World) :
  (mode w = Available /\ exists w', handleRateLimiting w = (Returned tt, w')
                                    /\ cache_kept w w' /\ requests w' = requests w)
  \/ (mode w <> Available
      /\ exists e, handleRateLimiting w = (Thrown e, w)
                   /\ (e = DOMException "QuotaExceededError"
                       \/ e = DOMException "SecurityError")).
Proof.
  destruct (mode w) eqn:Hm.
  - left. split; [done|]. rewrite handleRateLimiting_available by done.
    eexists; split; [reflexivity|].
    unfold cache_kept. cbn [items mode requests set_items].
    rewrite !lookup_insert_ne by done. by rewrite Hm.
  - right. split; [done|].
    unfold handleRateLimiting, Date_now, localStorage_setItem. unfold_monad.
    rewrite Hm. eauto.
  - right. split; [done|].
    unfold handleRateLimiting, Date_now, localStorage_setItem. unfold_monad.
    rewrite Hm. eauto.
Qed.

Lemma cache_kept_trans (w0 w1 w2 : World) :
  cache_kept w0 w1 -> cache_kept w1 w2 -> cache_kept w0 w2.
Proof.
  intros (Hm1 & Hc1 & Ht1 & Hi1) (Hm2 & Hc2 & Ht2 & Hi2).
  repeat split; [congruence..|].
  intros Hn. rewrite Hi2 by congruence. by apply Hi1.
Qed.

Lemma triple_fallback (amount : Z) (w0 : World) (P : World -> Prop)
    (Q : JsValue -> World -> Prop) E :
  (forall w, P w -> cache_kept w0 w) ->
  (forall v w', fell_back amount w0 v w' -> Q v w') ->
  triple P (fallback amount) Q E.
Proof.
  intros HP HQ w Hw. destruct (fallback_run amount w) as (qs & n & -> & Hs).
  apply HQ. split; [by apply cache_kept_set_cursor, HP|]. by exists qs.
Qed.

Lemma triple_data_of (r : Response) (P : World -> Prop)
    (E : Exn -> World -> Prop) :
  (forall e w, is_rate_limit e = false -> P w -> E e w) ->
  triple P (data_of r) (fun _ => P) E.
Proof.
  intros HE w Hw. unfold data_of. destruct (data r); [done|]. by apply HE.
Qed.

(** Every run of [fetchQuestions] ends in one of the four ways. *)
Lemma fetchQuestions_outcomes (amount : Z) (w : World) :
  forall o wf, fetchQuestions amount w = (o, wf) -> fetch_outcome amount w o wf.
Proof.
  intros o wf. unfold fetchQuestions.
  destruct (getCachedQuestions_read_only w) as (v & Hg).
  unfold mbind at 1, M_bind, bind. rewrite Hg.
  destruct (is_truthy v) eqn:Hv; [by intros [= <- <-]; left|].
  destruct (shouldUseApi_cache_kept w) as (b & w1 & Hs & Hk1 & Hr1).
  unfold mbind at 1, M_bind, bind. rewrite Hs.
  set (Q := fun v w' => fell_back amount w v w' \/ fetched_live w v w').
  set (body_error := fun (e : Exn) w' =>
         cache_kept w w'
         /\ (is_rate_limit e = true ->
             requests w' = requests w ++ [url_easy; url_medium; url_hard])).
  match goal with
  | |- ?c w1 = _ -> _ =>
      assert (Hc : triple (fun w' => cache_kept w w' /\ requests w' = requests w) c
                          Q (store_error_escaped w))
  end.
  { destruct b; cbn [negb];
      [|by apply (triple_fallback amount w); [intros ? []|left]].
    apply triple_try_catch with (F := body_error).
    - eapply triple_bind with (R := fun _ w' => cache_kept w w' /\ requests w' = requests w).
      { intros w' [Hk Hr]. split; [by apply cache_kept_set_cursor|by destruct w']. }
      intros r.
      eapply triple_bind with (R := fun _ w' => cache_kept w w' /\ requests w' = requests w).
      { intros w' [Hk Hr]. split; [by apply cache_kept_set_clock|by destruct w']. }
      intros _.
      eapply triple_bind with (R := fun _ w' => cache_kept w w').
      { intros w' [Hk Hr]. unfold await_all_get.
        destruct (first_rejection _) as [[t e]|].
        - split.
          + by apply cache_kept_set_clock, cache_kept_set_requests.
          + intros _. destruct w'; simpl in *. by rewrite Hr.
        - by apply cache_kept_set_clock, cache_kept_set_requests. }
      assert (Hquiet : forall e w', is_rate_limit e = false ->
                                    cache_kept w w' -> body_error e w').
      { intros e w' He Hk. split; [done|]. by rewrite He. }
      assert (Hfb : triple (cache_kept w) (fallback amount) Q body_error).
      { by apply (triple_fallback amount w); [|left]. }
      intros [|easyResponse [|mediumResponse [|hardResponse [|]]]];
        try (apply triple_throw; intros; by apply Hquiet).
      destruct (_ || _).
      { eapply triple_bind with (R := fun _ => cache_kept w); [|by intros].
        intros w' Hk. destruct (handleRateLimiting_run w') as
            [(_ & w2 & -> & Hk2 & _)|(_ & e & -> & [-> | ->])].
        - by apply (cache_kept_trans w w').
        - by apply Hquiet.
        - by apply Hquiet. }
      eapply triple_bind; [by apply triple_data_of|intros easyData].
      destruct (negb _); [done|].
      eapply triple_bind; [by apply triple_data_of|intros mediumData].
      destruct (negb _); [done|].
      eapply triple_bind; [by apply triple_data_of|intros hardData].
      destruct (negb _); [done|].
      cbv zeta.
      destruct (length (default [] easyData.2) =? 5)%nat eqn:He; [|done].
      destruct (length (default [] mediumData.2) =? 5)%nat eqn:Hm; [|done].
      destruct (length (default [] hardData.2) =? 5)%nat eqn:Hh; [|done].
      cbn [negb orb].
      apply Nat.eqb_eq in He, Hm, Hh.
      eapply triple_bind with
        (R := fun fqs w' => cache_kept w w' /\ length fqs = 15%nat).
      { intros w' Hk.
        match goal with
        | |- context [mapM_from formatQuestion ?l ?i w'] =>
            destruct (mapM_formatQuestion_cursor_only l i w')
              as (o' & n & -> & Hlen & Hexn)
        end.
        destruct o' as [fqs|e].
        - split; [by apply cache_kept_set_cursor|].
          rewrite (Hlen fqs eq_refl), !length_app. lia.
        - apply Hquiet; [by apply Hexn|by apply cache_kept_set_cursor]. }
      intros formatted w2 [Hk2 Hlen]. unfold_monad.
      destruct (cacheQuestions_run (Array_sort by_value formatted) w2)
        as (w3 & -> & Hm3 & Hun & Hav & _).
      right. exists formatted. destruct Hk2 as (Hm2 & _ & _ & Hi2).
      split; [done|]. split; [done|]. split; [congruence|]. split.
      + intros Ha. apply Hav. congruence.
      + intros Hn. rewrite Hun by congruence. by apply Hi2.
    - intros e. unfold body_error.
      eapply triple_bind with (R := fun _ => cache_kept w).
      + intros w' [Hk Hr]. destruct (is_rate_limit e); [|done].
        destruct (handleRateLimiting_run w') as
            [(_ & w2 & -> & Hk2 & _)|(Hn & e' & -> & He')].
        * by apply (cache_kept_trans w w').
        * split; [done|]. split; [destruct Hk; congruence|]. split; [done|by apply Hr].
      + intros _. by apply (triple_fallback amount w); [|left]. }
  specialize (Hc w1 (conj Hk1 Hr1)). intros Hrun. rewrite Hrun in Hc.
  destruct o as [v'|e]; [by right|done].
Qed.





(** X15. While the throttle refuses (a cooldown is active or the window is
    full), a call that finds no cache entry is answered from the fallback
    pool: no request is sent, and nothing changes but the position in the
    stream of draws. *)
Theorem throttled_fetch_sends_no_request (amount : Z) (w : World) :
  items w !! CACHE_KEY = None ->
  (shouldUseApi w).1 = Returned false ->
  exists qs n,
    fetchQuestions amount w = (Returned (Questions qs), set_cursor n w)
    /\ getRandomFallbackQuestions amount w = (Returned qs, set_cursor n w).
Proof.
  intros Hc Hs.
  destruct (shouldUseApi_effects w) as (b & w1 & Hrun & Hfalse & _).
  rewrite Hrun in Hs. cbn [fst] in Hs. injection Hs as ->.
  rewrite (Hfalse eq_refl) in Hrun.
  unfold fetchQuestions. unfold mbind at 1, M_bind, bind.
  rewrite getCachedQuestions_absent by done. cbn [is_truthy].
  unfold mbind at 1, M_bind, bind. rewrite Hrun. cbn [negb].
  unfold fallback. unfold_monad.
  destruct (getRandomFallbackQuestions_spec amount w) as (se & sm & sh & n & Hr & _).
  rewrite Hr. eexists _, n. split; reflexivity.
Qed.

(** X16. When the remote source rejects a request with status 429 and the
    store is available, a call that finds no cache entry returns a fallback
    sample, leaves the cache empty and records a deadline thirty minutes
    after its return; until that deadline every [shouldUseApi] on the
    resulting store answers [false]. *)
Theorem rate_limited_fetch_starts_cooldown (amount : Z) (w : World) (t : Z) :
  mode w = Available ->
  items w !! CACHE_KEY = None ->
  (shouldUseApi w).1 = Returned true ->
  first_rejection (map (remote w) [url_easy; url_medium; url_hard])
  = Some (t, AxiosError (Some 429)) ->
  exists qs w',
    fetchQuestions amount w = (Returned (Questions qs), w')
    /\ sampled amount qs
    /\ items w' !! CACHE_KEY = None
    /\ items w' !! API_COOLDOWN_KEY
       = Some (Js.toString (Js.Num (clock w' + API_COOLDOWN)))
    /\ requests w' = requests w ++ [url_easy; url_medium; url_hard]
    /\ forall now, now < clock w' + API_COOLDOWN ->
         shouldUseApi (set_clock now w') = (Returned false, set_clock now w').
Proof.
  intros Hm Hc Hs Hrej.
  rewrite shouldUseApi_available in Hs by done.
  unfold fetchQuestions. unfold mbind at 1, M_bind, bind.
  rewrite getCachedQuestions_absent by done. cbn [is_truthy].
  unfold mbind at 1, M_bind, bind. rewrite shouldUseApi_available by done.
  destruct (cooldown_active _ _); [discriminate|].
  destruct (Js.ge _ _); [discriminate|]. clear Hs. cbn [negb].
  unfold try_catch, Math_random, sleep, await_all_get.
  unfold mbind at 1 2 3, M_bind, bind.
  cbn [remote set_items set_cursor set_clock set_requests].
  rewrite Hrej. cbn [is_rate_limit]. change (429 =? 429) with true. cbv iota.
  unfold mbind at 1, M_bind, bind.
  rewrite handleRateLimiting_available by done.
  match goal with
  | |- context [fallback amount ?w2] =>
      destruct (fallback_run amount w2) as (qs & n & -> & Hsample)
  end.
  eexists qs, _. split; [reflexivity|]. split; [done|].
  cbn [items clock mode requests draws cursor
       set_items set_cursor set_clock set_requests].
  split; [by rewrite !lookup_insert_ne|].
  split; [by rewrite lookup_insert_eq|]. split; [done|].
  intros now Hnow. rewrite shouldUseApi_available by done.
  unfold cooldown_active.
  cbn [items clock mode set_items set_cursor set_clock set_requests].
  rewrite lookup_insert_eq, toString_truthy. simpl default.
  rewrite parseInt_toString. simpl.
  match goal with
  | |- context [?a >? now] => destruct (Z.gtb_spec a now); [done|lia]
  end.
Qed.

End Paths.



(** ** The game: rounds and the 50:50 lifeline *)

Lemma at_index_nat {A} (l : list A) (i : nat) : at_index l (Z.of_nat i) = l !! i.
Proof.
  unfold at_index. destruct (Z.ltb_spec (Z.of_nat i) 0); [lia|]. by rewrite Nat2Z.id.
Qed.

(** A run of correct answers from question [i] on. *)
Lemma play_correct_from (k i : nat) (g : Game) :
  currentQuestionIndex g = Z.of_nat i ->
  isAnswerConfirmed g = false ->
  eliminatedOptions g = [] ->
  (i + S k <= length (questions g))%nat ->
  exists g',
    play (map correctAnswer (take (S k) (drop i (questions g)))) g = Returned g'
    /\ earnedMoney g' = moneyLadder !! (i + k)%nat
    /\ lifelines g' = lifelines g
    /\ questions g' = questions g
    /\ if (i + S k =? length (questions g))%nat
       then gameState g' = result /\ currentQuestionIndex g' = Z.of_nat (i + k)
       else gameState g' = gameState g
            /\ currentQuestionIndex g' = Z.of_nat (i + S k)
            /\ selectedAnswer g' = None
            /\ isAnswerConfirmed g' = false
            /\ eliminatedOptions g' = [].
Proof.
  revert i g. induction k as [|k IH]; intros i g Hi Hc He Hlen.
  all: destruct (lookup_lt_is_Some_2 (questions g) i) as [q Hq]; [lia|].
  all: rewrite (drop_S _ q i Hq); cbn [take map play].
  all: unfold handleAnswerSelect; rewrite Hc, He; cbn [orb].
  all: rewrite bool_decide_eq_false_2 by apply not_elem_of_nil.
  all: unfold confirmAnswer;
    cbn [selectedAnswer questions currentQuestionIndex gameState lifelines
         eliminatedOptions isAnswerConfirmed earnedMoney].
  all: rewrite Hi, !at_index_nat, Hq, Z.eqb_refl.
  - destruct (Z.eqb_spec (Z.of_nat i) (Z.of_nat (length (questions g)) - 1)) as [Hf|Hf].
    + eexists; split; [reflexivity|]. cbn. rewrite Nat.add_0_r.
      split; [done|]. split; [done|]. split; [done|].
      destruct (Nat.eqb_spec (i + 1) (length (questions g))); [done|lia].
    + eexists; split; [reflexivity|]. cbn. rewrite Nat.add_0_r.
      split; [done|]. split; [done|]. split; [done|].
      destruct (Nat.eqb_spec (i + 1) (length (questions g))); [lia|].
      repeat split. lia.
  - destruct (Z.eqb_spec (Z.of_nat i) (Z.of_nat (length (questions g)) - 1)) as [Hf|Hf];
      [lia|].
    match goal with
    | |- context [play _ ?g1] =>
        destruct (IH (S i) g1) as (g' & Hrun & Hm & Hl & Hqs & Hend);
          [cbn; lia|done|done|cbn; lia|]
    end.
    cbn [questions] in Hrun, Hqs, Hend.
    exists g'. split; [exact Hrun|].
    replace (i + S k)%nat with (S i + k)%nat by lia.
    replace (i + S (S k))%nat with (S i + S k)%nat by lia.
    split; [done|]. split; [done|]. split; [done|]. exact Hend.
Qed.

(** X17. A game that starts at the first question and in which the user
    clicks the correct option and confirms, round after round: after [k]
    rounds the money earned is the [k]-th amount of the ladder and the
    lifelines are untouched; before the last question the game is at
    question [k + 1] with nothing selected, confirmed or eliminated, and
    after the last one it is over. *)
Theorem correct_answers_climb_the_ladder (k : nat) (g : Game) :
  currentQuestionIndex g = 0 ->
  isAnswerConfirmed g = false ->
  eliminatedOptions g = [] ->
  (1 <= k <= length (questions g))%nat ->
  exists g',
    play (map correctAnswer (take k (questions g))) g = Returned g'
    /\ earnedMoney g' = moneyLadder !! (k - 1)%nat
    /\ lifelines g' = lifelines g
    /\ questions g' = questions g
    /\ if (k =? length (questions g))%nat
       then gameState g' = result
       else gameState g' = gameState g
            /\ currentQuestionIndex g' = Z.of_nat k
            /\ selectedAnswer g' = None
            /\ isAnswerConfirmed g' = false
            /\ eliminatedOptions g' = [].
Proof.
  intros Hi Hc He Hk. destruct k as [|k]; [lia|].
  destruct (play_correct_from k 0 g Hi Hc He) as (g' & Hrun & Hm & Hl & Hq & Hend);
    [lia|].
  rewrite drop_0 in Hrun. cbn [Nat.add] in *.
  exists g'. split; [exact Hrun|].
  replace (S k - 1)%nat with k by lia.
  split; [done|]. split; [done|]. split; [done|].
  destruct (S k =? length (questions g))%nat; [apply Hend|exact Hend].
Qed.

(** What the 50:50 lifeline returns when it fires. *)
Lemma useFiftyFifty_fires (g : Game) (w : World) (current : FormattedQuestion) :
  fifty (lifelines g) = true ->
  isAnswerConfirmed g = false ->
  at_index (questions g) (currentQuestionIndex g) = Some current ->
  exists shuffled n,
    useFiftyFifty g w
    = (Returned {| gameState := gameState g;
                   questions := questions g;
                   currentQuestionIndex := currentQuestionIndex g;
                   selectedAnswer := selectedAnswer g;
                   isAnswerConfirmed := isAnswerConfirmed g;
                   earnedMoney := earnedMoney g;
                   lifelines := {| fifty := false;
                                   audience := audience (lifelines g);
                                   phone := phone (lifelines g) |};
                   eliminatedOptions := slice0 shuffled 2 |},
       set_cursor n w)
    /\ forall x, x ∈ slice0 shuffled 2 -> x <> correctAnswer current.
Proof.
  intros Hf Hc Hq. unfold useFiftyFifty. rewrite Hf, Hc, Hq. cbn [negb orb].
  unfold_monad. unfold Array_sortM.
  destruct (wrong_options (correctAnswer current)) as (_ & _ & _ & Hmem).
  cbv zeta in Hmem.
  set (wrongOptions := List.filter _ _) in *.
  destruct (Array_sortM_from_random_order [] wrongOptions w) as (l' & n & -> & Hl').
  simpl in Hl'.
  exists l', n. split; [reflexivity|].
  intros x Hx. apply Hmem. rewrite <- Hl'.
  eapply elem_of_submseteq; [exact Hx|apply slice0_submseteq].
Qed.

(** X18. After the 50:50 lifeline has fired, a click on an eliminated
    option changes nothing, a click on the correct option selects it, the
    option selected before is still selected, and a second use of the
    lifeline changes nothing and draws no random number. *)
Theorem fifty_fifty_then_clicks (g : Game) (w : World) (current : FormattedQuestion) :
  fifty (lifelines g) = true ->
  isAnswerConfirmed g = false ->
  at_index (questions g) (currentQuestionIndex g) = Some current ->
  exists g' w',
    useFiftyFifty g w = (Returned g', w')
    /\ (forall x, x ∈ eliminatedOptions g' -> handleAnswerSelect x g' = g')
    /\ selectedAnswer (handleAnswerSelect (correctAnswer current) g')
       = Some (correctAnswer current)
    /\ selectedAnswer g' = selectedAnswer g
    /\ useFiftyFifty g' w' = (Returned g', w').
Proof.
  intros Hf Hc Hq.
  destruct (useFiftyFifty_fires g w current Hf Hc Hq) as (l & n & Hrun & Hwrong).
  eexists _, _. split; [exact Hrun|].
  split; [|split; [|split; [done|done]]].
  - intros x Hx. unfold handleAnswerSelect.
    cbn [isAnswerConfirmed eliminatedOptions] in *.
    by rewrite Hc, bool_decide_eq_true_2.
  - unfold handleAnswerSelect. cbn [isAnswerConfirmed eliminatedOptions].
    rewrite Hc, bool_decide_eq_false_2; [done|].
    intros Hx. by apply Hwrong in Hx.
Qed.


(** ** loadQuestions *)

Section Loading.
Context `{Host}.

Lemma sample_15 (w : World) :
  exists qs n,
    getRandomFallbackQuestions 15 w = (Returned qs, set_cursor n w)
    /\ length qs = 15%nat /\ StronglySorted value_le qs.
Proof.
  destruct (getRandomFallbackQuestions_shape 15 w ltac:(lia))
    as (qs & n & Hrun & Hlen & _ & _ & _ & Hsorted & _).
  exists qs, n. split; [exact Hrun|]. split; [lia|exact Hsorted].
Qed.

(** X19. [loadQuestions] never fails and always starts the game: for
    every store, remote source and stream of draws it ends on the playing
    screen, and the questions it sets are 15 in number, unless the cache
    held a truthy value that is no array of questions and has length 15,
    which is set as it is. *)
Theorem loadQuestions_always_starts_the_game (foreignLength : option Z) (w : World) :
  exists v w',
    Loader.loadQuestions foreignLength w = (Returned v, w')
    /\ Loader.gameState v = playing
    /\ ((exists qs, Loader.questions v = Questions qs /\ length qs = 15%nat)
        \/ (Loader.questions v = Foreign
            /\ foreignLength = Some 15
            /\ getCachedQuestions (set_cursor (S (cursor w)) w)
               = (Returned Foreign, set_cursor (S (cursor w)) w))).
Proof.
  unfold Loader.loadQuestions, Math_random. unfold mbind at 1, M_bind, bind.
  cbv zeta. unfold try_catch.
  set (w1 := set_cursor (S (cursor w)) w).
  unfold mbind at 1, M_bind, bind.
  destruct (fetchQuestions 15 w1) as [[v|e] w2] eqn:Hrun.
  - unfold mbind at 1, M_bind, bind.
    destruct v as [qs| | |]; cbn [Loader.length_of]; unfold_monad.
    + destruct (bool_decide_reflect (Some (Z.of_nat (length qs)) = Some 15)) as [Hl|Hl];
        cbn [negb].
      * eexists _, _. split; [reflexivity|]. split; [done|]. left.
        exists qs. split; [done|]. injection Hl as Hl. lia.
      * destruct (sample_15 w2) as (qs' & n & -> & Hlen & _).
        eexists _, _. split; [reflexivity|]. split; [done|]. left. by exists qs'.
    + destruct (sample_15 w2) as (qs' & n & -> & Hlen & _).
      eexists _, _. split; [reflexivity|]. split; [done|]. left. by exists qs'.
    + rewrite bool_decide_eq_false_2 by done. cbn [negb].
      destruct (sample_15 w2) as (qs' & n & -> & Hlen & _).
      eexists _, _. split; [reflexivity|]. split; [done|]. left. by exists qs'.
    + destruct (bool_decide_reflect (foreignLength = Some 15)) as [Hl|Hl]; cbn [negb].
      * eexists _, _. split; [reflexivity|]. split; [done|]. right.
        split; [done|]. split; [done|].
        apply fetchQuestions_outcomes in Hrun.
        destruct Hrun as [(Hhit & _)|[(_ & qs & Hq & _)|(qs & Hq & _)]];
          [exact Hhit|discriminate..].
      * destruct (sample_15 w2) as (qs' & n & -> & Hlen & _).
        eexists _, _. split; [reflexivity|]. split; [done|]. left. by exists qs'.
  - unfold_monad. destruct (sample_15 w2) as (qs' & n & -> & Hlen & _).
    eexists _, _. split; [reflexivity|]. split; [done|]. left. by exists qs'.
Qed.

(** X20. When [fetchQuestions] throws, [loadQuestions] catches the
    exception and starts the game with a fallback sample of 15 questions
    sorted by value; the loading message it had put on the screen stays
    there. *)
Theorem loadQuestions_absorbs_the_store_error (foreignLength : option Z) (w : World)
    (e : Exn) (w2 : World) :
  fetchQuestions 15 (set_cursor (S (cursor w)) w) = (Thrown e, w2) ->
  exists qs message n,
    Loader.loadQuestions foreignLength w
    = (Returned {| Loader.gameState := playing;
                   Loader.questions := Questions qs;
                   Loader.error := Some message |},
       set_cursor n w2)
    /\ length qs = 15%nat
    /\ StronglySorted value_le qs
    /\ message ∈ Loader.loadingMessages.
Proof.
  intros Hrun.
  unfold Loader.loadQuestions, Math_random. unfold mbind at 1, M_bind, bind.
  cbv zeta. unfold try_catch.
  unfold mbind at 1, M_bind, bind. rewrite Hrun.
  unfold_monad. destruct (sample_15 w2) as (qs & n & -> & Hlen & Hsorted).
  pose proof (floor_scale_range (draws w (cursor w))
                (Z.of_nat (length Loader.loadingMessages)) ltac:(done)) as Hj.
  destruct (lookup_lt_is_Some_2 Loader.loadingMessages
              (Z.to_nat (Js.floor_scale (mantissa (draws w (cursor w)))
                           (Z.of_nat (length Loader.loadingMessages)))))
    as [message Hmsg]; [lia|].
  exists qs, message, n. rewrite Hmsg.
  split; [reflexivity|]. split; [done|]. split; [done|].
  by eapply list_elem_of_lookup_2.
Qed.

End Loading.


(** ** The further theorems at concrete inputs *)

Lemma getCachedQuestions_null_cases_witness :
  getCachedQuestions (Reference.world Available 0 Reference.offline)
  = (Returned Null, Reference.world Available 0 Reference.offline).
Proof.
  apply (getCachedQuestions_null_cases (Reference.world Available 0 Reference.offline)).
  right. left. reflexivity.
Defined.


Lemma request_count_stays_bounded_witness :
  count_bounded
    (items (calls_at [0; 1000; 2000; 3000; 4000; 5000; 6000]
              (Reference.world Available 0 Reference.offline))).
Proof.
  apply (request_count_stays_bounded [0; 1000; 2000; 3000; 4000; 5000; 6000]
           (Reference.world Available 0 Reference.offline)).
  exists 0. split; [lia|reflexivity].
Defined.


Lemma fallback_sample_has_requested_size_witness :
  exists qs n,
    getRandomFallbackQuestions 30 (Reference.world Available 0 Reference.offline)
    = (Returned qs, set_cursor n (Reference.world Available 0 Reference.offline))
    /\ Z.of_nat (length qs) = 30
    /\ Z.of_nat (length (List.filter (has_difficulty "easy") qs)) = third_of 30
    /\ Z.of_nat (length (List.filter (has_difficulty "medium") qs)) = third_of 30
    /\ Z.of_nat (length (List.filter (has_difficulty "hard") qs))
       = 30 - third_of 30 - third_of 30
    /\ StronglySorted value_le qs
    /\ qs ⊆+ getAllFallbackQuestions.
Proof.
  apply (fallback_sample_has_requested_size 30
           (Reference.world Available 0 Reference.offline)).
  lia.
Defined.

Lemma fallback_sample_falls_short_witness :
  exists qs n,
    getRandomFallbackQuestions 100 (Reference.world Available 0 Reference.offline)
    = (Returned qs, set_cursor n (Reference.world Available 0 Reference.offline))
    /\ Z.of_nat (length qs) < 100.
Proof.
  apply (fallback_sample_falls_short 100 (Reference.world Available 0 Reference.offline)).
  lia.
Defined.



Lemma throttled_fetch_sends_no_request_witness :
  let w := set_items (insert API_COOLDOWN_KEY "99999999")
             (Reference.world Available 1000 Reference.live) in
  exists qs n,
    fetchQuestions 15 w = (Returned (Questions qs), set_cursor n w)
    /\ getRandomFallbackQuestions 15 w = (Returned qs, set_cursor n w).
Proof.
  apply (throttled_fetch_sends_no_request 15
           (set_items (insert API_COOLDOWN_KEY "99999999")
              (Reference.world Available 1000 Reference.live))).
  - reflexivity.
  - vm_compute. reflexivity.
Defined.

Lemma rate_limited_fetch_starts_cooldown_witness :
  let w := Reference.world Available 1000 Reference.rate_limited in
  exists qs w',
    fetchQuestions 15 w = (Returned (Questions qs), w')
    /\ sampled 15 qs
    /\ items w' !! CACHE_KEY = None
    /\ items w' !! API_COOLDOWN_KEY
       = Some (Js.toString (Js.Num (clock w' + API_COOLDOWN)))
    /\ requests w' = requests w ++ [url_easy; url_medium; url_hard]
    /\ forall now, now < clock w' + API_COOLDOWN ->
         shouldUseApi (set_clock now w') = (Returned false, set_clock now w').
Proof.
  apply (rate_limited_fetch_starts_cooldown 15
           (Reference.world Available 1000 Reference.rate_limited) 80).
  - reflexivity.
  - reflexivity.
  - vm_compute. reflexivity.
  - vm_compute. reflexivity.
Defined.

Lemma correct_answers_climb_the_ladder_witness :
  exists g',
    play (map correctAnswer (take 15 (questions (game_at 0 0)))) (game_at 0 0)
    = Returned g'
    /\ earnedMoney g' = Some 1000000
    /\ lifelines g' = lifelines (game_at 0 0)
    /\ questions g' = questions (game_at 0 0)
    /\ gameState g' = result.
Proof.
  apply (correct_answers_climb_the_ladder 15 (game_at 0 0)).
  - reflexivity.
  - reflexivity.
  - reflexivity.
  - vm_compute. lia.
Defined.

Lemma fifty_fifty_then_clicks_witness :
  exists g' w',
    useFiftyFifty (game_at 4 0) (Reference.world Available 0 Reference.offline)
    = (Returned g', w')
    /\ (forall x, x ∈ eliminatedOptions g' -> handleAnswerSelect x g' = g')
    /\ selectedAnswer (handleAnswerSelect 1 g') = Some 1
    /\ selectedAnswer g' = selectedAnswer (game_at 4 0)
    /\ useFiftyFifty g' w' = (Returned g', w').
Proof.
  apply (fifty_fifty_then_clicks (game_at 4 0)
           (Reference.world Available 0 Reference.offline)
           (Build_FormattedQuestion 5 "Which element has the chemical symbol 'O'?"
              ["Gold"; "Oxygen"; "Osmium"; "Oganesson"] 1 "Science" "easy" 1000)).
  - reflexivity.
  - reflexivity.
  - reflexivity.
Defined.

Lemma loadQuestions_absorbs_the_store_error_witness :
  let w := Reference.world QuotaExceeded 1000 Reference.rate_limited in
  exists qs message n,
    Loader.loadQuestions None w
    = (Returned {| Loader.gameState := playing;
                   Loader.questions := Questions qs;
                   Loader.error := Some message |},
       set_cursor n (fetchQuestions 15 (set_cursor 1 w)).2)
    /\ length qs = 15%nat
    /\ StronglySorted value_le qs
    /\ message ∈ Loader.loadingMessages.
Proof.
  apply (loadQuestions_absorbs_the_store_error None
           (Reference.world QuotaExceeded 1000 Reference.rate_limited)
           (DOMException "QuotaExceededError")
           (fetchQuestions 15
              (set_cursor 1 (Reference.world QuotaExceeded 1000 Reference.rate_limited))).2).
  vm_compute. reflexivity.
Defined.

Lemma fetchQuestions_returns_on_available_store_witness :
  exists v w',
    fetchQuestions 15 (Reference.world Available 1000 Reference.offline) = (Returned v, w').
Proof.
  apply (fetchQuestions_returns_on_available_store 15
           (Reference.world Available 1000 Reference.offline)).
  reflexivity.
Defined.
